(** * QA Intelligence Dashboard: the Azure DevOps aggregation service

    A shallow embedding of the service class [AzureDevOpsService]
    (the revision that carries [buildBreakdown], [getBuildsByDate],
    [getTestResultsByPipelines] and [getProjectDataFromPipelines]) and of
    the orchestration in [App.tsx] ([fetchFromPipelines],
    [fetchFromTestPlans], [fetchFromDemo], [refreshData]).

    Conventions of the embedding
    - a JavaScript [number] holding a counter or an id is a [Z]: counters
      and ids are integers within the safe range, where a double holds
      them exactly and sums are exact;
    - a pass rate is the exact value, a rational [Q], of the double the
      code computes: every [/] and [*] rounds to the nearest binary64
      number, ties to even ([Js.roundDouble]); a rate that went through
      [toFixed(1)] is the decimal [parseFloat] reads; [NaN] and [Infinity]
      have no representation, and every division of the service is under
      a guard that its divisor is positive;
    - a field typed [T | undefined] is an [option T]; truthiness tests are
      written out ([truthy]);
    - an [async] method is a computation in the monad [M]: it yields the
      console and network events it produced and either the thrown error
      or the value;
    - the remote REST API is an oracle [Remote]: one function per endpoint,
      returning the decoded payload or the error [request] throws. *)

From Stdlib Require Import List String Ascii ZArith QArith Qround Qabs Qpower Lia Lqa Bool.
From Stdlib Require Import SpecFloat.
From Stdlib Require Import DecimalString DecimalZ DecimalPos FinFun.
Import ListNotations.

Local Open Scope string_scope.
Local Open Scope Z_scope.

(** ** JavaScript primitives used by the service *)

Module Js.

(** [Boolean(s)] for a string: the empty string is the only falsy one. *)
Definition truthy (s : string) : bool :=
  match s with EmptyString => false | String _ _ => true end.

(** [Boolean(n)] for a number (NaN does not occur on integers). *)
Definition truthyNum (n : Z) : bool := negb (n =? 0).

(** [Boolean(s)] for [s : string | undefined]. *)
Definition truthyOpt (s : option string) : bool :=
  match s with Some s' => truthy s' | None => false end.

(** [a || b] on strings. *)
Definition orElse (a b : string) : string := if truthy a then a else b.

(** [`${n}`] and [n.toString()] for an integral number. *)
Definition toString (n : Z) : string := NilZero.string_of_int (Z.to_int n).

(** [arr.join(sep)]. *)
Definition join (sep : string) (l : list string) : string := String.concat sep l.

(** [s.split(sep)] for a one-character separator: never the empty array. *)
Fixpoint split (sep : ascii) (s : string) : list string :=
  match s with
  | EmptyString => [EmptyString]
  | String c rest =>
      if Ascii.eqb c sep then EmptyString :: split sep rest
      else match split sep rest with
           | [] => [String c EmptyString]
           | seg :: segs => String c seg :: segs
           end
  end.

(** [arr.pop()]: the last element, [undefined] on the empty array. *)
Definition pop (l : list string) : option string :=
  match rev l with [] => None | x :: _ => Some x end.

(** [arr.slice(0, n)]. *)
Definition slice0 {A} (n : nat) (l : list A) : list A := firstn n l.

(** [parseFloat(x.toFixed(1))] on the exact value [x] of a double: the
    nearest multiple of one tenth; of two equally near ones [toFixed]
    picks the larger in magnitude. *)
Definition toFixed1 (x : Q) : Q :=
  if Qle_bool 0 x then Qfloor (x * 10 + (1 # 2)) # 10
  else - (Qfloor ((- x) * 10 + (1 # 2)) # 10).

(** *** Binary64 arithmetic

    A finite double is the rational it denotes.  An arithmetic operation
    yields the double nearest to the exact result, ties to even. *)

(** [floor (log2 x)] for a positive [x]. *)
Definition ilog2 (x : Q) : Z :=
  let k := (Z.log2 (Qnum x) - Z.log2 (Zpos (Qden x)))%Z in
  if Qle_bool (2 ^ k) x then k else (k - 1)%Z.

(** The nearest integer, ties to the even one. *)
Definition roundEven (y : Q) : Z :=
  let f := Qfloor y in
  match (y - inject_Z f ?= 1 # 2)%Q with
  | Lt => f
  | Gt => f + 1
  | Eq => if Z.even f then f else f + 1
  end.

(** The double nearest to a positive rational: a significand of 53 bits
    at the exponent of [x], which is never below the exponent [-1074] of
    the subnormal numbers.  (Overflow is out of reach of quotients and
    percentages of counters.) *)
Definition roundPositive (x : Q) : Q :=
  let e := Z.max (ilog2 x - 52) (-1074) in
  (inject_Z (roundEven (x / 2 ^ e)) * 2 ^ e)%Q.

Definition roundDouble (x : Q) : Q :=
  match Qnum x with
  | Z0 => 0%Q
  | Zpos _ => roundPositive x
  | Zneg _ => (- roundPositive (- x))%Q
  end.

(** [a / b] for a divisor other than zero, and [a * b]. *)
Definition div (a b : Q) : Q := roundDouble (a / b).
Definition mul (a b : Q) : Q := roundDouble (a * b).

(** [(a / b) * 100] on numbers that hold integers. *)
Definition percent (a b : Z) : Q := mul (div (inject_Z a) (inject_Z b)) 100.

(** The same product computed with the Standard Library's specification
    of IEEE-754 arithmetic at the binary64 format (53 bits of precision,
    exponents below 1024). *)
Definition binary64OfZ (z : Z) : spec_float := binary_normalize 53 1024 z 0 false.

Definition binary64Value (x : spec_float) : Q :=
  match x with
  | S754_finite s m e => ((if s then - 1 else 1) * inject_Z (Zpos m) * 2 ^ e)%Q
  | _ => 0%Q
  end.

Definition percentBinary64 (a b : Z) : Q :=
  binary64Value
    (SFmul 53 1024 (SFdiv 53 1024 (binary64OfZ a) (binary64OfZ b)) (binary64OfZ 100)).

(** Property names every object literal inherits from [Object.prototype];
    reading one of them from [{...}] yields a function (or, for
    [__proto__], the prototype object): a truthy value that is not a
    string. *)
Definition objectPrototypeNames : list string :=
  [ "constructor"; "hasOwnProperty"; "isPrototypeOf"; "propertyIsEnumerable";
    "toLocaleString"; "toString"; "valueOf"; "__proto__";
    "__defineGetter__"; "__defineSetter__"; "__lookupGetter__"; "__lookupSetter__" ].

(** The value of [obj[key]] for an object literal [obj] used as a table. *)
Inductive Property (A : Type) : Type :=
| Own (a : A)
| Inherited (name : string)
| Undefined.
Arguments Own {A} a.
Arguments Inherited {A} name.
Arguments Undefined {A}.

Fixpoint ownProperty {A} (obj : list (string * A)) (key : string) : option A :=
  match obj with
  | [] => None
  | (k, v) :: rest => if String.eqb k key then Some v else ownProperty rest key
  end.

Definition isInherited (key : string) : bool :=
  existsb (String.eqb key) objectPrototypeNames.

Definition get {A} (obj : list (string * A)) (key : string) : Property A :=
  match ownProperty obj key with
  | Some v => Own v
  | None => if isInherited key then Inherited key else Undefined
  end.

(** The local calendar fields of a [Date]. *)
Record Date : Type := mkDate {
  year : Z; month : Z; day : Z;
  hours : Z; minutes : Z; seconds : Z; milliseconds : Z
}.

(** [d.setHours(h, m, s, ms)] on a copy of [d]. *)
Definition setHours (d : Date) (h m s ms : Z) : Date :=
  {| year := year d; month := month d; day := day d;
     hours := h; minutes := m; seconds := s; milliseconds := ms |}.

End Js.

(** ** Records of the remote API and of the reporting model *)

Definition Environment := string.

Inductive Outcome : Type := Passed | Failed | NotExecuted | Blocked.

Definition Outcome_eqb (a b : Outcome) : bool :=
  match a, b with
  | Passed, Passed | Failed, Failed | NotExecuted, NotExecuted | Blocked, Blocked => true
  | _, _ => false
  end.

Module AzureDevOpsConfig.
Record t : Type := mk {
  organization : string;
  personalAccessToken : string;
  baseUrl : string
}.
End AzureDevOpsConfig.

Module AzureTestRun.
Record t : Type := mk {
  id : Z;
  name : string;
  state : string;
  isAutomated : bool;
  totalTests : Z;
  passedTests : Z;
  failedTests : Z;
  notApplicableTests : Z;
  startedDate : string;
  completedDate : string
}.
End AzureTestRun.

Module AzureTestResult.
Record t : Type := mk {
  id : Z;
  testCaseTitle : string;
  outcome : Outcome;
  state : string;
  durationInMs : Z;
  errorMessage : option string;
  stackTrace : option string;
  automatedTestName : option string;
  automatedTestType : option string;
  testCase : string * string
}.
End AzureTestResult.

Module AzureWorkItem.
Record Fields : Type := mkFields {
  Title : string;
  State : string;
  AssignedTo : option string;   (* the [displayName] of the assignee object *)
  Severity : option string;
  CreatedDate : string;
  AreaPath : string
}.
Record t : Type := mk {
  id : Z;
  fields : Fields
}.
End AzureWorkItem.

Module AzureBuild.
Record Definition_ : Type := mkDefinition {
  name : string;
  definitionId : Z
}.
Record t : Type := mk {
  id : Z;
  buildNumber : string;
  status : string;
  result : string;
  queueTime : string;
  startTime : string;
  finishTime : string;
  definition : Definition_
}.
End AzureBuild.

Module TestTypeBreakdown.
Record t : Type := mk {
  total : Z;
  passed : Z;
  failed : Z;
  skipped : Z;
  passRate : Q
}.
End TestTypeBreakdown.

(** The module object.  [automated] and [manual] are optional here because
    the two strategies build the object from different literals and only
    one of the literals has these two properties. *)
Module ModuleTestResult.
Record t : Type := mk {
  moduleId : string;
  moduleName : string;
  totalTests : Z;
  executed : Z;
  passed : Z;
  failed : Z;
  skipped : Z;
  passRate : Q;
  automatedTests : Z;
  manualTests : Z;
  automated : option TestTypeBreakdown.t;
  manual : option TestTypeBreakdown.t;
  linkedDefects : list string;
  lastRunTime : option string
}.
End ModuleTestResult.

Module ProjectData.
Record t : Type := mk {
  projectId : string;
  projectName : string;
  modules : list ModuleTestResult.t;
  totalTests : Z;
  executed : Z;
  passed : Z;
  failed : Z;
  skipped : Z;
  passRate : Q;
  automatedTests : Z;
  manualTests : Z;
  automated : TestTypeBreakdown.t;
  manual : TestTypeBreakdown.t;
  lastRunTime : option string;
  runCount : option Z
}.
End ProjectData.

Inductive Severity : Type := critical | major | minor | trivial.
Inductive Status : Type := open | in_progress | resolved | closed.

(** What a table lookup followed by [|| fallback] stores in a field: one of
    the labels of the union type, or a member of [Object.prototype]. *)
Inductive Slot (A : Type) : Type :=
| Label (a : A)
| PrototypeMember (name : string).
Arguments Label {A} a.
Arguments PrototypeMember {A} name.

Module Defect.
Record t : Type := mk {
  id : string;
  title : string;
  severity : Slot Severity;
  status : Slot Status;
  assignee : string;
  createdDate : string;
  environment : Environment;
  linkedTestIds : list string;
  workItemUrl : string
}.
End Defect.

(** An element of [workItems] in the response to a WIQL query. *)
Module WorkItemRef.
Record t : Type := mk { id : Z }.
End WorkItemRef.

(** The element type of the array [getTestResultsByPipelines] returns. *)
Module PipelineResult.
Record t : Type := mk {
  pipelineName : string;
  definitionId : Z;
  buildId : Z;
  buildNumber : string;
  completedDate : string;
  totalTests : Z;
  passed : Z;
  failed : Z;
  skipped : Z;
  results : list AzureTestResult.t
}.
End PipelineResult.

(** ** Errors, events and the monad of [async] methods *)

(** What a method can throw.  [request] throws [ApiError] on a non-2xx
    response; [fetch] itself rejects with [NetworkError]; the two others are
    the run-time errors of the language. *)
Inductive Error : Type :=
| ApiError (status : Z) (statusText : string)
| NetworkError (message : string)
| ReferenceError (name : string)
| TypeError (message : string).

(** [err.message]. *)
Definition message (e : Error) : string :=
  match e with
  | ApiError status statusText =>
      "Azure DevOps API error: " ++ Js.toString status ++ " " ++ statusText
  | NetworkError m => m
  | ReferenceError n => n ++ " is not defined"
  | TypeError m => m
  end.

(** The requests the service sends, one constructor per endpoint. *)
Inductive Request : Type :=
| ReqProjects
| ReqTestRuns (project : string) (minLastUpdatedDate maxLastUpdatedDate : option Js.Date)
| ReqTestResults (project : string) (runId : Z)
| ReqWiql (project : string) (query : string)
| ReqWorkItems (project : string) (ids : list Z)
| ReqBuilds (project : string) (minTime : Js.Date) (maxTime : option Js.Date) (top : Z)
| ReqTestRunsForBuild (project : string) (buildId : Z)
| ReqAreaPaths (project : string).

(** The decoded body of the response to each request.  [workItems] of the
    WIQL response and [children] of the classification node are read with
    [?.], hence optional. *)
Definition Payload (r : Request) : Type :=
  match r with
  | ReqProjects => list (string * string)
  | ReqTestRuns _ _ _ => list AzureTestRun.t
  | ReqTestResults _ _ => list AzureTestResult.t
  | ReqWiql _ _ => option (list WorkItemRef.t)
  | ReqWorkItems _ _ => list AzureWorkItem.t
  | ReqBuilds _ _ _ _ => list AzureBuild.t
  | ReqTestRunsForBuild _ _ => list AzureTestRun.t
  | ReqAreaPaths _ => option (list string)
  end.

(** The remote API as seen by one service instance. *)
Definition Remote : Type := forall r : Request, Error + Payload r.

Inductive Event : Type :=
| Fetch (r : Request)
| ConsoleWarn (msg : string) (err : Error)
| ConsoleError (msg : string) (err : Error).

Definition M (A : Type) : Type := list Event * (Error + A).

Definition ret {A} (a : A) : M A := ([], inr a).

Definition throw {A} (e : Error) : M A := ([], inl e).

Definition bind {A B} (m : M A) (f : A -> M B) : M B :=
  match m with
  | (t1, inl e) => (t1, inl e)
  | (t1, inr a) => let (t2, r) := f a in ((t1 ++ t2)%list, r)
  end.

(** [try { m } catch (err) { h err }]. *)
Definition tryCatch {A} (m : M A) (h : Error -> M A) : M A :=
  match m with
  | (t1, inl e) => let (t2, r) := h e in ((t1 ++ t2)%list, r)
  | (t1, inr a) => (t1, inr a)
  end.

Definition emit (e : Event) : M unit := ([e], inr tt).

(** The events of a run and its outcome. *)
Definition events {A} (m : M A) : list Event := fst m.
Definition outcomeOf {A} (m : M A) : Error + A := snd m.

(** The [Fetch] events of a trace, in order. *)
Definition fetches (t : list Event) : list Request :=
  flat_map (fun e => match e with Fetch r => [r] | _ => [] end) t.

Declare Scope js_scope.
Delimit Scope js_scope with js.
Notation "x <- m ;; k" := (bind m (fun x => k))
  (at level 61, m at next level, right associativity) : js_scope.
Notation "m ;;; k" := (bind m (fun _ => k))
  (at level 61, right associativity) : js_scope.
Local Open Scope js_scope.

(** [await Promise.all([a, b, c])]: the three computations are all started;
    the result is the triple when all fulfil and a rejection otherwise.
    Which rejection wins and how the events interleave is a matter of
    timing; the model reports the first rejection in argument order and
    lists the events of [a], then [b], then [c]. *)
Definition promiseAll3 {A B C} (a : M A) (b : M B) (c : M C) : M (A * B * C) :=
  let t := (events a ++ events b ++ events c)%list in
  match outcomeOf a, outcomeOf b, outcomeOf c with
  | inr x, inr y, inr z => (t, inr (x, y, z))
  | inl e, _, _ => (t, inl e)
  | _, inl e, _ => (t, inl e)
  | _, _, inl e => (t, inl e)
  end.

Module AzureDevOpsService.
Record t : Type := mk {
  baseUrl : string;
  organization : string;
  token : string;
  apiVersion : string
}.
End AzureDevOpsService.

(** [new AzureDevOpsService(config)]. *)
Definition newService (config : AzureDevOpsConfig.t) : AzureDevOpsService.t :=
  {| AzureDevOpsService.baseUrl :=
       Js.orElse (AzureDevOpsConfig.baseUrl config) "https://dev.azure.com";
     AzureDevOpsService.organization := AzureDevOpsConfig.organization config;
     AzureDevOpsService.token := AzureDevOpsConfig.personalAccessToken config;
     AzureDevOpsService.apiVersion := "7.0" |}.

(** [isAzureDevOpsConfigured]. *)
Definition isAzureDevOpsConfigured (config : AzureDevOpsConfig.t) : bool :=
  Js.truthy (AzureDevOpsConfig.organization config)
  && Js.truthy (AzureDevOpsConfig.personalAccessToken config).

(** [createAzureDevOpsService]: [null] when not configured. *)
Definition createAzureDevOpsService (config : AzureDevOpsConfig.t)
  : option AzureDevOpsService.t :=
  if negb (isAzureDevOpsConfigured config) then None else Some (newService config).

(** [buildBreakdown]. *)
Definition buildBreakdown (total passed failed skipped : Z) : TestTypeBreakdown.t :=
  {| TestTypeBreakdown.total := total;
     TestTypeBreakdown.passed := passed;
     TestTypeBreakdown.failed := failed;
     TestTypeBreakdown.skipped := skipped;
     TestTypeBreakdown.passRate :=
       if 0 <? passed + failed
       then Js.toFixed1 (Js.percent passed (passed + failed))
       else 0%Q |}.

(** [arr.reduce((s, x) => s + f(x), 0)]. *)
Definition sumBy {A} (f : A -> Z) (l : list A) : Z :=
  fold_left (fun s x => s + f x) l 0.

(** [arr.filter(p).length]. *)
Definition countBy {A} (p : A -> bool) (l : list A) : Z :=
  Z.of_nat (List.length (filter p l)).

(** A [Map<string, V>]: keys are unique and iteration follows the order of
    first insertion. *)
Module JsMap.
Definition t (V : Type) : Type := list (string * V).

Fixpoint set {V} (k : string) (v : V) (m : t V) : t V :=
  match m with
  | [] => [(k, v)]
  | (k', v') :: rest =>
      if String.eqb k' k then (k', v) :: rest else (k', v') :: set k v rest
  end.

Fixpoint get {V} (k : string) (m : t V) : option V :=
  match m with
  | [] => None
  | (k', v') :: rest => if String.eqb k' k then Some v' else get k rest
  end.

(** The effect on the map of mutating, in place, the object stored at [k]. *)
Fixpoint mutate {V} (k : string) (f : V -> V) (m : t V) : t V :=
  match m with
  | [] => []
  | (k', v') :: rest =>
      if String.eqb k' k then (k', f v') :: rest else (k', v') :: mutate k f rest
  end.

Definition values {V} (m : t V) : list V := map snd m.
Definition keys {V} (m : t V) : list string := map fst m.
End JsMap.

(** ** The service class *)

Section Service.

Variable remote : Remote.
Variable this : AzureDevOpsService.t.

(** The callback of [getProjectDataFromPipelines] reads two identifiers,
    [automated] and [manual], that no scope of the file declares.  Their
    binding is a parameter: [None] is the identifier left unbound, which is
    what the file as it stands gives (reading it throws a ReferenceError);
    [Some n] is a number bound in an enclosing scope. *)
Variables automated manual : option Z.

(** [request]: one network event, then the payload or the error. *)
Definition request (r : Request) : M (Payload r) := ([Fetch r], remote r).

Definition getProjects : M (list (string * string)) := request ReqProjects.

Definition getTestRuns (project : string) (fromDate toDate : option Js.Date)
  : M (list AzureTestRun.t) :=
  request (ReqTestRuns project fromDate toDate).

Definition getTestResults (project : string) (runId : Z) : M (list AzureTestResult.t) :=
  request (ReqTestResults project runId).

(** The WIQL text of [getDefects]. *)
Definition defectQuery (project : string) (states : option (list string)) : string :=
  let stateFilter :=
    match states with
    | Some ((_ :: _) as ss) => "AND [System.State] IN ('" ++ Js.join "','" ss ++ "')"
    | _ => "AND [System.State] <> 'Closed'"
    end in
  "SELECT [System.Id] FROM WorkItems WHERE [System.TeamProject] = '" ++ project
  ++ "' AND [System.WorkItemType] = 'Bug' " ++ stateFilter
  ++ " ORDER BY [System.CreatedDate] DESC".

Definition getDefects (project : string) (states : option (list string))
  : M (list AzureWorkItem.t) :=
  wiqlResponse <- request (ReqWiql project (defectQuery project states)) ;;
  match wiqlResponse with
  | None | Some [] => ret []
  | Some workItems =>
      let ids := Js.slice0 200 (map WorkItemRef.id workItems) in
      request (ReqWorkItems project ids)
  end.

Definition getBuildsByDate (project : string) (fromDate : Js.Date)
  (toDate : option Js.Date) (top : Z) : M (list AzureBuild.t) :=
  request (ReqBuilds project fromDate toDate top).

Definition getTestRunsForBuild (project : string) (buildId : Z)
  : M (list AzureTestRun.t) :=
  request (ReqTestRunsForBuild project buildId).

(** The local variables of the body of the build loop. *)
Record RunTotals : Type := mkRunTotals {
  rt_totalTests : Z;
  rt_passed : Z;
  rt_failed : Z;
  rt_skipped : Z;
  rt_allResults : list AzureTestResult.t
}.

(** [for (const run of testRuns) { ... }]. *)
Fixpoint forEachRun (project : string) (testRuns : list AzureTestRun.t)
  (acc : RunTotals) : M RunTotals :=
  match testRuns with
  | [] => ret acc
  | run :: rest =>
      let totalTests := rt_totalTests acc + AzureTestRun.totalTests run in
      let passed := rt_passed acc + AzureTestRun.passedTests run in
      let failed := rt_failed acc + AzureTestRun.failedTests run in
      let skipped := rt_skipped acc + AzureTestRun.notApplicableTests run in
      results <- getTestResults project (AzureTestRun.id run) ;;
      forEachRun project rest
        (mkRunTotals totalTests passed failed skipped
           (rt_allResults acc ++ results)%list)
  end.

(** The [try] block of the build loop: the array after the iteration. *)
Definition buildBody (project : string) (build : AzureBuild.t)
  (pipelineResults : list PipelineResult.t) : M (list PipelineResult.t) :=
  testRuns <- getTestRunsForBuild project (AzureBuild.id build) ;;
  match testRuns with
  | [] => ret pipelineResults
  | _ :: _ =>
      acc <- forEachRun project testRuns (mkRunTotals 0 0 0 0 []) ;;
      ret (pipelineResults ++
           [ {| PipelineResult.pipelineName :=
                  AzureBuild.name (AzureBuild.definition build);
                PipelineResult.definitionId :=
                  AzureBuild.definitionId (AzureBuild.definition build);
                PipelineResult.buildId := AzureBuild.id build;
                PipelineResult.buildNumber := AzureBuild.buildNumber build;
                PipelineResult.completedDate :=
                  Js.orElse (AzureBuild.finishTime build) (AzureBuild.startTime build);
                PipelineResult.totalTests := rt_totalTests acc;
                PipelineResult.passed := rt_passed acc;
                PipelineResult.failed := rt_failed acc;
                PipelineResult.skipped := rt_skipped acc;
                PipelineResult.results := rt_allResults acc |} ])%list
  end.

(** One iteration of the build loop: [try { ... } catch (err) { console.warn }]. *)
Definition guardedBody (project : string) (build : AzureBuild.t)
  (pipelineResults : list PipelineResult.t) : M (list PipelineResult.t) :=
  tryCatch (buildBody project build pipelineResults)
    (fun err =>
       emit (ConsoleWarn ("Failed to get test runs for build "
                          ++ Js.toString (AzureBuild.id build) ++ ":") err) ;;;
       ret pipelineResults).

(** [for (const build of builds) { ... }]. *)
Fixpoint forEachBuild (project : string) (builds : list AzureBuild.t)
  (pipelineResults : list PipelineResult.t) : M (list PipelineResult.t) :=
  match builds with
  | [] => ret pipelineResults
  | build :: rest =>
      pipelineResults' <- guardedBody project build pipelineResults ;;
      forEachBuild project rest pipelineResults'
  end.

Definition getTestResultsByPipelines (project : string) (date : Js.Date)
  : M (list PipelineResult.t) :=
  let startOfDay := Js.setHours date 0 0 0 0 in
  let endOfDay := Js.setHours date 23 59 59 999 in
  builds <- getBuildsByDate project startOfDay (Some endOfDay) 100 ;;
  forEachBuild project builds [].

(** [r.automatedTestName] as a condition. *)
Definition hasAutomatedTestName (r : AzureTestResult.t) : bool :=
  Js.truthyOpt (AzureTestResult.automatedTestName r).

Definition outcomeIs (o : Outcome) (r : AzureTestResult.t) : bool :=
  Outcome_eqb (AzureTestResult.outcome r) o.

(** The constants the callback computes from [pr.results]. *)
Definition autoCount (results : list AzureTestResult.t) : Z :=
  countBy hasAutomatedTestName results.
Definition manualCount (results : list AzureTestResult.t) : Z :=
  Z.of_nat (List.length results) - autoCount results.
Definition autoPassed (results : list AzureTestResult.t) : Z :=
  countBy (fun r => hasAutomatedTestName r && outcomeIs Passed r) results.
Definition autoFailed (results : list AzureTestResult.t) : Z :=
  countBy (fun r => hasAutomatedTestName r && outcomeIs Failed r) results.
Definition autoSkipped (results : list AzureTestResult.t) : Z :=
  autoCount results - autoPassed results - autoFailed results.
Definition manualPassed (results : list AzureTestResult.t) : Z :=
  countBy (fun r => negb (hasAutomatedTestName r) && outcomeIs Passed r) results.

(** Reading an identifier: its value, or a ReferenceError when unbound. *)
Definition readIdentifier (name : string) (binding : option Z) : M Z :=
  match binding with
  | Some v => ret v
  | None => throw (ReferenceError name)
  end.

(** The callback of [pipelineResults.map]: one module object per element.
    The six constants above are computed and not used by the literal; the
    literal has no [automated] and no [manual] property. *)
Definition pipelineModule (pr : PipelineResult.t) : M ModuleTestResult.t :=
  let results := PipelineResult.results pr in
  let _autoCount := autoCount results in
  let _manualCount := manualCount results in
  let _autoPassed := autoPassed results in
  let _autoFailed := autoFailed results in
  let _autoSkipped := autoSkipped results in
  let _manualPassed := manualPassed results in
  let passed := PipelineResult.passed pr in
  let failed := PipelineResult.failed pr in
  automated_ <- readIdentifier "automated" automated ;;
  manual_ <- readIdentifier "manual" manual ;;
  ret {| ModuleTestResult.moduleId :=
           "pipeline-" ++ Js.toString (PipelineResult.definitionId pr);
         ModuleTestResult.moduleName := PipelineResult.pipelineName pr;
         ModuleTestResult.totalTests := PipelineResult.totalTests pr;
         ModuleTestResult.executed := passed + failed;
         ModuleTestResult.passed := passed;
         ModuleTestResult.failed := failed;
         ModuleTestResult.skipped := PipelineResult.skipped pr;
         ModuleTestResult.passRate :=
           if 0 <? passed + failed then Js.percent passed (passed + failed) else 0%Q;
         ModuleTestResult.automatedTests :=
           if Js.truthyNum automated_ then automated_ else PipelineResult.totalTests pr;
         ModuleTestResult.manualTests := manual_;
         ModuleTestResult.automated := None;
         ModuleTestResult.manual := None;
         ModuleTestResult.linkedDefects := [];
         ModuleTestResult.lastRunTime := Some (PipelineResult.completedDate pr) |}.

(** [arr.map(f)] for a callback that may throw. *)
Fixpoint mapM {A B} (f : A -> M B) (l : list A) : M (list B) :=
  match l with
  | [] => ret []
  | x :: rest =>
      y <- f x ;;
      ys <- mapM f rest ;;
      ret (y :: ys)
  end.

(** [m.automated.passed] and the like: reading a property of [undefined]
    throws a TypeError. *)
Definition readBreakdown (prop : string) (field : TestTypeBreakdown.t -> Z)
  (b : option TestTypeBreakdown.t) : M Z :=
  match b with
  | Some b' => ret (field b')
  | None =>
      throw (TypeError ("Cannot read properties of undefined (reading '" ++ prop ++ "')"))
  end.

(** [arr.reduce((s, x) => s + f(x), 0)] for a callback that may throw. *)
Fixpoint sumByM {A} (f : A -> M Z) (l : list A) (s : Z) : M Z :=
  match l with
  | [] => ret s
  | x :: rest =>
      v <- f x ;;
      sumByM f rest (s + v)
  end.

(** The record returned when [pipelineResults] is empty. *)
Definition emptyProject (projectName : string) : ProjectData.t :=
  {| ProjectData.projectId := "proj-" ++ projectName;
     ProjectData.projectName := projectName;
     ProjectData.modules := [];
     ProjectData.totalTests := 0;
     ProjectData.executed := 0;
     ProjectData.passed := 0;
     ProjectData.failed := 0;
     ProjectData.skipped := 0;
     ProjectData.passRate := 0%Q;
     ProjectData.automatedTests := 0;
     ProjectData.manualTests := 0;
     ProjectData.automated := buildBreakdown 0 0 0 0;
     ProjectData.manual := buildBreakdown 0 0 0 0;
     ProjectData.lastRunTime := None;
     ProjectData.runCount := None |}.

(** The part of [getProjectDataFromPipelines] after the modules are built. *)
Definition projectOfModules (projectName : string)
  (pipelineResults : list PipelineResult.t) (modules : list ModuleTestResult.t)
  : M ProjectData.t :=
  let totalTests := sumBy ModuleTestResult.totalTests modules in
  let totalPassed := sumBy ModuleTestResult.passed modules in
  let totalFailed := sumBy ModuleTestResult.failed modules in
  let totalSkipped := sumBy ModuleTestResult.skipped modules in
  let totalAutomated := sumBy ModuleTestResult.automatedTests modules in
  let totalManual := sumBy ModuleTestResult.manualTests modules in
  let executed := totalPassed + totalFailed in
  let passRate := if 0 <? executed then Js.percent totalPassed executed else 0%Q in
  ap <- sumByM (fun m => readBreakdown "passed" TestTypeBreakdown.passed
                           (ModuleTestResult.automated m)) modules 0 ;;
  af <- sumByM (fun m => readBreakdown "failed" TestTypeBreakdown.failed
                           (ModuleTestResult.automated m)) modules 0 ;;
  asl <- sumByM (fun m => readBreakdown "skipped" TestTypeBreakdown.skipped
                           (ModuleTestResult.automated m)) modules 0 ;;
  mp <- sumByM (fun m => readBreakdown "passed" TestTypeBreakdown.passed
                           (ModuleTestResult.manual m)) modules 0 ;;
  mf <- sumByM (fun m => readBreakdown "failed" TestTypeBreakdown.failed
                           (ModuleTestResult.manual m)) modules 0 ;;
  ms <- sumByM (fun m => readBreakdown "skipped" TestTypeBreakdown.skipped
                           (ModuleTestResult.manual m)) modules 0 ;;
  ret {| ProjectData.projectId := "proj-" ++ projectName;
         ProjectData.projectName := projectName;
         ProjectData.modules := modules;
         ProjectData.totalTests := totalTests;
         ProjectData.executed := executed;
         ProjectData.passed := totalPassed;
         ProjectData.failed := totalFailed;
         ProjectData.skipped := totalSkipped;
         ProjectData.passRate := passRate;
         ProjectData.automatedTests := totalAutomated;
         ProjectData.manualTests := totalManual;
         ProjectData.automated := buildBreakdown totalAutomated ap af asl;
         ProjectData.manual := buildBreakdown totalManual mp mf ms;
         ProjectData.lastRunTime :=
           option_map PipelineResult.completedDate (hd_error pipelineResults);
         ProjectData.runCount := Some (Z.of_nat (List.length pipelineResults)) |}.

(** [getProjectDataFromPipelines]: [None] is the [null] of the [catch]. *)
Definition getProjectDataFromPipelines (projectName : string)
  (_environment : Environment) (date : Js.Date) : M (option ProjectData.t) :=
  tryCatch
    (pipelineResults <- getTestResultsByPipelines projectName date ;;
     match pipelineResults with
     | [] => ret (Some (emptyProject projectName))
     | _ :: _ =>
         modules <- mapM pipelineModule pipelineResults ;;
         project <- projectOfModules projectName pipelineResults modules ;;
         ret (Some project)
     end)
    (fun error =>
       emit (ConsoleError ("Failed to fetch pipeline data for project "
                           ++ projectName ++ ":") error) ;;;
       ret None).

(** [getAreaPaths]: [response.children?.map(c => c.name) || []]. *)
Definition getAreaPaths (project : string) : M (list string) :=
  response <- request (ReqAreaPaths project) ;;
  ret (match response with Some children => children | None => [] end).

(** The module object [getProjectData] stores for an area path. *)
Definition areaModule (areaPath : string) : ModuleTestResult.t :=
  {| ModuleTestResult.moduleId := "mod-" ++ areaPath;
     ModuleTestResult.moduleName := areaPath;
     ModuleTestResult.totalTests := 0;
     ModuleTestResult.executed := 0;
     ModuleTestResult.passed := 0;
     ModuleTestResult.failed := 0;
     ModuleTestResult.skipped := 0;
     ModuleTestResult.passRate := 0%Q;
     ModuleTestResult.automatedTests := 0;
     ModuleTestResult.manualTests := 0;
     ModuleTestResult.automated := Some (buildBreakdown 0 0 0 0);
     ModuleTestResult.manual := Some (buildBreakdown 0 0 0 0);
     ModuleTestResult.linkedDefects := [];
     ModuleTestResult.lastRunTime := None |}.

(** The six running totals of [getProjectData]. *)
Record PlanTotals : Type := mkPlanTotals {
  pt_totalTests : Z;
  pt_totalPassed : Z;
  pt_totalFailed : Z;
  pt_totalSkipped : Z;
  pt_totalAutomated : Z;
  pt_totalManual : Z
}.

(** One iteration of [for (const run of testRuns)] in [getProjectData]. *)
Definition addRun (acc : PlanTotals) (run : AzureTestRun.t) : PlanTotals :=
  {| pt_totalTests := pt_totalTests acc + AzureTestRun.totalTests run;
     pt_totalPassed := pt_totalPassed acc + AzureTestRun.passedTests run;
     pt_totalFailed := pt_totalFailed acc + AzureTestRun.failedTests run;
     pt_totalSkipped := pt_totalSkipped acc + AzureTestRun.notApplicableTests run;
     pt_totalAutomated :=
       if AzureTestRun.isAutomated run
       then pt_totalAutomated acc + AzureTestRun.totalTests run
       else pt_totalAutomated acc;
     pt_totalManual :=
       if AzureTestRun.isAutomated run
       then pt_totalManual acc
       else pt_totalManual acc + AzureTestRun.totalTests run |}.

(** [defect.fields['System.AreaPath'].split('\\').pop() || '']. *)
Definition areaPathTail (defect : AzureWorkItem.t) : string :=
  match Js.pop (Js.split "\"%char
                  (AzureWorkItem.AreaPath (AzureWorkItem.fields defect))) with
  | Some seg => Js.orElse seg ""
  | None => ""
  end.

(** [module.linkedDefects.push(id)] on the module object. *)
Definition pushLinkedDefect (id : string) (m : ModuleTestResult.t) : ModuleTestResult.t :=
  {| ModuleTestResult.moduleId := ModuleTestResult.moduleId m;
     ModuleTestResult.moduleName := ModuleTestResult.moduleName m;
     ModuleTestResult.totalTests := ModuleTestResult.totalTests m;
     ModuleTestResult.executed := ModuleTestResult.executed m;
     ModuleTestResult.passed := ModuleTestResult.passed m;
     ModuleTestResult.failed := ModuleTestResult.failed m;
     ModuleTestResult.skipped := ModuleTestResult.skipped m;
     ModuleTestResult.passRate := ModuleTestResult.passRate m;
     ModuleTestResult.automatedTests := ModuleTestResult.automatedTests m;
     ModuleTestResult.manualTests := ModuleTestResult.manualTests m;
     ModuleTestResult.automated := ModuleTestResult.automated m;
     ModuleTestResult.manual := ModuleTestResult.manual m;
     ModuleTestResult.linkedDefects :=
       (ModuleTestResult.linkedDefects m ++ [id])%list;
     ModuleTestResult.lastRunTime := ModuleTestResult.lastRunTime m |}.

(** The callback of [defects.forEach]: the map after the iteration. *)
Definition linkDefect (moduleMap : JsMap.t ModuleTestResult.t)
  (defect : AzureWorkItem.t) : JsMap.t ModuleTestResult.t :=
  let areaPath := areaPathTail defect in
  match JsMap.get areaPath moduleMap with
  | Some _ =>
      JsMap.mutate areaPath
        (pushLinkedDefect (Js.toString (AzureWorkItem.id defect))) moduleMap
  | None => moduleMap
  end.

(** [{...module, passRate: module.executed > 0 ? ... : 0}]. *)
Definition withPassRate (m : ModuleTestResult.t) : ModuleTestResult.t :=
  {| ModuleTestResult.moduleId := ModuleTestResult.moduleId m;
     ModuleTestResult.moduleName := ModuleTestResult.moduleName m;
     ModuleTestResult.totalTests := ModuleTestResult.totalTests m;
     ModuleTestResult.executed := ModuleTestResult.executed m;
     ModuleTestResult.passed := ModuleTestResult.passed m;
     ModuleTestResult.failed := ModuleTestResult.failed m;
     ModuleTestResult.skipped := ModuleTestResult.skipped m;
     ModuleTestResult.passRate :=
       if 0 <? ModuleTestResult.executed m
       then Js.percent (ModuleTestResult.passed m) (ModuleTestResult.executed m)
       else 0%Q;
     ModuleTestResult.automatedTests := ModuleTestResult.automatedTests m;
     ModuleTestResult.manualTests := ModuleTestResult.manualTests m;
     ModuleTestResult.automated := ModuleTestResult.automated m;
     ModuleTestResult.manual := ModuleTestResult.manual m;
     ModuleTestResult.linkedDefects := ModuleTestResult.linkedDefects m;
     ModuleTestResult.lastRunTime := ModuleTestResult.lastRunTime m |}.

(** The body of the [try] of [getProjectData] once the three fetches have
    fulfilled. *)
Definition planProject (projectName : string) (testRuns : list AzureTestRun.t)
  (areaPaths : list string) (defects : list AzureWorkItem.t) : ProjectData.t :=
  let moduleMap0 :=
    fold_left (fun m areaPath => JsMap.set areaPath (areaModule areaPath) m)
      areaPaths [] in
  let totals := fold_left addRun testRuns (mkPlanTotals 0 0 0 0 0 0) in
  let moduleMap := fold_left linkDefect defects moduleMap0 in
  let modules := map withPassRate (JsMap.values moduleMap) in
  let executed := pt_totalTests totals in
  let passRate :=
    if 0 <? executed then Js.percent (pt_totalPassed totals) executed else 0%Q in
  {| ProjectData.projectId := "proj-" ++ projectName;
     ProjectData.projectName := projectName;
     ProjectData.modules := modules;
     ProjectData.totalTests := pt_totalTests totals;
     ProjectData.executed := executed;
     ProjectData.passed := pt_totalPassed totals;
     ProjectData.failed := pt_totalFailed totals;
     ProjectData.skipped := pt_totalSkipped totals;
     ProjectData.passRate := passRate;
     ProjectData.automatedTests := pt_totalAutomated totals;
     ProjectData.manualTests := pt_totalManual totals;
     ProjectData.automated :=
       buildBreakdown (pt_totalAutomated totals) (pt_totalPassed totals)
         (pt_totalFailed totals) (pt_totalSkipped totals);
     ProjectData.manual := buildBreakdown (pt_totalManual totals) 0 0 0;
     ProjectData.lastRunTime := None;
     ProjectData.runCount := None |}.

(** [getProjectData]: [None] is the [null] of the [catch]. *)
Definition getProjectData (projectName : string) (_environment : Environment)
  : M (option ProjectData.t) :=
  tryCatch
    (fetched <- promiseAll3 (getTestRuns projectName None None)
                            (getAreaPaths projectName)
                            (getDefects projectName None) ;;
     let '(testRuns, areaPaths, defects) := fetched in
     ret (Some (planProject projectName testRuns areaPaths defects)))
    (fun error =>
       emit (ConsoleError ("Failed to fetch data for project "
                           ++ projectName ++ ":") error) ;;;
       ret None).

(** The two lookup tables of [transformDefects]. *)
Definition severityMap : list (string * Severity) :=
  [ ("1 - Critical", critical); ("2 - High", major);
    ("3 - Medium", minor); ("4 - Low", trivial) ].

Definition statusMap : list (string * Status) :=
  [ ("New", open); ("Active", open); ("In Progress", in_progress);
    ("Resolved", resolved); ("Closed", closed) ].

(** [table[key] || fallback]: every own value of the two tables is a
    non-empty string and every inherited member is an object, so only
    [undefined] reaches the fallback. *)
Definition lookupOr {A} (table : list (string * A)) (key : string) (fallback : A)
  : Slot A :=
  match Js.get table key with
  | Js.Own a => Label a
  | Js.Inherited name => PrototypeMember name
  | Js.Undefined => Label fallback
  end.

(** The callback of [azureDefects.map] in [transformDefects]. *)
Definition transformDefect (environment : Environment) (wi : AzureWorkItem.t)
  : Defect.t :=
  let f := AzureWorkItem.fields wi in
  {| Defect.id := "DEF-" ++ Js.toString (AzureWorkItem.id wi);
     Defect.title := AzureWorkItem.Title f;
     Defect.severity :=
       lookupOr severityMap
         (match AzureWorkItem.Severity f with
          | Some s => Js.orElse s ""
          | None => ""
          end) minor;
     Defect.status := lookupOr statusMap (AzureWorkItem.State f) open;
     Defect.assignee :=
       match AzureWorkItem.AssignedTo f with
       | Some displayName => Js.orElse displayName "Unassigned"
       | None => "Unassigned"
       end;
     Defect.createdDate := AzureWorkItem.CreatedDate f;
     Defect.environment := environment;
     Defect.linkedTestIds := [];
     Defect.workItemUrl :=
       AzureDevOpsService.baseUrl this ++ "/" ++ AzureDevOpsService.organization this
       ++ "/_workitems/edit/" ++ Js.toString (AzureWorkItem.id wi) |}.

Definition transformDefects (azureDefects : list AzureWorkItem.t)
  (environment : Environment) : list Defect.t :=
  map (transformDefect environment) azureDefects.

End Service.

(** ** The orchestration of [App.tsx] *)

Inductive DataSource : Type := demo | pipelines | testplans.

Module Settings.
Record Project : Type := mkProject {
  name : string;
  enabled : bool
}.
Record t : Type := mk {
  azureDevOps : AzureDevOpsConfig.t;
  projects : list Project;
  dataSource : option DataSource      (* [settings?.dashboard?.dataSource] *)
}.
End Settings.

Section App.

(** The synthetic data generator of [mockData.ts].  It draws on
    [Math.random] and on the clock, so its functions are parameters: the
    values one refresh obtains from them. *)
Variables TestTrend ComparisonData TestFailureDefect : Type.
Variable getTrendData : Environment -> list TestTrend.
Variable getProjectsData : Environment -> Js.Date -> list ProjectData.t.
Variable getComparisonData : Environment -> list ComparisonData.
Variable getMockDefects : Environment -> list Defect.t.
Variable getTestFailureDefects : Environment -> Js.Date -> list TestFailureDefect.

Variable remote : Remote.
Variables automated manual : option Z.

Variable settings : Settings.t.
Variable selectedEnvironment : Environment.
Variable selectedDate : Js.Date.

(** The pieces of React state [refreshData] writes. *)
Record AppState : Type := mkAppState {
  loading : bool;
  dataSourceError : option string;
  trends : list TestTrend;
  projects : list ProjectData.t;
  comparison : list ComparisonData;
  defects : list Defect.t;
  testFailures : list TestFailureDefect
}.

Definition setLoading (b : bool) (st : AppState) : AppState :=
  mkAppState b (dataSourceError st) (trends st) (projects st) (comparison st)
    (defects st) (testFailures st).
Definition setDataSourceError (e : option string) (st : AppState) : AppState :=
  mkAppState (loading st) e (trends st) (projects st) (comparison st)
    (defects st) (testFailures st).
Definition setTrends (x : list TestTrend) (st : AppState) : AppState :=
  mkAppState (loading st) (dataSourceError st) x (projects st) (comparison st)
    (defects st) (testFailures st).
Definition setProjects (x : list ProjectData.t) (st : AppState) : AppState :=
  mkAppState (loading st) (dataSourceError st) (trends st) x (comparison st)
    (defects st) (testFailures st).
Definition setComparison (x : list ComparisonData) (st : AppState) : AppState :=
  mkAppState (loading st) (dataSourceError st) (trends st) (projects st) x
    (defects st) (testFailures st).
Definition setDefects (x : list Defect.t) (st : AppState) : AppState :=
  mkAppState (loading st) (dataSourceError st) (trends st) (projects st)
    (comparison st) x (testFailures st).
Definition setTestFailures (x : list TestFailureDefect) (st : AppState) : AppState :=
  mkAppState (loading st) (dataSourceError st) (trends st) (projects st)
    (comparison st) (defects st) x.

(** [settings?.dashboard?.dataSource || 'demo']. *)
Definition dataSourceOf : DataSource :=
  match Settings.dataSource settings with Some d => d | None => demo end.

(** [isConfigured] of the settings context. *)
Definition isConfigured : bool :=
  Js.truthy (AzureDevOpsConfig.organization (Settings.azureDevOps settings))
  && Js.truthy (AzureDevOpsConfig.personalAccessToken (Settings.azureDevOps settings)).

Definition notConfiguredMessage : string :=
  "Azure DevOps not configured. Go to Settings → Azure DevOps to set up connection.".

(** The names of the enabled projects, or of all remote projects. *)
Definition projectNamesOf : M (list string) :=
  match filter Settings.enabled (Settings.projects settings) with
  | [] => ps <- getProjects remote ;; ret (map snd ps)
  | enabledProjects => ret (map Settings.name enabledProjects)
  end.

(** The loop collecting one record per project: [null] is skipped. *)
Fixpoint collectProjects (fetchOne : string -> M (option ProjectData.t))
  (projectNames : list string) (projectDataList : list ProjectData.t)
  : M (list ProjectData.t) :=
  match projectNames with
  | [] => ret projectDataList
  | projName :: rest =>
      data <- fetchOne projName ;;
      collectProjects fetchOne rest
        (match data with
         | Some d => (projectDataList ++ [d])%list
         | None => projectDataList
         end)
  end.

(** The loop collecting defects: [try { ... } catch { /* skip */ }]. *)
Fixpoint collectDefects (service : AzureDevOpsService.t) (projectNames : list string)
  (allDefects : list Defect.t) : M (list Defect.t) :=
  match projectNames with
  | [] => ret allDefects
  | projName :: rest =>
      allDefects' <-
        tryCatch
          (azDefects <- getDefects remote projName None ;;
           ret (allDefects
                ++ transformDefects service azDefects selectedEnvironment)%list)
          (fun _ => ret allDefects) ;;
      collectDefects service rest allDefects'
  end.

(** The common shape of [fetchFromPipelines] and [fetchFromTestPlans].
    Inside the [try], [setProjects] is the first state update and nothing
    after it can throw, so the [catch] runs on the state the [try] began
    with. *)
Definition fetchFromAzure (fetchOne : string -> M (option ProjectData.t))
  (label failure : string) (st : AppState) : list Event * AppState :=
  match createAzureDevOpsService (Settings.azureDevOps settings) with
  | None => ([], setDataSourceError (Some notConfiguredMessage) st)
  | Some service =>
      let st0 := setDataSourceError None st in
      let run :=
        tryCatch
          (projectNames <- projectNamesOf ;;
           projectDataList <- collectProjects fetchOne projectNames [] ;;
           allDefects <- collectDefects service projectNames [] ;;
           ret (setTestFailures (getTestFailureDefects selectedEnvironment selectedDate)
                  (setComparison (getComparisonData selectedEnvironment)
                     (setTrends (getTrendData selectedEnvironment)
                        (setDefects allDefects
                           (setProjects projectDataList st0))))))
          (fun err =>
             emit (ConsoleError label err) ;;;
             ret (setDataSourceError (Some (failure ++ message err)) st0)) in
      (events run, match outcomeOf run with inr st' => st' | inl _ => st0 end)
  end.

Definition fetchFromPipelines : AppState -> list Event * AppState :=
  fetchFromAzure
    (fun projName =>
       getProjectDataFromPipelines remote automated manual projName
         selectedEnvironment selectedDate)
    "Pipeline fetch error:" "Failed to fetch pipeline data: ".

Definition fetchFromTestPlans : AppState -> list Event * AppState :=
  fetchFromAzure
    (fun projName => getProjectData remote projName selectedEnvironment)
    "Test Plans fetch error:" "Failed to fetch Test Plans data: ".

Definition fetchFromDemo (st : AppState) : AppState :=
  setTestFailures (getTestFailureDefects selectedEnvironment selectedDate)
    (setDefects (getMockDefects selectedEnvironment)
       (setComparison (getComparisonData selectedEnvironment)
          (setProjects (getProjectsData selectedEnvironment selectedDate)
             (setTrends (getTrendData selectedEnvironment)
                (setDataSourceError None st))))).

(** [refreshData].  None of the three branches can reject, so the outer
    [catch] never runs; the result is the state once the promise settles. *)
Definition refreshData (st : AppState) : list Event * AppState :=
  let st1 := setLoading true st in
  let '(t, st2) :=
    match dataSourceOf, isConfigured with
    | pipelines, true => fetchFromPipelines st1
    | testplans, true => fetchFromTestPlans st1
    | _, _ => ([], fetchFromDemo st1)
    end in
  (t, setLoading false st2).

End App.

Arguments mkAppState {TestTrend ComparisonData TestFailureDefect}.
Arguments loading {TestTrend ComparisonData TestFailureDefect}.
Arguments dataSourceError {TestTrend ComparisonData TestFailureDefect}.
Arguments trends {TestTrend ComparisonData TestFailureDefect}.
Arguments projects {TestTrend ComparisonData TestFailureDefect}.
Arguments comparison {TestTrend ComparisonData TestFailureDefect}.
Arguments defects {TestTrend ComparisonData TestFailureDefect}.
Arguments testFailures {TestTrend ComparisonData TestFailureDefect}.
Arguments refreshData {TestTrend ComparisonData TestFailureDefect}.
Arguments fetchFromDemo {TestTrend ComparisonData TestFailureDefect}.

(** ** Predicates on the remote used to state the properties *)

(** The request [getTestResultsByPipelines] sends for the builds of [date]. *)
Definition buildsRequest (project : string) (date : Js.Date) : Request :=
  ReqBuilds project (Js.setHours date 0 0 0 0) (Some (Js.setHours date 23 59 59 999)) 100.

Section RemotePredicates.

Variable remote : Remote.

(** The request for the results of [run] is answered with an error. *)
Definition resultsFail (project : string) (run : AzureTestRun.t) : bool :=
  match remote (ReqTestResults project (AzureTestRun.id run)) with
  | inl _ => true
  | inr _ => false
  end.

(** Fetching the test runs of [build], or the results of one of them,
    throws. *)
Definition fetchThrows (project : string) (build : AzureBuild.t) : bool :=
  match remote (ReqTestRunsForBuild project (AzureBuild.id build)) with
  | inl _ => true
  | inr testRuns => existsb (resultsFail project) testRuns
  end.

(** The remote lists at least one test run for [build]. *)
Definition hasTestRuns (project : string) (build : AzureBuild.t) : bool :=
  match remote (ReqTestRunsForBuild project (AzureBuild.id build)) with
  | inr (_ :: _) => true
  | _ => false
  end.

(** A build is in the result when none of its fetches throws and it has
    test runs. *)
Definition kept (project : string) (build : AzureBuild.t) : bool :=
  negb (fetchThrows project build) && hasTestRuns project build.

End RemotePredicates.

(** ** Definitions used to state the defect linkage *)

(** The ids [getProjectData] pushes to the module named [name]: those of
    the fetched defects whose area-path tail is [name], in fetch order. *)
Definition linkedIds (name : string) (defects : list AzureWorkItem.t) : list string :=
  map (fun d => Js.toString (AzureWorkItem.id d))
    (filter (fun d => String.eqb (areaPathTail d) name) defects).

(** The module of area path [areaPath] once [defects] have been linked. *)
Definition linkedModule (defects : list AzureWorkItem.t) (areaPath : string)
  : ModuleTestResult.t :=
  {| ModuleTestResult.moduleId := "mod-" ++ areaPath;
     ModuleTestResult.moduleName := areaPath;
     ModuleTestResult.totalTests := 0;
     ModuleTestResult.executed := 0;
     ModuleTestResult.passed := 0;
     ModuleTestResult.failed := 0;
     ModuleTestResult.skipped := 0;
     ModuleTestResult.passRate := 0%Q;
     ModuleTestResult.automatedTests := 0;
     ModuleTestResult.manualTests := 0;
     ModuleTestResult.automated := Some (buildBreakdown 0 0 0 0);
     ModuleTestResult.manual := Some (buildBreakdown 0 0 0 0);
     ModuleTestResult.linkedDefects := linkedIds areaPath defects;
     ModuleTestResult.lastRunTime := None |}.

(** The keys of a [Map] after one more [set]. *)
Fixpoint addKey (k : string) (ks : list string) : list string :=
  match ks with
  | [] => [k]
  | k' :: rest => if String.eqb k' k then k' :: rest else k' :: addKey k rest
  end.

(** The keys of the [Map] filled from [areaPaths]: each name once, in the
    order of first occurrence. *)
Definition distinctKeys (areaPaths : list string) : list string :=
  fold_left (fun ks k => addKey k ks) areaPaths [].

(** The [Map] that stores [g k] under each key of [ks]. *)
Definition tabulate {V} (g : string -> V) (ks : list string) : JsMap.t V :=
  map (fun k => (k, g k)) ks.

(** ** Concrete remotes used to run the model *)

(** The answers of a remote that serves one project. *)
Module World.
Record t : Type := mk {
  buildsOfDay : Error + list AzureBuild.t;
  runsOfBuild : Z -> Error + list AzureTestRun.t;
  resultsOfRun : Z -> Error + list AzureTestResult.t;
  runsOfProject : Error + list AzureTestRun.t;
  areaPaths : Error + option (list string);
  wiql : Error + option (list WorkItemRef.t);
  workItemsById : list Z -> Error + list AzureWorkItem.t
}.
End World.

Definition remoteOf (w : World.t) : Remote :=
  fun r =>
    match r as r' return Error + Payload r' with
    | ReqProjects => inr [("p-1", "ProjectX")]
    | ReqTestRuns _ _ _ => World.runsOfProject w
    | ReqTestResults _ runId => World.resultsOfRun w runId
    | ReqWiql _ _ => World.wiql w
    | ReqWorkItems _ ids => World.workItemsById w ids
    | ReqBuilds _ _ _ _ => World.buildsOfDay w
    | ReqTestRunsForBuild _ buildId => World.runsOfBuild w buildId
    | ReqAreaPaths _ => World.areaPaths w
    end.

Definition serverError : Error := ApiError 500 "Internal Server Error".

(** A remote on which every request fails. *)
Definition offline : Remote := fun _ => inl (NetworkError "Failed to fetch").

Definition someDay : Js.Date := Js.mkDate 2026 2 14 9 30 0 0.

Definition mkBuild (id definitionId : Z) (name : string) : AzureBuild.t :=
  {| AzureBuild.id := id;
     AzureBuild.buildNumber := "20260214." ++ Js.toString id;
     AzureBuild.status := "completed";
     AzureBuild.result := "succeeded";
     AzureBuild.queueTime := "2026-02-14T08:00:00Z";
     AzureBuild.startTime := "2026-02-14T08:01:00Z";
     AzureBuild.finishTime := "2026-02-14T08:20:00Z";
     AzureBuild.definition := AzureBuild.mkDefinition name definitionId |}.

Definition mkRun (id : Z) (automatedRun : bool) (total passed failed notApplicable : Z)
  : AzureTestRun.t :=
  {| AzureTestRun.id := id;
     AzureTestRun.name := "run " ++ Js.toString id;
     AzureTestRun.state := "Completed";
     AzureTestRun.isAutomated := automatedRun;
     AzureTestRun.totalTests := total;
     AzureTestRun.passedTests := passed;
     AzureTestRun.failedTests := failed;
     AzureTestRun.notApplicableTests := notApplicable;
     AzureTestRun.startedDate := "2026-02-14T08:02:00Z";
     AzureTestRun.completedDate := "2026-02-14T08:19:00Z" |}.

Definition mkResult (id : Z) (o : Outcome) (automatedTestName : option string)
  : AzureTestResult.t :=
  {| AzureTestResult.id := id;
     AzureTestResult.testCaseTitle := "case " ++ Js.toString id;
     AzureTestResult.outcome := o;
     AzureTestResult.state := "Completed";
     AzureTestResult.durationInMs := 12;
     AzureTestResult.errorMessage := None;
     AzureTestResult.stackTrace := None;
     AzureTestResult.automatedTestName := automatedTestName;
     AzureTestResult.automatedTestType := None;
     AzureTestResult.testCase := (Js.toString id, "case " ++ Js.toString id) |}.

Definition mkWorkItem (id : Z) (state : string) (severity : option string)
  (assignedTo : option string) (areaPath : string) : AzureWorkItem.t :=
  {| AzureWorkItem.id := id;
     AzureWorkItem.fields :=
       {| AzureWorkItem.Title := "bug " ++ Js.toString id;
          AzureWorkItem.State := state;
          AzureWorkItem.AssignedTo := assignedTo;
          AzureWorkItem.Severity := severity;
          AzureWorkItem.CreatedDate := "2026-02-10T10:00:00Z";
          AzureWorkItem.AreaPath := areaPath |} |}.

(** Three builds of three pipelines; fetching the test runs of build 2
    fails with a transport error. *)
Definition threeBuilds : World.t :=
  {| World.buildsOfDay := inr [mkBuild 1 11 "api"; mkBuild 2 12 "web"; mkBuild 3 13 "e2e"];
     World.runsOfBuild := fun buildId =>
       if buildId =? 1 then inr [mkRun 10 true 4 3 1 0]
       else if buildId =? 2 then inl serverError
       else inr [mkRun 30 true 6 5 0 1];
     World.resultsOfRun := fun runId => inr [mkResult runId Passed (Some "T.run")];
     World.runsOfProject := inr [];
     World.areaPaths := inr None;
     World.wiql := inr None;
     World.workItemsById := fun _ => inr [] |}.

(** Two builds of the same pipeline definition (id 7) on the same day. *)
Definition twoBuildsOfOnePipeline : World.t :=
  {| World.buildsOfDay := inr [mkBuild 1 7 "nightly"; mkBuild 2 7 "nightly"];
     World.runsOfBuild := fun buildId => inr [mkRun (buildId * 10) true 2 1 1 0];
     World.resultsOfRun := fun runId =>
       inr [mkResult runId Passed (Some "T.a"); mkResult (runId + 1) Failed (Some "T.b")];
     World.runsOfProject := inr [];
     World.areaPaths := inr None;
     World.wiql := inr None;
     World.workItemsById := fun _ => inr [] |}.

(** One build with one run of two results: an automated one that passed
    and a manual one that failed. *)
Definition oneBuildMixedResults : World.t :=
  {| World.buildsOfDay := inr [mkBuild 1 7 "nightly"];
     World.runsOfBuild := fun _ => inr [mkRun 10 true 2 1 1 0];
     World.resultsOfRun := fun _ =>
       inr [mkResult 1 Passed (Some "Suite.login"); mkResult 2 Failed None];
     World.runsOfProject := inr [];
     World.areaPaths := inr None;
     World.wiql := inr None;
     World.workItemsById := fun _ => inr [] |}.

(** Two builds that published no test run. *)
Definition buildsWithoutTests : World.t :=
  {| World.buildsOfDay := inr [mkBuild 1 11 "api"; mkBuild 2 12 "web"];
     World.runsOfBuild := fun _ => inr [];
     World.resultsOfRun := fun _ => inr [];
     World.runsOfProject := inr [];
     World.areaPaths := inr None;
     World.wiql := inr None;
     World.workItemsById := fun _ => inr [] |}.

Definition planDefects : list AzureWorkItem.t :=
  [ mkWorkItem 101 "Active" (Some "1 - Critical") (Some "Ada") "ProjectX\Payments";
    mkWorkItem 102 "New" None None "ProjectX\Search";
    mkWorkItem 103 "Resolved" (Some "4 - Low") None "ProjectX\Checkout" ].

(** A test-plan project: two area paths, one run of ten tests (five passed,
    none failed, five not applicable) and three bugs. *)
Definition planWorld : World.t :=
  {| World.buildsOfDay := inr [];
     World.runsOfBuild := fun _ => inr [];
     World.resultsOfRun := fun _ => inr [];
     World.runsOfProject := inr [mkRun 1 true 10 5 0 5];
     World.areaPaths := inr (Some ["Payments"; "Checkout"]);
     World.wiql := inr (Some (map WorkItemRef.mk [101; 102; 103]));
     World.workItemsById := fun _ => inr planDefects |}.

(** A project whose defect query matches 350 bugs, ids 1 to 350. *)
Definition manyDefects : World.t :=
  {| World.buildsOfDay := inr [];
     World.runsOfBuild := fun _ => inr [];
     World.resultsOfRun := fun _ => inr [];
     World.runsOfProject := inr [];
     World.areaPaths := inr None;
     World.wiql := inr (Some (map (fun n => WorkItemRef.mk (Z.of_nat n)) (seq 1 350)));
     World.workItemsById := fun ids =>
       inr (map (fun i => mkWorkItem i "Active" None None "ProjectX") ids) |}.

Definition devAzure : AzureDevOpsService.t :=
  newService (AzureDevOpsConfig.mk "contoso" "pat" "").

(** Settings with no organization and no token, in pipelines mode. *)
Definition unconfiguredPipelines : Settings.t :=
  {| Settings.azureDevOps := AzureDevOpsConfig.mk "" "" "";
     Settings.projects := [Settings.mkProject "ProjectX" true];
     Settings.dataSource := Some pipelines |}.

Definition blankState : AppState unit unit unit :=
  mkAppState true None [] [] [] [] [].

(** A stand-in for the synthetic data generator: one project, one defect. *)
Definition demoProject : ProjectData.t :=
  {| ProjectData.projectId := "PRJ-001";
     ProjectData.projectName := "E-Commerce Platform";
     ProjectData.modules := [];
     ProjectData.totalTests := 450;
     ProjectData.executed := 444;
     ProjectData.passed := 395;
     ProjectData.failed := 42;
     ProjectData.skipped := 7;
     ProjectData.passRate := 89%Q;
     ProjectData.automatedTests := 450;
     ProjectData.manualTests := 0;
     ProjectData.automated := buildBreakdown 450 395 42 7;
     ProjectData.manual := buildBreakdown 0 0 0 0;
     ProjectData.lastRunTime := None;
     ProjectData.runCount := Some 5 |}.

Definition demoDefect (environment : Environment) : Defect.t :=
  {| Defect.id := "DEF-001";
     Defect.title := "Payment processing fails for international cards";
     Defect.severity := Label critical;
     Defect.status := Label open;
     Defect.assignee := "John Smith";
     Defect.createdDate := "2026-02-12T00:00:00Z";
     Defect.environment := environment;
     Defect.linkedTestIds := ["TC-201"; "TC-202"];
     Defect.workItemUrl := "https://jira.example.com/DEF-001" |}.

(** One refresh in pipelines mode with no organization and no token, on a
    remote that is not reachable. *)
Definition unconfiguredRefresh : list Event * AppState unit unit unit :=
  refreshData (fun _ => [tt]) (fun _ _ => [demoProject]) (fun _ => [tt])
    (fun environment => [demoDefect environment]) (fun _ _ => [tt])
    offline None None unconfiguredPipelines "QA" someDay blankState.

(** ** Definitions used to state further properties *)

(** The test runs the remote lists for [build], and the results it lists
    for [run]; empty when the request fails. *)
Definition runsOfBuild (remote : Remote) (project : string) (build : AzureBuild.t)
  : list AzureTestRun.t :=
  match remote (ReqTestRunsForBuild project (AzureBuild.id build)) with
  | inr testRuns => testRuns
  | inl _ => []
  end.

Definition resultsOfRun (remote : Remote) (project : string) (run : AzureTestRun.t)
  : list AzureTestResult.t :=
  match remote (ReqTestResults project (AzureTestRun.id run)) with
  | inr results => results
  | inl _ => []
  end.

(** The summary of [build] read directly off the remote: the counters are
    the sums over its runs, the results those of its runs in order. *)
Definition summaryOf (remote : Remote) (project : string) (build : AzureBuild.t)
  : PipelineResult.t :=
  let testRuns := runsOfBuild remote project build in
  {| PipelineResult.pipelineName := AzureBuild.name (AzureBuild.definition build);
     PipelineResult.definitionId := AzureBuild.definitionId (AzureBuild.definition build);
     PipelineResult.buildId := AzureBuild.id build;
     PipelineResult.buildNumber := AzureBuild.buildNumber build;
     PipelineResult.completedDate :=
       Js.orElse (AzureBuild.finishTime build) (AzureBuild.startTime build);
     PipelineResult.totalTests := sumBy AzureTestRun.totalTests testRuns;
     PipelineResult.passed := sumBy AzureTestRun.passedTests testRuns;
     PipelineResult.failed := sumBy AzureTestRun.failedTests testRuns;
     PipelineResult.skipped := sumBy AzureTestRun.notApplicableTests testRuns;
     PipelineResult.results := flat_map (resultsOfRun remote project) testRuns |}.

(** The messages of the [console.warn] events of a trace, in order. *)
Definition warnings (t : list Event) : list string :=
  flat_map (fun e => match e with ConsoleWarn msg _ => [msg] | _ => [] end) t.

(** The build ids of the test-run requests of a trace, in order. *)
Definition runsRequested (t : list Event) : list Z :=
  flat_map (fun e => match e with
                     | Fetch (ReqTestRunsForBuild _ buildId) => [buildId]
                     | _ => []
                     end) t.

(** The event is the request for the results of a run. *)
Definition isResultsFetch (e : Event) : bool :=
  match e with Fetch (ReqTestResults _ _) => true | _ => false end.

(** The message of the warning the build loop logs for [build]. *)
Definition warningFor (build : AzureBuild.t) : string :=
  "Failed to get test runs for build " ++ Js.toString (AzureBuild.id build) ++ ":".

(** [getLinkedDefects] of the project overview component:
    [defects.filter(d => defectIds.includes(d.id))]. *)
Definition getLinkedDefects (defects : list Defect.t) (defectIds : list string)
  : list Defect.t :=
  filter (fun d => existsb (String.eqb (Defect.id d)) defectIds) defects.

(** The character [c] does not occur in [s]. *)
Fixpoint lacks (c : ascii) (s : string) : bool :=
  match s with
  | EmptyString => true
  | String c' rest => negb (Ascii.eqb c' c) && lacks c rest
  end.

(** The records a refresh collects for [projectNames]: the non-null results
    of [fetchOne], in order. *)
Definition collectedProjects (fetchOne : string -> M (option ProjectData.t))
  (projectNames : list string) : list ProjectData.t :=
  flat_map (fun projName =>
              match outcomeOf (fetchOne projName) with
              | inr (Some d) => [d]
              | _ => []
              end) projectNames.

(** The defects a refresh collects for [projectNames]: those of the
    projects whose defect query fulfilled, transformed, in order. *)
Definition collectedDefects (remote : Remote) (service : AzureDevOpsService.t)
  (environment : Environment) (projectNames : list string) : list Defect.t :=
  flat_map (fun projName =>
              match outcomeOf (getDefects remote projName None) with
              | inr azDefects => transformDefects service azDefects environment
              | inl _ => []
              end) projectNames.

(** The names of the enabled projects of the settings. *)
Definition enabledNames (settings : Settings.t) : list string :=
  map Settings.name (filter Settings.enabled (Settings.projects settings)).

(** A project with three matching bugs whose detail fetch fails. *)
Definition detailsFail : World.t :=
  {| World.buildsOfDay := inr [];
     World.runsOfBuild := fun _ => inr [];
     World.resultsOfRun := fun _ => inr [];
     World.runsOfProject := inr [];
     World.areaPaths := inr None;
     World.wiql := inr (Some (map WorkItemRef.mk [101; 102; 103]));
     World.workItemsById := fun _ => inl serverError |}.

(** The three work-item references of the WIQL response of [planWorld]. *)
Definition threeRefs : list WorkItemRef.t := map WorkItemRef.mk [101; 102; 103].

(** Configured settings in pipelines mode with one enabled project, and
    configured settings in test-plans mode with no project enabled. *)
Definition configuredPipelines : Settings.t :=
  {| Settings.azureDevOps := AzureDevOpsConfig.mk "contoso" "pat" "";
     Settings.projects := [Settings.mkProject "ProjectX" true;
                           Settings.mkProject "Legacy" false];
     Settings.dataSource := Some pipelines |}.

Definition configuredPlansNoProject : Settings.t :=
  {| Settings.azureDevOps := AzureDevOpsConfig.mk "contoso" "pat" "";
     Settings.projects := [Settings.mkProject "Legacy" false];
     Settings.dataSource := Some testplans |}.

(** Configured settings in test-plans mode with one enabled project. *)
Definition configuredPlans : Settings.t :=
  {| Settings.azureDevOps := AzureDevOpsConfig.mk "contoso" "pat" "";
     Settings.projects := [Settings.mkProject "ProjectX" true;
                           Settings.mkProject "Legacy" false];
     Settings.dataSource := Some testplans |}.

(** Configured settings that leave the data source unset. *)
Definition configuredNoSource : Settings.t :=
  {| Settings.azureDevOps := AzureDevOpsConfig.mk "contoso" "pat" "";
     Settings.projects := [Settings.mkProject "ProjectX" true];
     Settings.dataSource := None |}.

(** One refresh with the stand-in generator. *)
Definition refreshWith (remote : Remote) (settings : Settings.t)
  : list Event * AppState unit unit unit :=
  refreshData (fun _ => [tt]) (fun _ _ => [demoProject]) (fun _ => [tt])
    (fun environment => [demoDefect environment]) (fun _ _ => [tt])
    remote None None settings "QA" someDay blankState.

(** The state a successful remote refresh writes over [st0]: the collected
    projects and defects, and the generator's trends, comparison and test
    failures. *)
Definition filledState {TestTrend ComparisonData TestFailureDefect : Type}
  (getTrendData : Environment -> list TestTrend)
  (getComparisonData : Environment -> list ComparisonData)
  (getTestFailureDefects : Environment -> Js.Date -> list TestFailureDefect)
  (selectedEnvironment : Environment) (selectedDate : Js.Date)
  (projectDataList : list ProjectData.t) (allDefects : list Defect.t)
  (st0 : AppState TestTrend ComparisonData TestFailureDefect)
  : AppState TestTrend ComparisonData TestFailureDefect :=
  setTestFailures _ _ _ (getTestFailureDefects selectedEnvironment selectedDate)
    (setComparison _ _ _ (getComparisonData selectedEnvironment)
       (setTrends _ _ _ (getTrendData selectedEnvironment)
          (setDefects _ _ _ allDefects (setProjects _ _ _ projectDataList st0)))).

(** ** The deep-link builder of [azureDevOpsUrls.ts]

    The module keeps its configuration in the module-level variable
    [_config]; here the value of that variable is an explicit argument.
    [encodeURIComponent] is a parameter. *)

Module AzDoUrls.

Record AzDoUrlConfig : Type := mkConfig {
  baseUrl : string;
  organization : string
}.

(** An argument typed [number | string]. *)
Inductive Id : Type :=
| NumberId (n : Z)
| StringId (s : string).

(** [`${id}`]. *)
Definition show (id : Id) : string :=
  match id with NumberId n => Js.toString n | StringId s => s end.

(** [Boolean(id)]. *)
Definition truthyId (id : Id) : bool :=
  match id with NumberId n => Js.truthyNum n | StringId s => Js.truthy s end.

(** [initAzDoUrls]: the new value of [_config]. *)
Definition initAzDoUrls (config : option AzDoUrlConfig) (_config : option AzDoUrlConfig)
  : option AzDoUrlConfig := config.

Section Builders.

Variable encodeURIComponent : string -> string.
Variable _config : option AzDoUrlConfig.

Definition base : string :=
  match _config with
  | None => ""
  | Some c => baseUrl c ++ "/" ++ organization c
  end.

Definition workItemUrl (project : string) (workItemId : Id) : string :=
  match _config with
  | None => "#"
  | Some _ => base ++ "/" ++ encodeURIComponent project ++ "/_workitems/edit/"
              ++ show workItemId
  end.

Definition testRunsUrl (project : string) : string :=
  match _config with
  | None => "#"
  | Some _ => base ++ "/" ++ encodeURIComponent project ++ "/_testManagement/runs"
  end.

Definition testRunUrl (project : string) (runId : Id) : string :=
  match _config with
  | None => "#"
  | Some _ => base ++ "/" ++ encodeURIComponent project
              ++ "/_testManagement/runs?runId=" ++ show runId ++ "&_a=resultSummary"
  end.

Definition pipelineRunsUrl (project : string) (definitionId : option Id) : string :=
  match _config with
  | None => "#"
  | Some _ =>
      let url := base ++ "/" ++ encodeURIComponent project ++ "/_build" in
      match definitionId with
      | Some id => if truthyId id then url ++ "?definitionId=" ++ show id else url
      | None => url
      end
  end.

(** [workItemsQueryUrl]; [workItemType] defaults to 'Bug' at the call. *)
Definition workItemsQueryUrl (project : string) (workItemType : string)
  (state : option string) : string :=
  match _config with
  | None => "#"
  | Some _ =>
      let wiqlParts :=
        ("[System.WorkItemType] = '" ++ workItemType ++ "'")
        :: match state with
           | Some s => if Js.truthy s then ["[System.State] = '" ++ s ++ "'"] else []
           | None => []
           end in
      let wiql :=
        encodeURIComponent
          ("SELECT [System.Id] FROM WorkItems WHERE " ++ Js.join " AND " wiqlParts
           ++ " ORDER BY [System.CreatedDate] DESC") in
      base ++ "/" ++ encodeURIComponent project ++ "/_workitems?_a=query&wiql=" ++ wiql
  end.

Definition boardsUrl (project : string) : string :=
  match _config with
  | None => "#"
  | Some _ => base ++ "/" ++ encodeURIComponent project ++ "/_boards/board"
  end.

Definition isAzDoConfigured : bool :=
  match _config with
  | None => false
  | Some c => negb (String.eqb (organization c) "")
  end.

Definition getOrgName : string :=
  match _config with
  | None => ""
  | Some c => Js.orElse (organization c) ""
  end.

End Builders.

End AzDoUrls.

(** * Properties *)

(** ** Laws of the monad *)

Lemma outcome_ret {A} (a : A) : outcomeOf (ret a) = inr a.
Proof. reflexivity. Qed.

Lemma outcome_bind_inr {A B} (m : M A) (f : A -> M B) (a : A) :
  outcomeOf m = inr a -> outcomeOf (bind m f) = outcomeOf (f a).
Proof.
  destruct m as [t [e | a']]; simpl; intros H; inversion H; subst.
  destruct (f a) as [t2 r]; reflexivity.
Qed.

Lemma outcome_bind_inl {A B} (m : M A) (f : A -> M B) (e : Error) :
  outcomeOf m = inl e -> outcomeOf (bind m f) = inl e.
Proof.
  destruct m as [t [e' | a']]; simpl; intros H; inversion H; subst; reflexivity.
Qed.

Lemma events_bind_inr {A B} (m : M A) (f : A -> M B) (a : A) :
  outcomeOf m = inr a -> events (bind m f) = (events m ++ events (f a))%list.
Proof.
  destruct m as [t [e | a']]; simpl; intros H; inversion H; subst.
  destruct (f a) as [t2 r]; reflexivity.
Qed.

Lemma outcome_tryCatch_inr {A} (m : M A) (h : Error -> M A) (a : A) :
  outcomeOf m = inr a -> outcomeOf (tryCatch m h) = inr a.
Proof.
  destruct m as [t [e | a']]; simpl; intros H; inversion H; subst; reflexivity.
Qed.

Lemma outcome_tryCatch_inl {A} (m : M A) (h : Error -> M A) (e : Error) :
  outcomeOf m = inl e -> outcomeOf (tryCatch m h) = outcomeOf (h e).
Proof.
  destruct m as [t [e' | a']]; simpl; intros H; inversion H; subst.
  destruct (h e) as [t2 r]; reflexivity.
Qed.

Lemma outcome_request (remote : Remote) (r : Request) :
  outcomeOf (request remote r) = remote r.
Proof. reflexivity. Qed.

(** ** Sums over arrays *)

Lemma fold_left_add_shift {A} (f : A -> Z) (l : list A) (s : Z) :
  fold_left (fun s x => s + f x) l s = s + fold_left (fun s x => s + f x) l 0.
Proof.
  revert s; induction l as [| x l IH]; intros s; simpl.
  - lia.
  - rewrite IH, (IH (f x)). lia.
Qed.

Lemma sumBy_nil {A} (f : A -> Z) : sumBy f [] = 0.
Proof. reflexivity. Qed.

Lemma sumBy_cons {A} (f : A -> Z) (x : A) (l : list A) :
  sumBy f (x :: l) = f x + sumBy f l.
Proof. unfold sumBy; simpl. rewrite fold_left_add_shift. reflexivity. Qed.

Lemma sumBy_zero {A} (f : A -> Z) (l : list A) :
  (forall x, In x l -> f x = 0) -> sumBy f l = 0.
Proof.
  induction l as [| x l IH]; intros H.
  - reflexivity.
  - rewrite sumBy_cons, IH, (H x); simpl; auto.
    intros y Hy; apply H; simpl; auto.
Qed.

(** ** The defect query: one batch of at most 200 ids *)

(** The state filter of the query names every state passed in; without
    states, or with an empty list, it excludes the closed bugs. *)
Lemma defectQuery_filter (project : string) :
  (forall s ss,
     defectQuery project (Some (s :: ss))
     = "SELECT [System.Id] FROM WorkItems WHERE [System.TeamProject] = '" ++ project
       ++ "' AND [System.WorkItemType] = 'Bug' "
       ++ ("AND [System.State] IN ('" ++ Js.join "','" (s :: ss) ++ "')")
       ++ " ORDER BY [System.CreatedDate] DESC")
  /\ defectQuery project (Some []) = defectQuery project None
  /\ defectQuery "ProjectX" (Some ["Active"; "New"])
     = "SELECT [System.Id] FROM WorkItems WHERE [System.TeamProject] = 'ProjectX' AND [System.WorkItemType] = 'Bug' AND [System.State] IN ('Active','New') ORDER BY [System.CreatedDate] DESC"
  /\ defectQuery "ProjectX" None
     = "SELECT [System.Id] FROM WorkItems WHERE [System.TeamProject] = 'ProjectX' AND [System.WorkItemType] = 'Bug' AND [System.State] <> 'Closed' ORDER BY [System.CreatedDate] DESC".
Proof. repeat split; reflexivity. Qed.

Lemma getDefects_events (remote : Remote) (project : string)
  (states : option (list string)) (w : WorkItemRef.t) (ws : list WorkItemRef.t) :
  remote (ReqWiql project (defectQuery project states)) = inr (Some (w :: ws)) ->
  events (getDefects remote project states) =
    [ Fetch (ReqWiql project (defectQuery project states));
      Fetch (ReqWorkItems project (firstn 200 (map WorkItemRef.id (w :: ws)))) ].
Proof.
  intros H. unfold getDefects.
  rewrite (events_bind_inr _ _ (Some (w :: ws))) by exact H.
  reflexivity.
Qed.

Lemma getDefects_outcome (remote : Remote) (project : string)
  (states : option (list string)) (w : WorkItemRef.t) (ws : list WorkItemRef.t) :
  remote (ReqWiql project (defectQuery project states)) = inr (Some (w :: ws)) ->
  outcomeOf (getDefects remote project states) =
    remote (ReqWorkItems project (firstn 200 (map WorkItemRef.id (w :: ws)))).
Proof.
  intros H. unfold getDefects.
  rewrite (outcome_bind_inr _ _ (Some (w :: ws))) by exact H.
  reflexivity.
Qed.

(** C8.  When the WIQL phase of [getDefects] returns more than 200 work-item
    ids, the method sends exactly two requests: the query, then one batch
    detail fetch whose id list is the first 200 ids in query order; the ids
    after the 200th are in no request. *)
Theorem C8_getDefects_one_batch_of_first_200 (remote : Remote) (project : string)
  (states : option (list string)) (workItems : list WorkItemRef.t) :
  remote (ReqWiql project (defectQuery project states)) = inr (Some workItems) ->
  (200 < List.length workItems)%nat ->
  fetches (events (getDefects remote project states)) =
    [ ReqWiql project (defectQuery project states);
      ReqWorkItems project (firstn 200 (map WorkItemRef.id workItems)) ]
  /\ List.length (firstn 200 (map WorkItemRef.id workItems)) = 200%nat
  /\ outcomeOf (getDefects remote project states) =
       remote (ReqWorkItems project (firstn 200 (map WorkItemRef.id workItems))).
Proof.
  intros Hq Hlen.
  destruct workItems as [| w ws]; [simpl in Hlen; lia |].
  split; [| split].
  - rewrite (getDefects_events _ _ _ _ _ Hq). reflexivity.
  - rewrite length_firstn, length_map. lia.
  - apply getDefects_outcome; exact Hq.
Qed.

(** ** The build loop of the pipeline-centric strategy *)

Section BuildLoop.

Variable remote : Remote.
Variable project : string.

Lemma forEachRun_fulfils (testRuns : list AzureTestRun.t) (acc : RunTotals) :
  existsb (resultsFail remote project) testRuns = false ->
  exists acc', outcomeOf (forEachRun remote project testRuns acc) = inr acc'.
Proof.
  revert acc; induction testRuns as [| run rest IH]; intros acc H.
  - exists acc; reflexivity.
  - simpl in H. apply orb_false_iff in H as [Hrun Hrest].
    unfold resultsFail in Hrun. cbn [forEachRun].
    destruct (remote (ReqTestResults project (AzureTestRun.id run))) as [e | results] eqn:E;
      [discriminate |].
    unfold getTestResults.
    rewrite (outcome_bind_inr _ _ results) by exact E.
    apply IH; exact Hrest.
Qed.

Lemma forEachRun_rejects (testRuns : list AzureTestRun.t) (acc : RunTotals) :
  existsb (resultsFail remote project) testRuns = true ->
  exists e, outcomeOf (forEachRun remote project testRuns acc) = inl e.
Proof.
  revert acc; induction testRuns as [| run rest IH]; intros acc H.
  - discriminate.
  - cbn [forEachRun]. unfold getTestResults.
    destruct (remote (ReqTestResults project (AzureTestRun.id run))) as [e | results] eqn:E.
    + exists e. apply outcome_bind_inl. exact E.
    + rewrite (outcome_bind_inr _ _ results) by exact E.
      apply IH. simpl in H. unfold resultsFail at 1 in H. rewrite E in H. exact H.
Qed.

Lemma guardedBody_kept (build : AzureBuild.t) (acc : list PipelineResult.t) :
  fetchThrows remote project build = false ->
  hasTestRuns remote project build = true ->
  exists entry,
    outcomeOf (guardedBody remote project build acc) = inr (acc ++ [entry])%list
    /\ PipelineResult.buildId entry = AzureBuild.id build
    /\ PipelineResult.definitionId entry
       = AzureBuild.definitionId (AzureBuild.definition build)
    /\ PipelineResult.pipelineName entry = AzureBuild.name (AzureBuild.definition build).
Proof.
  unfold fetchThrows, hasTestRuns, guardedBody, buildBody, getTestRunsForBuild.
  intros Hthrow Hruns.
  destruct (remote (ReqTestRunsForBuild project (AzureBuild.id build)))
    as [e | [| run rest]] eqn:E; try discriminate.
  destruct (forEachRun_fulfils (run :: rest) (mkRunTotals 0 0 0 0 []) Hthrow) as [acc' Hacc].
  eexists. split; [| split; [| split]].
  - apply outcome_tryCatch_inr.
    rewrite (outcome_bind_inr _ _ (run :: rest)) by exact E.
    rewrite (outcome_bind_inr _ _ acc') by exact Hacc.
    reflexivity.
  - reflexivity.
  - reflexivity.
  - reflexivity.
Qed.

Lemma guardedBody_skipped (build : AzureBuild.t) (acc : list PipelineResult.t) :
  fetchThrows remote project build = true \/ hasTestRuns remote project build = false ->
  outcomeOf (guardedBody remote project build acc) = inr acc.
Proof.
  unfold fetchThrows, hasTestRuns, guardedBody, buildBody, getTestRunsForBuild.
  intros H.
  destruct (remote (ReqTestRunsForBuild project (AzureBuild.id build)))
    as [e | [| run rest]] eqn:E.
  - rewrite (outcome_tryCatch_inl _ _ e); [reflexivity |].
    apply outcome_bind_inl. exact E.
  - apply outcome_tryCatch_inr.
    rewrite (outcome_bind_inr _ _ []) by exact E.
    reflexivity.
  - destruct H as [H | H]; [| discriminate].
    destruct (forEachRun_rejects (run :: rest) (mkRunTotals 0 0 0 0 []) H) as [e He].
    rewrite (outcome_tryCatch_inl _ _ e); [reflexivity |].
    rewrite (outcome_bind_inr _ _ (run :: rest)) by exact E.
    apply outcome_bind_inl. exact He.
Qed.

Lemma forEachBuild_outcome (builds : list AzureBuild.t) (acc : list PipelineResult.t) :
  exists entries,
    outcomeOf (forEachBuild remote project builds acc) = inr (acc ++ entries)%list
    /\ map PipelineResult.buildId entries = map AzureBuild.id (filter (kept remote project) builds)
    /\ map PipelineResult.definitionId entries
       = map (fun b => AzureBuild.definitionId (AzureBuild.definition b))
           (filter (kept remote project) builds).
Proof.
  revert acc; induction builds as [| build rest IH]; intros acc.
  - exists []. simpl. rewrite app_nil_r. auto.
  - cbn [forEachBuild filter].
    destruct (kept remote project build) eqn:K; unfold kept in K.
    + apply andb_true_iff in K as [Ht Hr]. apply negb_true_iff in Ht.
      destruct (guardedBody_kept build acc Ht Hr) as [entry [Ho [Hid [Hdef _]]]].
      rewrite (outcome_bind_inr _ _ _ Ho).
      destruct (IH (acc ++ [entry])%list) as [entries [Hout [Hids Hdefs]]].
      exists (entry :: entries). rewrite Hout, <- app_assoc. simpl.
      rewrite Hid, Hids, Hdef, Hdefs. auto.
    + assert (Hskip : fetchThrows remote project build = true
                      \/ hasTestRuns remote project build = false).
      { apply andb_false_iff in K as [K | K]; [left; apply negb_false_iff | right]; exact K. }
      rewrite (outcome_bind_inr _ _ acc) by (apply guardedBody_skipped; exact Hskip).
      apply IH.
Qed.

End BuildLoop.

(** ** The pipeline-centric strategy *)

Section Pipelines.

Variable remote : Remote.
Variables automated manual : option Z.

Lemma kept_by_id (project : string) (b b' : AzureBuild.t) :
  AzureBuild.id b = AzureBuild.id b' -> kept remote project b = kept remote project b'.
Proof.
  intros H. unfold kept, fetchThrows, hasTestRuns. rewrite H. reflexivity.
Qed.

Lemma getTestResultsByPipelines_outcome (project : string) (date : Js.Date)
  (builds : list AzureBuild.t) :
  remote (buildsRequest project date) = inr builds ->
  exists pipelineResults,
    outcomeOf (getTestResultsByPipelines remote project date) = inr pipelineResults
    /\ map PipelineResult.buildId pipelineResults
       = map AzureBuild.id (filter (kept remote project) builds)
    /\ map PipelineResult.definitionId pipelineResults
       = map (fun b => AzureBuild.definitionId (AzureBuild.definition b))
           (filter (kept remote project) builds).
Proof.
  intros H. unfold getTestResultsByPipelines, getBuildsByDate.
  rewrite (outcome_bind_inr _ _ builds) by exact H.
  destruct (forEachBuild_outcome remote project builds []) as [entries [Ho Hrest]].
  exists entries. split; [exact Ho | exact Hrest].
Qed.

Lemma getTestResultsByPipelines_rejects (project : string) (date : Js.Date) (e : Error) :
  remote (buildsRequest project date) = inl e ->
  outcomeOf (getTestResultsByPipelines remote project date) = inl e.
Proof.
  intros H. unfold getTestResultsByPipelines, getBuildsByDate.
  apply outcome_bind_inl. exact H.
Qed.

Lemma pipelineModule_fields (pr : PipelineResult.t) (m : ModuleTestResult.t) :
  outcomeOf (pipelineModule automated manual pr) = inr m ->
  ModuleTestResult.moduleId m = "pipeline-" ++ Js.toString (PipelineResult.definitionId pr)
  /\ ModuleTestResult.moduleName m = PipelineResult.pipelineName pr
  /\ ModuleTestResult.totalTests m = PipelineResult.totalTests pr
  /\ ModuleTestResult.passed m = PipelineResult.passed pr
  /\ ModuleTestResult.failed m = PipelineResult.failed pr
  /\ ModuleTestResult.skipped m = PipelineResult.skipped pr
  /\ ModuleTestResult.executed m = PipelineResult.passed pr + PipelineResult.failed pr
  /\ ModuleTestResult.passRate m
     = (if 0 <? PipelineResult.passed pr + PipelineResult.failed pr
        then Js.percent (PipelineResult.passed pr)
               (PipelineResult.passed pr + PipelineResult.failed pr)
        else 0%Q)
  /\ ModuleTestResult.automated m = None
  /\ ModuleTestResult.manual m = None
  /\ ModuleTestResult.linkedDefects m = [].
Proof.
  unfold pipelineModule, readIdentifier.
  destruct automated as [a |]; [| discriminate].
  destruct manual as [b |]; [| discriminate].
  cbn. intros H. inversion H; subst; clear H. cbn. repeat split; reflexivity.
Qed.

Lemma mapM_cons_inr {A B} (f : A -> M B) (x : A) (xs : list A) (ys : list B) :
  outcomeOf (mapM f (x :: xs)) = inr ys ->
  exists y ys', ys = y :: ys' /\ outcomeOf (f x) = inr y /\ outcomeOf (mapM f xs) = inr ys'.
Proof.
  cbn [mapM]. destruct (f x) as [t [e | y]] eqn:Ef.
  - discriminate.
  - rewrite (outcome_bind_inr _ _ y) by reflexivity.
    destruct (mapM f xs) as [t' [e | ys']] eqn:Em.
    + discriminate.
    + rewrite (outcome_bind_inr _ _ ys') by reflexivity.
      cbn. intros H; inversion H; subst. exists y, ys'. auto.
Qed.

Lemma projectOfModules_rejects (projectName : string)
  (pipelineResults : list PipelineResult.t) (m : ModuleTestResult.t)
  (ms : list ModuleTestResult.t) :
  ModuleTestResult.automated m = None ->
  exists e, outcomeOf (projectOfModules projectName pipelineResults (m :: ms)) = inl e.
Proof.
  intros H. unfold projectOfModules. cbn [sumByM]. rewrite H.
  eexists. apply outcome_bind_inl. apply outcome_bind_inl. reflexivity.
Qed.

(** What [getProjectDataFromPipelines] resolves to once the builds are
    listed: the all-zero record when no build is kept, [null] otherwise. *)
Lemma getProjectDataFromPipelines_outcome (projectName : string)
  (environment : Environment) (date : Js.Date) (builds : list AzureBuild.t) :
  remote (buildsRequest projectName date) = inr builds ->
  outcomeOf (getProjectDataFromPipelines remote automated manual projectName
               environment date)
  = inr (match filter (kept remote projectName) builds with
         | [] => Some (emptyProject projectName)
         | _ :: _ => None
         end).
Proof.
  intros H.
  destruct (getTestResultsByPipelines_outcome projectName date builds H)
    as [prs [Ho [Hids _]]].
  unfold getProjectDataFromPipelines.
  destruct prs as [| pr prs].
  - destruct (filter (kept remote projectName) builds); [| discriminate].
    apply outcome_tryCatch_inr.
    rewrite (outcome_bind_inr _ _ [] Ho). reflexivity.
  - destruct (filter (kept remote projectName) builds) as [| b bs]; [discriminate |].
    match goal with
    | |- outcomeOf (tryCatch ?body ?h) = _ =>
        assert (Hbody : exists e, outcomeOf body = inl e)
    end.
    { rewrite (outcome_bind_inr _ _ (pr :: prs) Ho).
      destruct (mapM (pipelineModule automated manual) (pr :: prs))
        as [t [e | modules]] eqn:Em.
      - exists e. apply outcome_bind_inl. reflexivity.
      - rewrite (outcome_bind_inr _ _ modules) by reflexivity.
        assert (Hm : outcomeOf (mapM (pipelineModule automated manual) (pr :: prs))
                     = inr modules) by (rewrite Em; reflexivity).
        apply mapM_cons_inr in Hm as [m [ms [-> [Hf _]]]].
        apply pipelineModule_fields in Hf.
        destruct (projectOfModules_rejects projectName (pr :: prs) m ms) as [e He];
          [tauto |].
        exists e. apply outcome_bind_inl. exact He. }
    destruct Hbody as [e He].
    rewrite (outcome_tryCatch_inl _ _ e He). reflexivity.
Qed.

Lemma getProjectDataFromPipelines_offline (projectName : string)
  (environment : Environment) (date : Js.Date) (e : Error) :
  remote (buildsRequest projectName date) = inl e ->
  outcomeOf (getProjectDataFromPipelines remote automated manual projectName
               environment date) = inr None.
Proof.
  intros H. unfold getProjectDataFromPipelines.
  rewrite (outcome_tryCatch_inl _ _ e); [reflexivity |].
  apply outcome_bind_inl. apply getTestResultsByPipelines_rejects. exact H.
Qed.

(** Every record the pipeline-centric strategy returns is the all-zero one. *)
Lemma getProjectDataFromPipelines_returned (projectName : string)
  (environment : Environment) (date : Js.Date) (p : ProjectData.t) :
  outcomeOf (getProjectDataFromPipelines remote automated manual projectName
               environment date) = inr (Some p) ->
  p = emptyProject projectName.
Proof.
  destruct (remote (buildsRequest projectName date)) as [e | builds] eqn:E.
  - rewrite (getProjectDataFromPipelines_offline _ _ _ e E). discriminate.
  - rewrite (getProjectDataFromPipelines_outcome _ _ _ builds E).
    destruct (filter (kept remote projectName) builds); intros H; inversion H; reflexivity.
Qed.

End Pipelines.

(** C2.  Once the builds of the day are listed, [getTestResultsByPipelines]
    does not throw: it resolves to a list whose build ids are, in order,
    those of the builds that have test runs and none of whose fetches
    threw.  So a build whose test-run or test-result fetch throws has no
    entry, and every other build with test runs has one. *)
Theorem C2_failing_build_skipped_others_kept (remote : Remote) (project : string)
  (date : Js.Date) (builds : list AzureBuild.t) :
  remote (buildsRequest project date) = inr builds ->
  exists pipelineResults,
    outcomeOf (getTestResultsByPipelines remote project date) = inr pipelineResults
    /\ map PipelineResult.buildId pipelineResults
       = map AzureBuild.id
           (filter (fun b => negb (fetchThrows remote project b)
                             && hasTestRuns remote project b) builds)
    /\ (forall b, In b builds -> fetchThrows remote project b = true ->
        ~ In (AzureBuild.id b) (map PipelineResult.buildId pipelineResults))
    /\ (forall b, In b builds -> fetchThrows remote project b = false ->
        hasTestRuns remote project b = true ->
        In (AzureBuild.id b) (map PipelineResult.buildId pipelineResults)).
Proof.
  intros H.
  destruct (getTestResultsByPipelines_outcome remote project date builds H)
    as [prs [Ho [Hids _]]].
  exists prs. split; [exact Ho |]. split; [exact Hids |]. split.
  - intros b _ Hthrow Hin. rewrite Hids in Hin.
    apply in_map_iff in Hin as [b' [Hid Hb']].
    apply filter_In in Hb' as [_ Hk].
    rewrite (kept_by_id remote project b' b Hid) in Hk.
    unfold kept in Hk. rewrite Hthrow in Hk. discriminate.
  - intros b Hb Hthrow Hruns. rewrite Hids.
    apply in_map. apply filter_In. split; [exact Hb |].
    unfold kept. rewrite Hthrow, Hruns. reflexivity.
Qed.

(** Three builds, the test-run fetch of build 2 throws: the result holds
    builds 1 and 3 only. *)
Lemma C2_witness_three_builds :
  remoteOf threeBuilds (buildsRequest "ProjectX" someDay)
    = inr [mkBuild 1 11 "api"; mkBuild 2 12 "web"; mkBuild 3 13 "e2e"]
  /\ exists pipelineResults,
       outcomeOf (getTestResultsByPipelines (remoteOf threeBuilds) "ProjectX" someDay)
         = inr pipelineResults
       /\ map PipelineResult.buildId pipelineResults = [1; 3].
Proof.
  split; [reflexivity |].
  destruct (C2_failing_build_skipped_others_kept (remoteOf threeBuilds) "ProjectX"
              someDay [mkBuild 1 11 "api"; mkBuild 2 12 "web"; mkBuild 3 13 "e2e"]
              eq_refl) as [prs [Ho [Hids _]]].
  exists prs. split; [exact Ho | exact Hids].
Defined.

(** C9.  When the builds of the day are listed and none of them has a test
    run, [getProjectDataFromPipelines] resolves to a record, not to [null]
    and not to an error: its module list is empty and every counter, the
    pass rate and both breakdowns are zero. *)
Theorem C9_no_test_runs_gives_all_zero_project (remote : Remote)
  (automated manual : option Z) (projectName : string) (environment : Environment)
  (date : Js.Date) (builds : list AzureBuild.t) :
  remote (buildsRequest projectName date) = inr builds ->
  (forall b, In b builds -> hasTestRuns remote projectName b = false) ->
  exists p,
    outcomeOf (getProjectDataFromPipelines remote automated manual projectName
                 environment date) = inr (Some p)
    /\ ProjectData.modules p = []
    /\ ProjectData.totalTests p = 0
    /\ ProjectData.executed p = 0
    /\ ProjectData.passed p = 0
    /\ ProjectData.failed p = 0
    /\ ProjectData.skipped p = 0
    /\ ProjectData.passRate p = 0%Q
    /\ ProjectData.automated p = TestTypeBreakdown.mk 0 0 0 0 0%Q
    /\ ProjectData.manual p = TestTypeBreakdown.mk 0 0 0 0 0%Q.
Proof.
  intros H Hnone.
  exists (emptyProject projectName). split.
  - rewrite (getProjectDataFromPipelines_outcome remote automated manual
               projectName environment date builds H).
    assert (Hf : filter (kept remote projectName) builds = []).
    { clear H. induction builds as [| b bs IH]; [reflexivity |].
      cbn [filter]. unfold kept at 1. rewrite (Hnone b) by (left; reflexivity).
      rewrite andb_false_r. apply IH. intros b' Hb'. apply Hnone. right; exact Hb'. }
    rewrite Hf. reflexivity.
  - repeat split; reflexivity.
Qed.

(** Two builds without test runs. *)
Lemma C9_witness_builds_without_tests :
  remoteOf buildsWithoutTests (buildsRequest "ProjectX" someDay)
    = inr [mkBuild 1 11 "api"; mkBuild 2 12 "web"]
  /\ (forall b, In b [mkBuild 1 11 "api"; mkBuild 2 12 "web"] ->
      hasTestRuns (remoteOf buildsWithoutTests) "ProjectX" b = false)
  /\ exists p,
       outcomeOf (getProjectDataFromPipelines (remoteOf buildsWithoutTests) None None
                    "ProjectX" "QA" someDay) = inr (Some p)
       /\ ProjectData.modules p = []
       /\ ProjectData.totalTests p = 0.
Proof.
  assert (Hnone : forall b, In b [mkBuild 1 11 "api"; mkBuild 2 12 "web"] ->
                  hasTestRuns (remoteOf buildsWithoutTests) "ProjectX" b = false)
    by (intros b _; reflexivity).
  split; [reflexivity |]. split; [exact Hnone |].
  destruct (C9_no_test_runs_gives_all_zero_project (remoteOf buildsWithoutTests)
              None None "ProjectX" "QA" someDay
              [mkBuild 1 11 "api"; mkBuild 2 12 "web"] eq_refl Hnone)
    as [p [Ho [Hm [Ht _]]]].
  exists p. split; [exact Ho |]. split; [exact Hm | exact Ht].
Defined.

(** A defect query matching 350 bugs: one batch fetch of the ids 1 to 200. *)
Lemma C8_witness_350_ids :
  remoteOf manyDefects (ReqWiql "ProjectX" (defectQuery "ProjectX" None))
    = inr (Some (map (fun n => WorkItemRef.mk (Z.of_nat n)) (seq 1 350)))
  /\ (200 < List.length (map (fun n => WorkItemRef.mk (Z.of_nat n)) (seq 1 350)))%nat
  /\ fetches (events (getDefects (remoteOf manyDefects) "ProjectX" None))
     = [ ReqWiql "ProjectX" (defectQuery "ProjectX" None);
         ReqWorkItems "ProjectX" (map Z.of_nat (seq 1 200)) ].
Proof.
  assert (Hlen : (200 < List.length (map (fun n => WorkItemRef.mk (Z.of_nat n))
                                       (seq 1 350)))%nat)
    by (apply Nat.ltb_lt; vm_compute; reflexivity).
  split; [reflexivity |]. split; [exact Hlen |].
  destruct (C8_getDefects_one_batch_of_first_200 (remoteOf manyDefects) "ProjectX" None
              (map (fun n => WorkItemRef.mk (Z.of_nat n)) (seq 1 350)) eq_refl Hlen)
    as [Hf _].
  rewrite Hf. vm_compute. reflexivity.
Defined.

(** The callback builds one module per element of [pipelineResults]: the
    ids of the modules follow the definition ids of the builds, repeated as
    often as a definition has builds. *)
Lemma mapM_pipelineModule_ids (automated manual : option Z)
  (pipelineResults : list PipelineResult.t) (modules : list ModuleTestResult.t) :
  outcomeOf (mapM (pipelineModule automated manual) pipelineResults) = inr modules ->
  map ModuleTestResult.moduleId modules
  = map (fun pr => "pipeline-" ++ Js.toString (PipelineResult.definitionId pr))
      pipelineResults.
Proof.
  revert modules; induction pipelineResults as [| pr prs IH]; intros modules H.
  - cbn in H. inversion H. reflexivity.
  - apply mapM_cons_inr in H as [m [ms [-> [Hm Hms]]]].
    apply pipelineModule_fields in Hm as [Hid _].
    cbn [map]. rewrite Hid, (IH ms Hms). reflexivity.
Qed.

(** C4.  Two builds of the pipeline definition 7 on the selected day.  The
    claim asks for one module "pipeline-7".  [getTestResultsByPipelines]
    returns two summaries of definition 7 and the callback of [map] turns
    each summary into a module of its own, so whenever the callback returns
    the array holds two modules with the same id "pipeline-7"; and the call
    as a whole ends in its [catch] and resolves to [null], whatever the two
    undeclared identifiers are bound to. *)
Theorem C4_two_builds_of_one_definition_not_grouped :
  (forall automated manual,
     outcomeOf (getProjectDataFromPipelines (remoteOf twoBuildsOfOnePipeline)
                  automated manual "ProjectX" "QA" someDay) = inr None)
  /\ exists pipelineResults,
       outcomeOf (getTestResultsByPipelines (remoteOf twoBuildsOfOnePipeline)
                    "ProjectX" someDay) = inr pipelineResults
       /\ map PipelineResult.definitionId pipelineResults = [7; 7]
       /\ forall a b, exists m1 m2,
            outcomeOf (mapM (pipelineModule (Some a) (Some b)) pipelineResults)
              = inr [m1; m2]
            /\ ModuleTestResult.moduleId m1 = "pipeline-7"
            /\ ModuleTestResult.moduleId m2 = "pipeline-7".
Proof.
  split.
  - intros automated manual.
    rewrite (getProjectDataFromPipelines_outcome _ automated manual "ProjectX" "QA"
               someDay [mkBuild 1 7 "nightly"; mkBuild 2 7 "nightly"] eq_refl).
    reflexivity.
  - eexists. split; [reflexivity |]. split; [reflexivity |].
    intros a b. eexists. eexists. split; [reflexivity |]. split; reflexivity.
Qed.

(** C5.  One build whose run has an automated result that passed and a
    manual result that failed.  The callback classifies the results by the
    truthiness of [automatedTestName] (one automated, one manual), but the
    module literal has no [automated] and no [manual] breakdown, and the
    call resolves to [null]: no module with the two breakdowns is
    returned. *)
Theorem C5_module_has_no_breakdowns :
  (forall automated manual,
     outcomeOf (getProjectDataFromPipelines (remoteOf oneBuildMixedResults)
                  automated manual "ProjectX" "QA" someDay) = inr None)
  /\ exists pr,
       outcomeOf (getTestResultsByPipelines (remoteOf oneBuildMixedResults)
                    "ProjectX" someDay) = inr [pr]
       /\ autoCount (PipelineResult.results pr) = 1
       /\ manualCount (PipelineResult.results pr) = 1
       /\ autoPassed (PipelineResult.results pr) = 1
       /\ autoFailed (PipelineResult.results pr) = 0
       /\ manualPassed (PipelineResult.results pr) = 0
       /\ forall a b, exists m,
            outcomeOf (pipelineModule (Some a) (Some b) pr) = inr m
            /\ ModuleTestResult.automated m = None
            /\ ModuleTestResult.manual m = None.
Proof.
  split.
  - intros automated manual.
    rewrite (getProjectDataFromPipelines_outcome _ automated manual "ProjectX" "QA"
               someDay [mkBuild 1 7 "nightly"] eq_refl).
    reflexivity.
  - eexists. split; [reflexivity |]. repeat (split; [reflexivity |]).
    intros a b. eexists. split; [reflexivity |]. split; reflexivity.
Qed.

(** ** The test-plan-centric strategy *)

Lemma addKey_In (k x : string) (ks : list string) :
  In x (addKey k ks) <-> x = k \/ In x ks.
Proof.
  induction ks as [| k' rest IH]; simpl.
  - intuition.
  - destruct (String.eqb k' k) eqn:E.
    + apply String.eqb_eq in E; subst. simpl. intuition.
    + simpl. rewrite IH. intuition.
Qed.

Lemma addKey_NoDup (k : string) (ks : list string) :
  NoDup ks -> NoDup (addKey k ks).
Proof.
  induction ks as [| k' rest IH]; intros H; simpl.
  - constructor; [intros [] | constructor].
  - inversion H as [| ? ? Hnotin Hrest]; subst.
    destruct (String.eqb k' k) eqn:E; [exact H |].
    constructor; [| apply IH; exact Hrest].
    rewrite addKey_In. intros [-> | Hin]; [| contradiction].
    rewrite String.eqb_refl in E. discriminate.
Qed.

Lemma distinctKeys_spec (areaPaths : list string) :
  NoDup (distinctKeys areaPaths)
  /\ forall x, In x (distinctKeys areaPaths) <-> In x areaPaths.
Proof.
  unfold distinctKeys.
  assert (G : forall l ks, NoDup ks ->
              NoDup (fold_left (fun ks k => addKey k ks) l ks)
              /\ forall x, In x (fold_left (fun ks k => addKey k ks) l ks)
                           <-> In x ks \/ In x l).
  { induction l as [| k l IH]; intros ks Hks; simpl.
    - split; [exact Hks | intuition].
    - destruct (IH (addKey k ks) (addKey_NoDup k ks Hks)) as [Hn Hin].
      split; [exact Hn |]. intros x. rewrite Hin, addKey_In. intuition. }
  destruct (G areaPaths [] (NoDup_nil _)) as [Hn Hin].
  split; [exact Hn |]. intros x. rewrite Hin. simpl. intuition.
Qed.

Lemma set_tabulate {V} (g : string -> V) (k : string) (ks : list string) :
  JsMap.set k (g k) (tabulate g ks) = tabulate g (addKey k ks).
Proof.
  induction ks as [| k' rest IH]; simpl.
  - reflexivity.
  - destruct (String.eqb k' k) eqn:E.
    + apply String.eqb_eq in E; subst. reflexivity.
    + simpl. f_equal. exact IH.
Qed.

Lemma fold_set_tabulate {V} (g : string -> V) (l ks : list string) :
  fold_left (fun m k => JsMap.set k (g k) m) l (tabulate g ks)
  = tabulate g (fold_left (fun ks k => addKey k ks) l ks).
Proof.
  revert ks; induction l as [| k l IH]; intros ks; simpl.
  - reflexivity.
  - rewrite set_tabulate. apply IH.
Qed.

Lemma get_tabulate_in {V} (g : string -> V) (k : string) (ks : list string) :
  In k ks -> JsMap.get k (tabulate g ks) = Some (g k).
Proof.
  induction ks as [| k' rest IH]; simpl; intros H.
  - contradiction.
  - destruct (String.eqb k' k) eqn:E.
    + apply String.eqb_eq in E; subst. reflexivity.
    + destruct H as [-> | H]; [rewrite String.eqb_refl in E; discriminate |].
      apply IH; exact H.
Qed.

Lemma get_tabulate_notin {V} (g : string -> V) (k : string) (ks : list string) :
  ~ In k ks -> JsMap.get k (tabulate g ks) = None.
Proof.
  induction ks as [| k' rest IH]; simpl; intros H.
  - reflexivity.
  - destruct (String.eqb k' k) eqn:E.
    + apply String.eqb_eq in E; subst. exfalso; apply H; left; reflexivity.
    + apply IH. intros Hin; apply H; right; exact Hin.
Qed.

Lemma mutate_tabulate {V} (g : string -> V) (f : V -> V) (k : string)
  (ks : list string) :
  NoDup ks ->
  JsMap.mutate k f (tabulate g ks)
  = tabulate (fun k' => if String.eqb k' k then f (g k') else g k') ks.
Proof.
  induction ks as [| k' rest IH]; intros H; simpl.
  - reflexivity.
  - inversion H as [| ? ? Hnotin Hrest]; subst.
    destruct (String.eqb k' k) eqn:E.
    + apply String.eqb_eq in E; subst. f_equal.
      unfold tabulate. apply map_ext_in. intros x Hx.
      destruct (String.eqb x k) eqn:Ex; [| reflexivity].
      apply String.eqb_eq in Ex; subst. contradiction.
    + f_equal. apply IH; exact Hrest.
Qed.

Lemma linkedIds_app (name : string) (ds : list AzureWorkItem.t) (d : AzureWorkItem.t) :
  linkedIds name (ds ++ [d])
  = (linkedIds name ds
     ++ (if String.eqb (areaPathTail d) name
         then [Js.toString (AzureWorkItem.id d)] else []))%list.
Proof.
  unfold linkedIds. rewrite filter_app, map_app. simpl.
  destruct (String.eqb (areaPathTail d) name); reflexivity.
Qed.

Lemma linkDefect_tabulate (ks : list string) (ds : list AzureWorkItem.t)
  (d : AzureWorkItem.t) :
  NoDup ks ->
  linkDefect (tabulate (linkedModule ds) ks) d = tabulate (linkedModule (ds ++ [d])) ks.
Proof.
  intros Hnd. unfold linkDefect.
  destruct (in_dec string_dec (areaPathTail d) ks) as [Hin | Hnotin].
  - rewrite (get_tabulate_in _ _ _ Hin), (mutate_tabulate _ _ _ _ Hnd).
    unfold tabulate. apply map_ext. intros k.
    unfold linkedModule, pushLinkedDefect; cbn.
    rewrite linkedIds_app, (String.eqb_sym k).
    destruct (String.eqb (areaPathTail d) k); [reflexivity |].
    rewrite app_nil_r. reflexivity.
  - rewrite (get_tabulate_notin _ _ _ Hnotin).
    unfold tabulate. apply map_ext_in. intros k Hk.
    unfold linkedModule. rewrite linkedIds_app.
    destruct (String.eqb (areaPathTail d) k) eqn:E.
    + apply String.eqb_eq in E; subst. contradiction.
    + rewrite app_nil_r. reflexivity.
Qed.

Lemma fold_linkDefect_tabulate (ks : list string) (ds1 ds2 : list AzureWorkItem.t) :
  NoDup ks ->
  fold_left linkDefect ds2 (tabulate (linkedModule ds1) ks)
  = tabulate (linkedModule (ds1 ++ ds2)) ks.
Proof.
  intros Hnd. revert ds1; induction ds2 as [| d ds2 IH]; intros ds1; simpl.
  - rewrite app_nil_r. reflexivity.
  - rewrite (linkDefect_tabulate ks ds1 d Hnd), IH, <- app_assoc. reflexivity.
Qed.

(** The modules of the record [getProjectData] returns. *)
Lemma planProject_modules (projectName : string) (testRuns : list AzureTestRun.t)
  (areaPaths : list string) (defects : list AzureWorkItem.t) :
  ProjectData.modules (planProject projectName testRuns areaPaths defects)
  = map (linkedModule defects) (distinctKeys areaPaths).
Proof.
  unfold planProject; cbn [ProjectData.modules].
  change (@nil (string * ModuleTestResult.t)) with (tabulate areaModule []).
  rewrite (fold_set_tabulate areaModule areaPaths []).
  fold (distinctKeys areaPaths).
  change areaModule with (linkedModule []).
  rewrite (fold_linkDefect_tabulate _ [] defects) by apply distinctKeys_spec.
  unfold JsMap.values, tabulate. simpl app.
  rewrite !map_map. apply map_ext. intros k. reflexivity.
Qed.

Lemma fold_addRun_totals (testRuns : list AzureTestRun.t) (acc : PlanTotals) :
  let totals := fold_left addRun testRuns acc in
  pt_totalTests totals = pt_totalTests acc + sumBy AzureTestRun.totalTests testRuns
  /\ pt_totalPassed totals = pt_totalPassed acc + sumBy AzureTestRun.passedTests testRuns
  /\ pt_totalFailed totals = pt_totalFailed acc + sumBy AzureTestRun.failedTests testRuns
  /\ pt_totalSkipped totals
     = pt_totalSkipped acc + sumBy AzureTestRun.notApplicableTests testRuns.
Proof.
  revert acc; induction testRuns as [| run rest IH]; intros acc; cbn [fold_left].
  - rewrite !sumBy_nil. cbn. repeat split; lia.
  - specialize (IH (addRun acc run)). cbn zeta in IH |- *.
    destruct IH as [H1 [H2 [H3 H4]]].
    rewrite H1, H2, H3, H4, !sumBy_cons. cbn. repeat split; lia.
Qed.

(** The counters of the record [getProjectData] returns: the project-level
    ones are the sums over the fetched test runs, those of every module
    are zero. *)
Lemma planProject_counters (projectName : string) (testRuns : list AzureTestRun.t)
  (areaPaths : list string) (defects : list AzureWorkItem.t) :
  let p := planProject projectName testRuns areaPaths defects in
  ProjectData.totalTests p = sumBy AzureTestRun.totalTests testRuns
  /\ ProjectData.passed p = sumBy AzureTestRun.passedTests testRuns
  /\ ProjectData.failed p = sumBy AzureTestRun.failedTests testRuns
  /\ ProjectData.skipped p = sumBy AzureTestRun.notApplicableTests testRuns
  /\ ProjectData.executed p = ProjectData.totalTests p
  /\ sumBy ModuleTestResult.totalTests (ProjectData.modules p) = 0
  /\ sumBy ModuleTestResult.passed (ProjectData.modules p) = 0
  /\ sumBy ModuleTestResult.failed (ProjectData.modules p) = 0
  /\ sumBy ModuleTestResult.skipped (ProjectData.modules p) = 0.
Proof.
  cbn zeta.
  destruct (fold_addRun_totals testRuns (mkPlanTotals 0 0 0 0 0 0)) as [H1 [H2 [H3 H4]]].
  cbn zeta in H1, H2, H3, H4. cbn in H1, H2, H3, H4.
  rewrite planProject_modules.
  assert (Hz : forall f, (forall k, f (linkedModule defects k) = 0) ->
               sumBy f (map (linkedModule defects) (distinctKeys areaPaths)) = 0).
  { intros f Hf. apply sumBy_zero. intros m Hm.
    apply in_map_iff in Hm as [k [<- _]]. apply Hf. }
  unfold planProject; cbn [ProjectData.totalTests ProjectData.passed ProjectData.failed
                            ProjectData.skipped ProjectData.executed].
  repeat split; try assumption; try reflexivity; apply Hz; reflexivity.
Qed.

Lemma promiseAll3_inr {A B C} (a : M A) (b : M B) (c : M C) (x : A) (y : B) (z : C) :
  outcomeOf a = inr x -> outcomeOf b = inr y -> outcomeOf c = inr z ->
  outcomeOf (promiseAll3 a b c) = inr (x, y, z).
Proof.
  intros Ha Hb Hc. unfold promiseAll3. rewrite Ha, Hb, Hc. reflexivity.
Qed.

Lemma promiseAll3_outcome {A B C} (a : M A) (b : M B) (c : M C) :
  (exists x y z, outcomeOf a = inr x /\ outcomeOf b = inr y /\ outcomeOf c = inr z
                 /\ outcomeOf (promiseAll3 a b c) = inr (x, y, z))
  \/ exists e, outcomeOf (promiseAll3 a b c) = inl e.
Proof.
  unfold promiseAll3.
  destruct (outcomeOf a) as [e | x]; [right; exists e; reflexivity |].
  destruct (outcomeOf b) as [e | y]; [right; exists e; reflexivity |].
  destruct (outcomeOf c) as [e | z]; [right; exists e; reflexivity |].
  left. exists x, y, z. auto.
Qed.

Lemma getProjectData_fulfilled (remote : Remote) (projectName : string)
  (environment : Environment) (testRuns : list AzureTestRun.t)
  (areaPaths : list string) (defects : list AzureWorkItem.t) :
  outcomeOf (getTestRuns remote projectName None None) = inr testRuns ->
  outcomeOf (getAreaPaths remote projectName) = inr areaPaths ->
  outcomeOf (getDefects remote projectName None) = inr defects ->
  outcomeOf (getProjectData remote projectName environment)
  = inr (Some (planProject projectName testRuns areaPaths defects)).
Proof.
  intros Hr Ha Hd. unfold getProjectData.
  apply outcome_tryCatch_inr.
  rewrite (outcome_bind_inr _ _ _ (promiseAll3_inr _ _ _ _ _ _ Hr Ha Hd)).
  reflexivity.
Qed.

(** Every record [getProjectData] returns is [planProject] of what the
    three fetches delivered. *)
Lemma getProjectData_returned (remote : Remote) (projectName : string)
  (environment : Environment) (p : ProjectData.t) :
  outcomeOf (getProjectData remote projectName environment) = inr (Some p) ->
  exists testRuns areaPaths defects,
    outcomeOf (getTestRuns remote projectName None None) = inr testRuns
    /\ outcomeOf (getAreaPaths remote projectName) = inr areaPaths
    /\ outcomeOf (getDefects remote projectName None) = inr defects
    /\ p = planProject projectName testRuns areaPaths defects.
Proof.
  unfold getProjectData.
  destruct (promiseAll3_outcome (getTestRuns remote projectName None None)
              (getAreaPaths remote projectName) (getDefects remote projectName None))
    as [[x [y [z [Hx [Hy [Hz Hall]]]]]] | [e He]].
  - rewrite (outcome_tryCatch_inr _ _ (Some (planProject projectName x y z))).
    + intros H. inversion H. exists x, y, z. auto.
    + rewrite (outcome_bind_inr _ _ _ Hall). reflexivity.
  - rewrite (outcome_tryCatch_inl _ _ e).
    + discriminate.
    + apply outcome_bind_inl. exact He.
Qed.

(** C1.  On a test-plan project with two area paths and one run of ten
    tests (five passed, five not applicable), [getProjectData] returns a
    record whose top-level counters are those of the run while the counters
    of both modules are zero: the project counters are not the sums over
    the modules. *)
Theorem C1_test_plan_project_counters_differ_from_module_sums :
  exists p,
    outcomeOf (getProjectData (remoteOf planWorld) "ProjectX" "QA") = inr (Some p)
    /\ List.length (ProjectData.modules p) = 2%nat
    /\ ProjectData.totalTests p = 10
    /\ sumBy ModuleTestResult.totalTests (ProjectData.modules p) = 0
    /\ ProjectData.passed p = 5
    /\ sumBy ModuleTestResult.passed (ProjectData.modules p) = 0
    /\ ProjectData.skipped p = 5
    /\ sumBy ModuleTestResult.skipped (ProjectData.modules p) = 0.
Proof.
  eexists. split; [reflexivity |]. repeat split; reflexivity.
Qed.

(** The sum invariant on the pipeline-centric side: the only record that
    strategy returns has no module and zero counters. *)
Lemma getProjectDataFromPipelines_sums (remote : Remote) (automated manual : option Z)
  (projectName : string) (environment : Environment) (date : Js.Date)
  (p : ProjectData.t) :
  outcomeOf (getProjectDataFromPipelines remote automated manual projectName
               environment date) = inr (Some p) ->
  ProjectData.totalTests p = sumBy ModuleTestResult.totalTests (ProjectData.modules p)
  /\ ProjectData.passed p = sumBy ModuleTestResult.passed (ProjectData.modules p)
  /\ ProjectData.failed p = sumBy ModuleTestResult.failed (ProjectData.modules p)
  /\ ProjectData.skipped p = sumBy ModuleTestResult.skipped (ProjectData.modules p).
Proof.
  intros H. apply getProjectDataFromPipelines_returned in H. subst p.
  repeat split; reflexivity.
Qed.

(** The totals [projectOfModules] computes before it reads the breakdowns
    are the sums over the modules it is given. *)
Lemma projectOfModules_sums (projectName : string)
  (pipelineResults : list PipelineResult.t) (modules : list ModuleTestResult.t)
  (p : ProjectData.t) :
  outcomeOf (projectOfModules projectName pipelineResults modules) = inr p ->
  ProjectData.modules p = modules
  /\ ProjectData.totalTests p = sumBy ModuleTestResult.totalTests modules
  /\ ProjectData.passed p = sumBy ModuleTestResult.passed modules
  /\ ProjectData.failed p = sumBy ModuleTestResult.failed modules
  /\ ProjectData.skipped p = sumBy ModuleTestResult.skipped modules
  /\ ProjectData.executed p = ProjectData.passed p + ProjectData.failed p.
Proof.
  unfold projectOfModules.
  repeat match goal with
  | |- outcomeOf (bind ?m ?f) = _ -> _ =>
      let t := fresh "t" in let e := fresh "e" in let v := fresh "v" in
      destruct m as [t [e | v]] eqn:?;
      [ rewrite (outcome_bind_inl _ _ e) by reflexivity; discriminate
      | rewrite (outcome_bind_inr _ _ v) by reflexivity ]
  end.
  cbn. intros H; inversion H; subst; cbn. repeat split; reflexivity.
Qed.

(** ** The defect transform *)

Lemma transformDefects_length (this : AzureDevOpsService.t)
  (azureDefects : list AzureWorkItem.t) (environment : Environment) :
  List.length (transformDefects this azureDefects environment) = List.length azureDefects.
Proof. unfold transformDefects. apply length_map. Qed.

Lemma lookupOr_cases {A} (table : list (string * A)) (key : string) (fallback : A) :
  Js.isInherited key = false ->
  exists a, lookupOr table key fallback = Label a
            /\ (Js.ownProperty table key = None -> a = fallback).
Proof.
  intros H. unfold lookupOr, Js.get.
  destruct (Js.ownProperty table key) as [v |].
  - exists v. split; [reflexivity | discriminate].
  - rewrite H. exists fallback. split; reflexivity.
Qed.

(** On work items whose severity and state are not names of members of
    [Object.prototype], every defect carries a label of the two unions, the
    documented defaults apply, and the id is "DEF-" and the work-item id. *)
Lemma transformDefect_labels (this : AzureDevOpsService.t) (environment : Environment)
  (wi : AzureWorkItem.t) :
  Js.isInherited (match AzureWorkItem.Severity (AzureWorkItem.fields wi) with
                  | Some s => s | None => "" end) = false ->
  Js.isInherited (AzureWorkItem.State (AzureWorkItem.fields wi)) = false ->
  let d := transformDefect this environment wi in
  (exists s, Defect.severity d = Label s)
  /\ (exists s, Defect.status d = Label s)
  /\ (AzureWorkItem.Severity (AzureWorkItem.fields wi) = None ->
      Defect.severity d = Label minor)
  /\ (Js.ownProperty statusMap (AzureWorkItem.State (AzureWorkItem.fields wi)) = None ->
      Defect.status d = Label open)
  /\ (AzureWorkItem.AssignedTo (AzureWorkItem.fields wi) = None ->
      Defect.assignee d = "Unassigned")
  /\ Defect.id d = "DEF-" ++ Js.toString (AzureWorkItem.id wi).
Proof.
  intros Hsev Hst. cbn zeta. unfold transformDefect; cbn.
  assert (Hkey : Js.isInherited
                   (match AzureWorkItem.Severity (AzureWorkItem.fields wi) with
                    | Some s => Js.orElse s "" | None => "" end) = false).
  { destruct (AzureWorkItem.Severity (AzureWorkItem.fields wi)) as [s |]; [| reflexivity].
    unfold Js.orElse. destruct (Js.truthy s); [exact Hsev | reflexivity]. }
  destruct (lookupOr_cases severityMap _ minor Hkey) as [s [Hs _]].
  destruct (lookupOr_cases statusMap _ open Hst) as [s' [Hs' Hdef]].
  split; [exists s; exact Hs |]. split; [exists s'; exact Hs' |].
  split; [intros Hn; rewrite Hn; reflexivity |].
  split; [intros Hn; rewrite Hs'; f_equal; apply Hdef; exact Hn |].
  split; [intros Hn; rewrite Hn; reflexivity | reflexivity].
Qed.

(** C10.  A work item whose [System.State] is "constructor" and whose
    severity is "toString": both tables are object literals, so the lookups
    find the members inherited from [Object.prototype], which are truthy;
    the fallbacks "open" and "minor" are not taken, and the status and the
    severity of the defect are none of the labels of their unions.  The
    list still has one defect, with id "DEF-7" and assignee "Unassigned". *)
Theorem C10_inherited_member_is_not_a_label :
  exists d,
    transformDefects devAzure
      [mkWorkItem 7 "constructor" (Some "toString") None "ProjectX\Payments"] "QA" = [d]
    /\ Defect.status d = PrototypeMember "constructor"
    /\ Defect.severity d = PrototypeMember "toString"
    /\ (forall s, Defect.status d <> Label s)
    /\ (forall s, Defect.severity d <> Label s)
    /\ Defect.id d = "DEF-7"
    /\ Defect.assignee d = "Unassigned".
Proof.
  eexists. split; [reflexivity |]. cbn.
  repeat split; try reflexivity; intros s; discriminate.
Qed.

(** ** The orchestration *)

(** With no organization and no token, [refreshData] in pipelines mode
    shows the synthetic data and leaves the error message [null]: the claim
    that a configuration-error message is produced fails. *)
Lemma C7_counterexample_error_message_is_null :
  projects (snd unconfiguredRefresh) = [demoProject]
  /\ ~ (exists msg, dataSourceError (snd unconfiguredRefresh) = Some msg).
Proof.
  split; [reflexivity |]. intros [msg H]. discriminate H.
Qed.

(** C7 (amended).  When the configuration has an empty organization and an
    empty personal access token, [refreshData] takes the demo branch
    whatever the selected data source: it sends no request, every piece of
    state holds the output of the synthetic data generator, the error
    message is cleared to [null] and [loading] is reset.  The result is a
    state: no rejection escapes. *)
Theorem C7_unconfigured_refresh_is_demo_with_null_error
  (TestTrend ComparisonData TestFailureDefect : Type)
  (getTrendData : Environment -> list TestTrend)
  (getProjectsData : Environment -> Js.Date -> list ProjectData.t)
  (getComparisonData : Environment -> list ComparisonData)
  (getMockDefects : Environment -> list Defect.t)
  (getTestFailureDefects : Environment -> Js.Date -> list TestFailureDefect)
  (remote : Remote) (automated manual : option Z) (settings : Settings.t)
  (selectedEnvironment : Environment) (selectedDate : Js.Date)
  (st : AppState TestTrend ComparisonData TestFailureDefect) :
  AzureDevOpsConfig.organization (Settings.azureDevOps settings) = "" ->
  AzureDevOpsConfig.personalAccessToken (Settings.azureDevOps settings) = "" ->
  refreshData getTrendData getProjectsData getComparisonData getMockDefects
    getTestFailureDefects remote automated manual settings selectedEnvironment
    selectedDate st
  = ([], {| loading := false;
            dataSourceError := None;
            trends := getTrendData selectedEnvironment;
            projects := getProjectsData selectedEnvironment selectedDate;
            comparison := getComparisonData selectedEnvironment;
            defects := getMockDefects selectedEnvironment;
            testFailures := getTestFailureDefects selectedEnvironment selectedDate |}).
Proof.
  intros Horg Htoken. unfold refreshData, isConfigured. rewrite Horg. cbn [Js.truthy andb].
  destruct (dataSourceOf settings); reflexivity.
Qed.

Lemma C7_witness_unconfigured_pipelines :
  AzureDevOpsConfig.organization (Settings.azureDevOps unconfiguredPipelines) = ""
  /\ AzureDevOpsConfig.personalAccessToken (Settings.azureDevOps unconfiguredPipelines) = ""
  /\ unconfiguredRefresh
     = ([], {| loading := false;
               dataSourceError := None;
               trends := [tt];
               projects := [demoProject];
               comparison := [tt];
               defects := [demoDefect "QA"];
               testFailures := [tt] |}).
Proof.
  split; [reflexivity |]. split; [reflexivity |].
  exact (C7_unconfigured_refresh_is_demo_with_null_error unit unit unit
           (fun _ => [tt]) (fun _ _ => [demoProject]) (fun _ => [tt])
           (fun environment => [demoDefect environment]) (fun _ _ => [tt])
           offline None None unconfiguredPipelines "QA" someDay blankState
           eq_refl eq_refl).
Defined.

(** ** Pass rates *)

Lemma Qmake_tenth (n : Z) : (n # 10 == inject_Z n * (1 # 10))%Q.
Proof. unfold Qeq, inject_Z; simpl. lia. Qed.

Lemma round_half_up_near (y : Q) :
  (- (1 # 20) <= (Qfloor (y * 10 + (1 # 2)) # 10) - y <= 1 # 20)%Q.
Proof.
  pose proof (Qfloor_le (y * 10 + (1 # 2))) as Hle.
  pose proof (Qlt_floor (y * 10 + (1 # 2))) as Hlt.
  rewrite inject_Z_plus in Hlt.
  rewrite Qmake_tenth.
  change (inject_Z 1) with 1%Q in Hlt.
  split; lra.
Qed.

(** [toFixed1] is within one twentieth of its argument. *)
Lemma toFixed1_near (x : Q) : (Qabs (Js.toFixed1 x - x) <= 1 # 20)%Q.
Proof.
  apply Qabs_Qle_condition. unfold Js.toFixed1.
  destruct (Qle_bool 0 x).
  - apply round_half_up_near.
  - pose proof (round_half_up_near (- x)) as H. split; lra.
Qed.

(** [toFixed1] yields a whole number of tenths. *)
Lemma toFixed1_tenths (x : Q) : exists n : Z, (Js.toFixed1 x == n # 10)%Q.
Proof.
  unfold Js.toFixed1. destruct (Qle_bool 0 x).
  - eexists; reflexivity.
  - exists (- Qfloor (- x * 10 + (1 # 2)))%Z. reflexivity.
Qed.

(** *** Rounding to the nearest double *)

Lemma pow2_pos (e : Z) : (0 < 2 ^ e)%Q.
Proof. apply Qpower_0_lt. reflexivity. Qed.

Lemma roundEven_floor (y : Q) :
  Js.roundEven y = Qfloor y \/ Js.roundEven y = Qfloor y + 1.
Proof.
  unfold Js.roundEven. destruct (_ ?= _)%Q; [destruct (Z.even _) | |]; auto.
Qed.

Lemma roundEven_nonneg (y : Q) : (0 <= y)%Q -> 0 <= Js.roundEven y.
Proof.
  intros H. apply Qfloor_resp_le in H. change (Qfloor 0) with 0 in H.
  destruct (roundEven_floor y) as [-> | ->]; lia.
Qed.

(** An integer above [y] is above the rounding of [y]. *)
Lemma roundEven_le (y : Q) (N : Z) : (y <= inject_Z N)%Q -> Js.roundEven y <= N.
Proof.
  intros H. pose proof (Qfloor_resp_le _ _ H) as Hf. rewrite Qfloor_Z in Hf.
  destruct (Z.eq_dec (Qfloor y) N) as [E | E].
  - unfold Js.roundEven.
    destruct (Qcompare_spec (y - inject_Z (Qfloor y)) (1 # 2)) as [C | C | C];
      [| exact Hf |]; rewrite E in C; lra.
  - destruct (roundEven_floor y) as [-> | ->]; lia.
Qed.

Lemma roundEven_near (y : Q) :
  (- (1 # 2) <= inject_Z (Js.roundEven y) - y <= 1 # 2)%Q.
Proof.
  pose proof (Qfloor_le y) as Hle. pose proof (Qlt_floor y) as Hlt.
  rewrite inject_Z_plus in Hlt. change (inject_Z 1) with 1%Q in Hlt.
  unfold Js.roundEven.
  destruct (Qcompare_spec (y - inject_Z (Qfloor y)) (1 # 2)) as [C | C | C].
  - destruct (Z.even _); [| rewrite inject_Z_plus; change (inject_Z 1) with 1%Q]; lra.
  - lra.
  - rewrite inject_Z_plus; change (inject_Z 1) with 1%Q; lra.
Qed.

Lemma Qdiv_le_compat (a b c d : Q) :
  (0 <= a)%Q -> (a <= c)%Q -> (0 < d)%Q -> (d <= b)%Q -> (a / b <= c / d)%Q.
Proof.
  intros Ha Hac Hd Hdb.
  assert (Hb : (0 < b)%Q) by lra.
  apply Qle_shift_div_l; [exact Hd |].
  assert (E : (a / b * d == a * d / b)%Q) by (field; lra).
  rewrite E. apply Qle_shift_div_r; [exact Hb |]. nra.
Qed.

(** [ilog2 x] is an exponent of two at or below [x]. *)
Lemma ilog2_le (x : Q) : (0 < x)%Q -> (2 ^ Js.ilog2 x <= x)%Q.
Proof.
  intros Hx. unfold Js.ilog2.
  destruct (Qle_bool _ x) eqn:E; [apply Qle_bool_iff; exact E |].
  destruct x as [n d]. cbn [Qnum Qden].
  assert (Hn : 0 < n) by (unfold Qlt in Hx; cbn in Hx; lia).
  pose proof (Z.log2_spec n Hn) as [Hln _].
  pose proof (Z.log2_spec (Zpos d) (Pos2Z.is_pos d)) as [_ Hld].
  pose proof (Z.log2_nonneg n) as Hn0.
  pose proof (Z.log2_nonneg (Zpos d)) as Hd0.
  replace (Z.log2 n - Z.log2 (Zpos d) - 1) with (Z.log2 n - Z.succ (Z.log2 (Zpos d)))
    by lia.
  rewrite Qpower_minus by (intros H; discriminate H).
  change 2%Q with (inject_Z 2).
  rewrite <- !Zpower_Qpower by lia.
  rewrite (Qmake_Qdiv n d).
  apply Qdiv_le_compat.
  - rewrite <- (Zle_Qle 0). lia.
  - rewrite <- Zle_Qle. exact Hln.
  - rewrite <- (Zlt_Qlt 0). reflexivity.
  - rewrite <- Zle_Qle. lia.
Qed.

Lemma ilog2_lt_53 (x : Q) : (0 < x)%Q -> (x < 2 ^ 53)%Q -> Js.ilog2 x - 52 <= 0.
Proof.
  intros Hx Hlt. pose proof (ilog2_le x Hx) as Hle.
  assert (H : (2 ^ Js.ilog2 x < 2 ^ 53)%Q) by lra.
  apply Qpower_lt_compat_l_inv in H; [lia | reflexivity].
Qed.

Lemma roundPositive_nonneg (x : Q) : (0 <= x)%Q -> (0 <= Js.roundPositive x)%Q.
Proof.
  intros Hx. unfold Js.roundPositive.
  apply Qmult_le_0_compat; [| apply Qlt_le_weak, pow2_pos].
  rewrite <- (Zle_Qle 0). apply roundEven_nonneg.
  apply Qle_shift_div_l; [apply pow2_pos | lra].
Qed.

(** Rounding never crosses an integer below [2^53]. *)
Lemma roundPositive_le (x : Q) (c : Z) :
  (0 < x)%Q -> (x <= inject_Z c)%Q -> (x < 2 ^ 53)%Q ->
  (Js.roundPositive x <= inject_Z c)%Q.
Proof.
  intros Hx Hc Hlt. unfold Js.roundPositive.
  pose proof (ilog2_lt_53 x Hx Hlt) as He.
  set (e := Z.max (Js.ilog2 x - 52) (-1074)).
  assert (He0 : e <= 0) by lia.
  pose proof (pow2_pos e) as Hp.
  assert (Hinv : (inject_Z (2 ^ (- e)) * 2 ^ e == 1)%Q).
  { rewrite Zpower_Qpower by lia. change (inject_Z 2) with 2%Q.
    rewrite Qpower_opp. field. lra. }
  assert (Hy : (x / 2 ^ e <= inject_Z (c * 2 ^ (- e)))%Q).
  { apply Qle_shift_div_r; [exact Hp |].
    rewrite inject_Z_mult, <- Qmult_assoc, Hinv. lra. }
  apply roundEven_le in Hy. rewrite Zle_Qle in Hy.
  rewrite inject_Z_mult in Hy.
  assert (Hm : (inject_Z (Js.roundEven (x / 2 ^ e)) * 2 ^ e
                <= inject_Z c * inject_Z (2 ^ (- e)) * 2 ^ e)%Q).
  { apply Qmult_le_compat_r; [exact Hy | lra]. }
  rewrite <- Qmult_assoc, Hinv in Hm. lra.
Qed.

Lemma roundDouble_bounds (x : Q) (c : Z) :
  (0 <= x)%Q -> (x <= inject_Z c)%Q -> (c < 2 ^ 53)%Z ->
  (0 <= Js.roundDouble x <= inject_Z c)%Q.
Proof.
  intros H0 Hc Hlt.
  assert (Hx53 : (x < 2 ^ 53)%Q).
  { apply Qle_lt_trans with (inject_Z c); [exact Hc |].
    change (2 ^ 53)%Q with (inject_Z (2 ^ 53)). rewrite <- Zlt_Qlt. exact Hlt. }
  unfold Js.roundDouble. destruct (Qnum x) as [| n | n] eqn:E.
  - lra.
  - assert (Hpos : (0 < x)%Q) by (unfold Qlt; cbn; rewrite E; lia).
    split; [apply roundPositive_nonneg; exact H0 | apply roundPositive_le; assumption].
  - exfalso. unfold Qle in H0. cbn in H0. rewrite E in H0. lia.
Qed.

(** The error of one rounding: at most [2^-53] of the exact value, plus
    half the spacing of the subnormal numbers. *)
Lemma roundPositive_near (x : Q) :
  (0 < x)%Q ->
  (Qabs (Js.roundPositive x - x) <= x * 2 ^ (-53) + 2 ^ (-1075))%Q.
Proof.
  intros Hx. unfold Js.roundPositive.
  pose proof (ilog2_le x Hx) as Hk.
  set (k := Js.ilog2 x) in *.
  set (e := Z.max (k - 52) (-1074)).
  pose proof (pow2_pos e) as Hp.
  pose proof (roundEven_near (x / 2 ^ e)) as Hn.
  set (m := inject_Z (Js.roundEven (x / 2 ^ e))) in *.
  assert (Hxe : (x == x / 2 ^ e * 2 ^ e)%Q) by (field; lra).
  assert (Hhalf : (2 ^ e * (1 # 2) <= x * 2 ^ (-53) + 2 ^ (-1075))%Q).
  { pose proof (pow2_pos (-1075)) as Ht. pose proof (pow2_pos (-53)) as Hu.
    destruct (Z.max_spec (k - 52) (-1074)) as [[_ Hm] | [_ Hm]]; fold e in Hm; rewrite Hm.
    - change (-1074) with (-1075 + 1). rewrite Qpower_plus by (intros H; discriminate H).
      change (2 ^ 1)%Q with 2%Q. nra.
    - replace (k - 52) with (k + (-53) + 1) by lia.
      rewrite !Qpower_plus by (intros H; discriminate H).
      change (2 ^ 1)%Q with 2%Q. nra. }
  apply Qabs_Qle_condition.
  split; nra.
Qed.

Lemma roundDouble_near (x : Q) :
  (Qabs (Js.roundDouble x - x) <= Qabs x * 2 ^ (-53) + 2 ^ (-1075))%Q.
Proof.
  pose proof (pow2_pos (-1075)) as Ht. pose proof (pow2_pos (-53)) as Hu.
  unfold Js.roundDouble. destruct (Qnum x) as [| n | n] eqn:E.
  - assert (Hz : (x == 0)%Q) by (unfold Qeq; cbn; rewrite E; reflexivity).
    rewrite Hz. change (Qabs (0 - 0)) with 0%Q. change (Qabs 0) with 0%Q. lra.
  - assert (Hpos : (0 < x)%Q) by (unfold Qlt; cbn; rewrite E; lia).
    rewrite (Qabs_pos x) by lra. apply roundPositive_near. exact Hpos.
  - assert (Hneg : (x < 0)%Q) by (unfold Qlt; cbn; rewrite E; lia).
    rewrite (Qabs_neg x) by lra.
    assert (Hpos : (0 < - x)%Q) by lra.
    pose proof (roundPositive_near (- x) Hpos) as H.
    apply Qabs_Qle_condition in H. apply Qabs_Qle_condition. split; lra.
Qed.

Lemma Qdiv_lt_compat (a b c d : Q) :
  (0 <= a)%Q -> (a < c)%Q -> (0 < d)%Q -> (d <= b)%Q -> (a / b < c / d)%Q.
Proof.
  intros Ha Hac Hd Hdb.
  assert (Hb : (0 < b)%Q) by lra.
  apply Qlt_shift_div_l; [exact Hd |].
  assert (E : (a / b * d == a * d / b)%Q) by (field; lra).
  rewrite E. apply Qlt_shift_div_r; [exact Hb |]. nra.
Qed.

(** [ilog2 x + 1] is an exponent of two above [x]. *)
Lemma ilog2_lt (x : Q) : (0 < x)%Q -> (x < 2 ^ (Js.ilog2 x + 1))%Q.
Proof.
  intros Hx. unfold Js.ilog2.
  destruct (Qle_bool _ x) eqn:E.
  - destruct x as [n d]. cbn [Qnum Qden].
    assert (Hn : 0 < n) by (unfold Qlt in Hx; cbn in Hx; lia).
    pose proof (Z.log2_spec n Hn) as [_ Hln].
    pose proof (Z.log2_spec (Zpos d) (Pos2Z.is_pos d)) as [Hld _].
    pose proof (Z.log2_nonneg n) as Hn0.
    pose proof (Z.log2_nonneg (Zpos d)) as Hd0.
    replace (Z.log2 n - Z.log2 (Zpos d) + 1) with (Z.succ (Z.log2 n) - Z.log2 (Zpos d))
      by lia.
    rewrite Qpower_minus by (intros H; discriminate H).
    change 2%Q with (inject_Z 2).
    rewrite <- !Zpower_Qpower by lia.
    rewrite (Qmake_Qdiv n d).
    apply Qdiv_lt_compat.
    + rewrite <- (Zle_Qle 0). lia.
    + rewrite <- Zlt_Qlt. exact Hln.
    + rewrite <- (Zlt_Qlt 0). apply Z.pow_pos_nonneg; lia.
    + rewrite <- Zle_Qle. exact Hld.
  - replace (Z.log2 (Qnum x) - Z.log2 (Zpos (Qden x)) - 1 + 1)
      with (Z.log2 (Qnum x) - Z.log2 (Zpos (Qden x))) by lia.
    apply Qnot_le_lt. intros H. apply Qle_bool_iff in H. congruence.
Qed.

(** Above the subnormal range the significand of the result has 53 bits. *)
Lemma roundPositive_significand (x : Q) :
  (0 < x)%Q ->
  2 ^ 52 <= Js.roundEven (x / 2 ^ (Js.ilog2 x - 52)) <= 2 ^ 53.
Proof.
  intros Hx.
  pose proof (ilog2_le x Hx) as Hlo. pose proof (ilog2_lt x Hx) as Hhi.
  set (k := Js.ilog2 x) in *.
  pose proof (pow2_pos (k - 52)) as Hp.
  replace k with (k - 52 + 52) in Hlo at 1 by lia.
  replace (k + 1) with (k - 52 + 53) in Hhi by lia.
  rewrite Qpower_plus in Hlo, Hhi by (intros H; discriminate H).
  assert (Hy : (inject_Z (2 ^ 52) <= x / 2 ^ (k - 52))%Q
               /\ (x / 2 ^ (k - 52) <= inject_Z (2 ^ 53))%Q).
  { change (inject_Z (2 ^ 52)) with (2 ^ 52)%Q. change (inject_Z (2 ^ 53)) with (2 ^ 53)%Q.
    split.
    - apply Qle_shift_div_l; [exact Hp |]. lra.
    - apply Qle_shift_div_r; [exact Hp |]. lra. }
  destruct Hy as [Hy0 Hy1]. split.
  - apply Qfloor_resp_le in Hy0. rewrite Qfloor_Z in Hy0.
    destruct (roundEven_floor (x / 2 ^ (k - 52))) as [-> | ->]; lia.
  - apply roundEven_le. exact Hy1.
Qed.

(** *** [(a / b) * 100] *)

Lemma quotient_bounds (a b : Z) :
  0 <= a -> a <= b -> 0 < b -> (0 <= inject_Z a / inject_Z b <= 1)%Q.
Proof.
  intros Ha Hab Hb.
  assert (Hb' : (0 < inject_Z b)%Q) by (rewrite <- (Zlt_Qlt 0); exact Hb).
  split.
  - apply Qle_shift_div_l; [exact Hb' |]. rewrite Qmult_0_l, <- (Zle_Qle 0). exact Ha.
  - apply Qle_shift_div_r; [exact Hb' |]. rewrite Qmult_1_l, <- Zle_Qle. exact Hab.
Qed.

(** The percentage of a part of a positive whole lies between 0 and 100. *)
Lemma percent_bounds (a b : Z) :
  0 <= a -> a <= b -> 0 < b -> (0 <= Js.percent a b <= 100)%Q.
Proof.
  intros Ha Hab Hb. unfold Js.percent, Js.mul, Js.div.
  destruct (quotient_bounds a b Ha Hab Hb) as [Hx0 Hx1].
  pose proof (roundDouble_bounds _ 1 Hx0 Hx1 eq_refl) as [Hd0 Hd1].
  change (inject_Z 1) with 1%Q in Hd1.
  apply (roundDouble_bounds _ 100); [| change (inject_Z 100) with 100%Q | reflexivity]; lra.
Qed.

(** The two roundings move the percentage of a part of a positive whole
    by less than [10^-13]. *)
Lemma percent_near (a b : Z) :
  0 <= a -> a <= b -> 0 < b ->
  (Qabs (Js.percent a b - inject_Z a / inject_Z b * 100) <= 1 # 10000000000000)%Q.
Proof.
  intros Ha Hab Hb. unfold Js.percent, Js.mul, Js.div.
  destruct (quotient_bounds a b Ha Hab Hb) as [Hx0 Hx1].
  set (x := (inject_Z a / inject_Z b)%Q) in *.
  pose proof (roundDouble_bounds _ 1 Hx0 Hx1 eq_refl) as [Hd0 Hd1].
  change (inject_Z 1) with 1%Q in Hd1.
  pose proof (roundDouble_near x) as H1.
  pose proof (roundDouble_near (Js.roundDouble x * 100)) as H2.
  set (d := Js.roundDouble x) in *.
  rewrite (Qabs_pos x) in H1 by exact Hx0.
  rewrite (Qabs_pos (d * 100)) in H2 by lra.
  assert (Hu : (2 ^ (-53) <= 2 # 10000000000000000)%Q) by (apply Qle_bool_iff; reflexivity).
  assert (Ht : (2 ^ (-1075) <= 2 ^ (-53))%Q)
    by (apply Qpower_le_compat_l; [lia | apply Qle_bool_iff; reflexivity]).
  pose proof (pow2_pos (-1075)) as Ht0. pose proof (pow2_pos (-53)) as Hu0.
  generalize dependent (2 ^ (-53))%Q. generalize dependent (2 ^ (-1075))%Q.
  intros t Ht0 u H1 H2 Hu Ht Hu0.
  apply Qabs_Qle_condition in H1. apply Qabs_Qle_condition in H2.
  apply Qabs_Qle_condition.
  assert (Hxu : (x * u <= u)%Q) by nra.
  assert (Hdu : (d * 100 * u <= 100 * u)%Q) by nra.
  split; lra.
Qed.

Lemma percent_zero (b : Z) : (Js.percent 0 b == 0)%Q.
Proof. reflexivity. Qed.

(** On every pair of counters up to 64, [Js.percent] is the value the
    Standard Library's binary64 division and multiplication give. *)
Lemma percent_agrees_with_binary64 (a b : Z) :
  In a (map Z.of_nat (seq 0 65)) -> In b (map Z.of_nat (seq 1 64)) ->
  (Js.percent a b == Js.percentBinary64 a b)%Q.
Proof.
  intros Ha Hb.
  assert (H : forallb (fun b' =>
                forallb (fun a' => Qeq_bool (Js.percent a' b') (Js.percentBinary64 a' b'))
                  (map Z.of_nat (seq 0 65)))
                (map Z.of_nat (seq 1 64)) = true) by (vm_compute; reflexivity).
  rewrite forallb_forall in H. specialize (H b Hb).
  rewrite forallb_forall in H. apply Qeq_bool_iff. exact (H a Ha).
Qed.

Lemma toFixed1_bounds (x : Q) : (0 <= x <= 100)%Q -> (0 <= Js.toFixed1 x <= 100)%Q.
Proof.
  intros [H0 H1]. unfold Js.toFixed1.
  assert (Hb : Qle_bool 0 x = true) by (apply Qle_bool_iff; exact H0).
  rewrite Hb.
  assert (Hlo : (Qfloor 0 <= Qfloor (x * 10 + (1 # 2)))%Z)
    by (apply Qfloor_resp_le; lra).
  assert (Hhi : (Qfloor (x * 10 + (1 # 2)) <= Qfloor (1000 + (1 # 2)))%Z)
    by (apply Qfloor_resp_le; lra).
  change (Qfloor 0) with 0%Z in Hlo. change (Qfloor (1000 + (1 # 2))) with 1000%Z in Hhi.
  generalize dependent (Qfloor (x * 10 + (1 # 2))). intros n Hlo Hhi.
  unfold Qle; cbn. split; lia.
Qed.

(** On the test-plan project whose only run has ten tests, five passed and
    none failed, [getProjectData] reports a pass rate of 50 where
    [passed / (passed + failed) * 100] is 100: the claim's formula fails for
    the Project of the test-plan-centric strategy. *)
Lemma C3_counterexample_test_plan_project_rate :
  exists p,
    outcomeOf (getProjectData (remoteOf planWorld) "ProjectX" "QA") = inr (Some p)
    /\ 0 < ProjectData.passed p + ProjectData.failed p
    /\ (ProjectData.passRate p == 50)%Q
    /\ (Js.percent (ProjectData.passed p) (ProjectData.passed p + ProjectData.failed p)
        == 100)%Q
    /\ ~ (ProjectData.passRate p
          == Js.percent (ProjectData.passed p)
               (ProjectData.passed p + ProjectData.failed p))%Q.
Proof.
  exists (planProject "ProjectX" [mkRun 1 true 10 5 0 5] ["Payments"; "Checkout"]
            planDefects).
  split; [reflexivity |].
  split; [reflexivity |].
  split; [vm_compute; reflexivity |].
  split; [vm_compute; reflexivity |].
  intros H. vm_compute in H. discriminate H.
Qed.

(** C3 (amended).  Pass rates; [/] and [*] are the operations on doubles.
    - [buildBreakdown]: when [passed + failed <= 0] the rate is 0; when
      [passed + failed > 0] it is [(passed / (passed + failed)) * 100]
      rounded by [toFixed(1)]: a whole number of tenths within 1/20 of
      that double and, for non-negative counters, within [1/20 + 10^-13]
      of the exact quotient.  80 passed and 20 failed give 80; 23 passed
      and 57 failed, whose exact percentage is the tie 28.75, give 28.7,
      because the product of doubles is just below the tie.
    - The Project of the test-plan-centric strategy:
      [(passed / totalTests) * 100], not rounded, when [totalTests > 0],
      otherwise 0; it is 0 when nothing passed.
    - Each Module of the test-plan-centric strategy, and any record the
      module callback is applied to: [(passed / executed) * 100], not
      rounded, when the module's [executed > 0], otherwise 0.
    - A Project returned by the pipeline-centric strategy with
      [passed + failed <= 0] has rate 0.  (In this revision the rate
      expressions of the pipeline callback and of the non-empty pipeline
      Project are never part of a returned value; the statement is silent
      on them.)
    Every division is under a guard that its divisor is positive. *)
Theorem C3_pass_rate_formulas :
  (forall total passed failed skipped,
     0 < passed + failed ->
     TestTypeBreakdown.passRate (buildBreakdown total passed failed skipped)
     = Js.toFixed1 (Js.percent passed (passed + failed))
     /\ (exists n : Z,
          (TestTypeBreakdown.passRate (buildBreakdown total passed failed skipped)
           == n # 10)%Q)
     /\ (Qabs (TestTypeBreakdown.passRate (buildBreakdown total passed failed skipped)
               - Js.percent passed (passed + failed)) <= 1 # 20)%Q
     /\ (0 <= passed -> 0 <= failed ->
         (Qabs (TestTypeBreakdown.passRate (buildBreakdown total passed failed skipped)
                - inject_Z passed / inject_Z (passed + failed) * 100)
          <= (1 # 20) + (1 # 10000000000000))%Q))
  /\ (forall total passed failed skipped,
        passed + failed <= 0 ->
        TestTypeBreakdown.passRate (buildBreakdown total passed failed skipped) = 0%Q)
  /\ (TestTypeBreakdown.passRate (buildBreakdown 100 80 20 0) == 80)%Q
  /\ (TestTypeBreakdown.passRate (buildBreakdown 80 23 57 0) == 287 # 10)%Q
  /\ (forall remote projectName environment p,
        outcomeOf (getProjectData remote projectName environment) = inr (Some p) ->
        ProjectData.passRate p
        = (if 0 <? ProjectData.totalTests p
           then Js.percent (ProjectData.passed p) (ProjectData.totalTests p)
           else 0%Q)
        /\ (ProjectData.passed p = 0 -> (ProjectData.passRate p == 0)%Q)
        /\ forall m, In m (ProjectData.modules p) ->
             ModuleTestResult.passRate m
             = if 0 <? ModuleTestResult.executed m
               then Js.percent (ModuleTestResult.passed m) (ModuleTestResult.executed m)
               else 0%Q)
  /\ (forall m,
        ModuleTestResult.passRate (withPassRate m)
        = if 0 <? ModuleTestResult.executed m
          then Js.percent (ModuleTestResult.passed m) (ModuleTestResult.executed m)
          else 0%Q)
  /\ (forall remote automated manual projectName environment date p,
        outcomeOf (getProjectDataFromPipelines remote automated manual projectName
                     environment date) = inr (Some p) ->
        ProjectData.passed p + ProjectData.failed p <= 0 ->
        ProjectData.passRate p = 0%Q).
Proof.
  split; [| split; [| split; [| split; [| split; [| split]]]]].
  - intros total passed failed skipped Hpos.
    assert (Hrate : TestTypeBreakdown.passRate (buildBreakdown total passed failed skipped)
                    = Js.toFixed1 (Js.percent passed (passed + failed))).
    { unfold buildBreakdown; cbn [TestTypeBreakdown.passRate].
      apply Z.ltb_lt in Hpos. rewrite Hpos. reflexivity. }
    rewrite Hrate. split; [reflexivity |].
    split; [apply toFixed1_tenths |]. split; [apply toFixed1_near |].
    intros Hp Hf.
    pose proof (toFixed1_near (Js.percent passed (passed + failed))) as H1.
    assert (Hle : passed <= passed + failed) by lia.
    pose proof (percent_near passed (passed + failed) Hp Hle Hpos) as H2.
    apply Qabs_Qle_condition in H1. apply Qabs_Qle_condition in H2.
    apply Qabs_Qle_condition. split; lra.
  - intros total passed failed skipped Hle.
    unfold buildBreakdown; cbn [TestTypeBreakdown.passRate].
    destruct (0 <? passed + failed) eqn:E; [apply Z.ltb_lt in E; lia | reflexivity].
  - vm_compute. reflexivity.
  - vm_compute. reflexivity.
  - intros remote projectName environment p H.
    apply getProjectData_returned in H
      as [testRuns [areaPaths [defects [_ [_ [_ ->]]]]]].
    split; [reflexivity |]. split.
    + unfold planProject;
        cbn [ProjectData.passed ProjectData.passRate ProjectData.totalTests].
      intros Hz. rewrite Hz.
      destruct (0 <? _); [apply percent_zero | reflexivity].
    + intros m Hm. unfold planProject in Hm; cbn [ProjectData.modules] in Hm.
      apply in_map_iff in Hm as [m0 [<- _]]. reflexivity.
  - intros m. reflexivity.
  - intros remote automated manual projectName environment date p H _.
    apply getProjectDataFromPipelines_returned in H. subst p. reflexivity.
Qed.

(** The spec's example (80 passed, 20 failed), a breakdown of skipped tests
    only, the test-plan project of ten tests of which five passed, and the
    pipeline project of a day without test runs. *)
Lemma C3_witness_rates :
  0 < 80 + 20
  /\ 0 <= 80
  /\ 0 <= 20
  /\ TestTypeBreakdown.passRate (buildBreakdown 100 80 20 0)
     = Js.toFixed1 (Js.percent 80 (80 + 20))
  /\ (Qabs (TestTypeBreakdown.passRate (buildBreakdown 100 80 20 0)
            - inject_Z 80 / inject_Z (80 + 20) * 100)
      <= (1 # 20) + (1 # 10000000000000))%Q
  /\ 0 + 0 <= 0
  /\ TestTypeBreakdown.passRate (buildBreakdown 5 0 0 5) = 0%Q
  /\ (exists p, outcomeOf (getProjectData (remoteOf planWorld) "ProjectX" "QA")
                = inr (Some p)
                /\ ProjectData.passRate p = Js.percent 5 10)
  /\ (exists p, outcomeOf (getProjectDataFromPipelines (remoteOf buildsWithoutTests)
                             None None "ProjectX" "QA" someDay) = inr (Some p)
                /\ ProjectData.passed p + ProjectData.failed p <= 0
                /\ ProjectData.passRate p = 0%Q).
Proof.
  destruct C3_pass_rate_formulas as [Hround [Hzero [_ [_ [Hplan [_ Hpipe]]]]]].
  assert (Hpos : 0 < 80 + 20) by lia.
  assert (Hp : 0 <= 80) by lia.
  assert (Hf : 0 <= 20) by lia.
  assert (Hnone : 0 + 0 <= 0) by lia.
  split; [exact Hpos |]. split; [exact Hp |]. split; [exact Hf |].
  split; [exact (proj1 (Hround 100 80 20 0 Hpos)) |].
  split; [exact (proj2 (proj2 (proj2 (Hround 100 80 20 0 Hpos))) Hp Hf) |].
  split; [exact Hnone |].
  split; [exact (Hzero 5 0 0 5 Hnone) |].
  split.
  - exists (planProject "ProjectX" [mkRun 1 true 10 5 0 5] ["Payments"; "Checkout"]
              planDefects).
    split; [reflexivity |].
    exact (proj1 (Hplan (remoteOf planWorld) "ProjectX" "QA"
                    (planProject "ProjectX" [mkRun 1 true 10 5 0 5]
                       ["Payments"; "Checkout"] planDefects) eq_refl)).
  - exists (emptyProject "ProjectX"). split; [reflexivity |].
    assert (Hz : ProjectData.passed (emptyProject "ProjectX")
                 + ProjectData.failed (emptyProject "ProjectX") <= 0) by (cbn; lia).
    split; [exact Hz |].
    exact (Hpipe (remoteOf buildsWithoutTests) None None "ProjectX" "QA" someDay
             (emptyProject "ProjectX") eq_refl Hz).
Defined.

(** * Further properties of the service and of the orchestration *)

(** ** Events of a computation *)

Lemma events_bind {A B} (m : M A) (f : A -> M B) :
  events (bind m f)
  = (events m ++ match outcomeOf m with
                 | inr a => events (f a)
                 | inl _ => []
                 end)%list.
Proof.
  destruct m as [t [e | a]]; simpl.
  - rewrite app_nil_r. reflexivity.
  - destruct (f a); reflexivity.
Qed.

Lemma events_tryCatch {A} (m : M A) (h : Error -> M A) :
  events (tryCatch m h)
  = (events m ++ match outcomeOf m with
                 | inl e => events (h e)
                 | inr _ => []
                 end)%list.
Proof.
  destruct m as [t [e | a]]; simpl.
  - destruct (h e); reflexivity.
  - rewrite app_nil_r. reflexivity.
Qed.

Lemma outcome_cases {A} (m : M A) :
  (exists e, outcomeOf m = inl e) \/ (exists a, outcomeOf m = inr a).
Proof. destruct (outcomeOf m) as [e | a]; [left; exists e | right; exists a]; reflexivity. Qed.

(** ** The defect query, edge cases *)

(** X1.  When the WIQL response has no [workItems] property or an empty
    array, [getDefects] resolves to the empty list and the query is the only
    request it sends: no detail fetch is made. *)
Theorem X1_getDefects_no_match_no_detail_fetch (remote : Remote) (project : string)
  (states : option (list string)) :
  remote (ReqWiql project (defectQuery project states)) = inr None
  \/ remote (ReqWiql project (defectQuery project states)) = inr (Some []) ->
  outcomeOf (getDefects remote project states) = inr []
  /\ events (getDefects remote project states)
     = [Fetch (ReqWiql project (defectQuery project states))].
Proof.
  intros H. unfold getDefects, bind, request, events, outcomeOf.
  destruct H as [H | H]; rewrite H; split; reflexivity.
Qed.

Lemma X1_witness_no_workItems :
  (remoteOf buildsWithoutTests (ReqWiql "ProjectX" (defectQuery "ProjectX" None))
   = inr None
   \/ remoteOf buildsWithoutTests (ReqWiql "ProjectX" (defectQuery "ProjectX" None))
      = inr (Some []))
  /\ outcomeOf (getDefects (remoteOf buildsWithoutTests) "ProjectX" None) = inr []
  /\ events (getDefects (remoteOf buildsWithoutTests) "ProjectX" None)
     = [Fetch (ReqWiql "ProjectX" (defectQuery "ProjectX" None))].
Proof.
  assert (H : remoteOf buildsWithoutTests
                (ReqWiql "ProjectX" (defectQuery "ProjectX" None)) = inr None
              \/ remoteOf buildsWithoutTests
                   (ReqWiql "ProjectX" (defectQuery "ProjectX" None)) = inr (Some []))
    by (left; reflexivity).
  split; [exact H |].
  exact (X1_getDefects_no_match_no_detail_fetch (remoteOf buildsWithoutTests)
           "ProjectX" None H).
Defined.

(** X2.  When the WIQL phase returns between 1 and 200 ids, the single batch
    fetch of [getDefects] carries every id, in query order, and the method
    resolves to (or rejects with) whatever that fetch gives. *)
Theorem X2_getDefects_up_to_200_ids_all_fetched (remote : Remote) (project : string)
  (states : option (list string)) (workItems : list WorkItemRef.t) :
  remote (ReqWiql project (defectQuery project states)) = inr (Some workItems) ->
  workItems <> [] ->
  (List.length workItems <= 200)%nat ->
  fetches (events (getDefects remote project states))
  = [ ReqWiql project (defectQuery project states);
      ReqWorkItems project (map WorkItemRef.id workItems) ]
  /\ outcomeOf (getDefects remote project states)
     = remote (ReqWorkItems project (map WorkItemRef.id workItems)).
Proof.
  intros Hq Hne Hlen.
  destruct workItems as [| w ws]; [contradiction |].
  rewrite (getDefects_events _ _ _ _ _ Hq), (getDefects_outcome _ _ _ _ _ Hq).
  rewrite firstn_all2 by (rewrite length_map; exact Hlen).
  split; reflexivity.
Qed.

Lemma X2_witness_three_ids :
  remoteOf planWorld (ReqWiql "ProjectX" (defectQuery "ProjectX" None))
  = inr (Some threeRefs)
  /\ threeRefs <> []
  /\ (List.length threeRefs <= 200)%nat
  /\ fetches (events (getDefects (remoteOf planWorld) "ProjectX" None))
     = [ ReqWiql "ProjectX" (defectQuery "ProjectX" None);
         ReqWorkItems "ProjectX" [101; 102; 103] ].
Proof.
  assert (Hne : threeRefs <> []) by discriminate.
  assert (Hlen : (List.length threeRefs <= 200)%nat)
    by (apply Nat.leb_le; reflexivity).
  split; [reflexivity |]. split; [exact Hne |]. split; [exact Hlen |].
  exact (proj1 (X2_getDefects_up_to_200_ids_all_fetched (remoteOf planWorld) "ProjectX"
                  None threeRefs eq_refl Hne Hlen)).
Defined.

(** X3.  [getDefects] has no [catch]: when the WIQL request fails the method
    rejects with that error after this one request, and when the detail
    fetch fails the method rejects with the error of the detail fetch. *)
Theorem X3_getDefects_propagates_errors (remote : Remote) (project : string)
  (states : option (list string)) (e : Error) :
  (remote (ReqWiql project (defectQuery project states)) = inl e ->
   outcomeOf (getDefects remote project states) = inl e
   /\ events (getDefects remote project states)
      = [Fetch (ReqWiql project (defectQuery project states))])
  /\ (forall w ws,
        remote (ReqWiql project (defectQuery project states)) = inr (Some (w :: ws)) ->
        remote (ReqWorkItems project (firstn 200 (map WorkItemRef.id (w :: ws)))) = inl e ->
        outcomeOf (getDefects remote project states) = inl e).
Proof.
  split.
  - intros H. unfold getDefects, bind, request, events, outcomeOf.
    rewrite H. split; reflexivity.
  - intros w ws Hq Hd. rewrite (getDefects_outcome _ _ _ _ _ Hq). exact Hd.
Qed.

Lemma X3_witness_failures :
  offline (ReqWiql "ProjectX" (defectQuery "ProjectX" None))
  = inl (NetworkError "Failed to fetch")
  /\ outcomeOf (getDefects offline "ProjectX" None) = inl (NetworkError "Failed to fetch")
  /\ remoteOf detailsFail (ReqWiql "ProjectX" (defectQuery "ProjectX" None))
     = inr (Some (WorkItemRef.mk 101 :: map WorkItemRef.mk [102; 103]))
  /\ remoteOf detailsFail
       (ReqWorkItems "ProjectX"
          (firstn 200 (map WorkItemRef.id
                         (WorkItemRef.mk 101 :: map WorkItemRef.mk [102; 103]))))
     = inl serverError
  /\ outcomeOf (getDefects (remoteOf detailsFail) "ProjectX" None) = inl serverError.
Proof.
  split; [reflexivity |].
  split.
  - exact (proj1 (proj1 (X3_getDefects_propagates_errors offline "ProjectX" None
                           (NetworkError "Failed to fetch")) eq_refl)).
  - split; [reflexivity |]. split; [reflexivity |].
    exact (proj2 (X3_getDefects_propagates_errors (remoteOf detailsFail) "ProjectX" None
                    serverError)
             (WorkItemRef.mk 101) (map WorkItemRef.mk [102; 103]) eq_refl eq_refl).
Defined.

(** ** The build loop, in full *)

Section BuildLoopContents.

Variable remote : Remote.
Variable project : string.

Lemma forEachRun_exact (testRuns : list AzureTestRun.t) (acc : RunTotals) :
  existsb (resultsFail remote project) testRuns = false ->
  outcomeOf (forEachRun remote project testRuns acc)
  = inr (mkRunTotals
           (rt_totalTests acc + sumBy AzureTestRun.totalTests testRuns)
           (rt_passed acc + sumBy AzureTestRun.passedTests testRuns)
           (rt_failed acc + sumBy AzureTestRun.failedTests testRuns)
           (rt_skipped acc + sumBy AzureTestRun.notApplicableTests testRuns)
           (rt_allResults acc ++ flat_map (resultsOfRun remote project) testRuns)%list).
Proof.
  revert acc; induction testRuns as [| run rest IH]; intros acc H.
  - cbn [forEachRun flat_map]. rewrite !sumBy_nil, !Z.add_0_r, app_nil_r.
    destruct acc; reflexivity.
  - cbn [existsb] in H. apply orb_false_iff in H as [Hrun Hrest].
    unfold resultsFail in Hrun. cbn [forEachRun flat_map]. unfold getTestResults.
    unfold resultsOfRun at 1.
    destruct (remote (ReqTestResults project (AzureTestRun.id run)))
      as [e | results] eqn:E; [discriminate |].
    rewrite (outcome_bind_inr _ _ results) by exact E.
    rewrite (IH _ Hrest). cbn [rt_totalTests rt_passed rt_failed rt_skipped rt_allResults].
    rewrite !sumBy_cons, <- app_assoc. f_equal. f_equal; lia.
Qed.

Lemma guardedBody_exact (build : AzureBuild.t) (acc : list PipelineResult.t) :
  kept remote project build = true ->
  outcomeOf (guardedBody remote project build acc)
  = inr (acc ++ [summaryOf remote project build])%list.
Proof.
  unfold kept, fetchThrows, hasTestRuns, guardedBody, buildBody, getTestRunsForBuild,
    summaryOf, runsOfBuild.
  intros H. apply andb_true_iff in H as [Ht Hr]. apply negb_true_iff in Ht.
  destruct (remote (ReqTestRunsForBuild project (AzureBuild.id build)))
    as [e | [| run rest]] eqn:E; try discriminate.
  apply outcome_tryCatch_inr.
  rewrite (outcome_bind_inr _ _ (run :: rest)) by exact E.
  rewrite (outcome_bind_inr _ _ _ (forEachRun_exact (run :: rest) _ Ht)).
  reflexivity.
Qed.

Lemma guardedBody_fulfils (build : AzureBuild.t) (acc : list PipelineResult.t) :
  outcomeOf (guardedBody remote project build acc)
  = inr (if kept remote project build
         then (acc ++ [summaryOf remote project build])%list else acc).
Proof.
  destruct (kept remote project build) eqn:K.
  - apply guardedBody_exact; exact K.
  - apply guardedBody_skipped. unfold kept in K.
    apply andb_false_iff in K as [K | K]; [left; apply negb_false_iff | right]; exact K.
Qed.

Lemma forEachBuild_exact (builds : list AzureBuild.t) (acc : list PipelineResult.t) :
  outcomeOf (forEachBuild remote project builds acc)
  = inr (acc ++ map (summaryOf remote project) (filter (kept remote project) builds))%list.
Proof.
  revert acc; induction builds as [| build rest IH]; intros acc.
  - cbn. rewrite app_nil_r. reflexivity.
  - cbn [forEachBuild filter].
    rewrite (outcome_bind_inr _ _ _ (guardedBody_fulfils build acc)), IH.
    destruct (kept remote project build); [| reflexivity].
    rewrite <- app_assoc. reflexivity.
Qed.

(** Traces. *)

Lemma resultsFetches_silent (t : list Event) :
  forallb isResultsFetch t = true -> warnings t = [] /\ runsRequested t = [].
Proof.
  induction t as [| e t IH]; intros H; [split; reflexivity |].
  cbn [forallb] in H. apply andb_true_iff in H as [He Ht].
  destruct (IH Ht) as [Hw Hr].
  destruct e as [[] | |]; try discriminate.
  unfold warnings, runsRequested in *. cbn [flat_map app]. auto.
Qed.

Lemma forEachRun_events (testRuns : list AzureTestRun.t) (acc : RunTotals) :
  forallb isResultsFetch (events (forEachRun remote project testRuns acc)) = true.
Proof.
  revert acc; induction testRuns as [| run rest IH]; intros acc.
  - reflexivity.
  - cbn [forEachRun]. rewrite events_bind, forallb_app.
    apply andb_true_iff. split; [reflexivity |].
    destruct (outcomeOf (getTestResults remote project (AzureTestRun.id run)));
      [reflexivity | apply IH].
Qed.

Lemma buildBody_events (build : AzureBuild.t) (acc : list PipelineResult.t) :
  exists t,
    events (buildBody remote project build acc)
    = Fetch (ReqTestRunsForBuild project (AzureBuild.id build)) :: t
    /\ forallb isResultsFetch t = true.
Proof.
  unfold buildBody. rewrite events_bind.
  destruct (outcomeOf (getTestRunsForBuild remote project (AzureBuild.id build)))
    as [e | [| run rest]].
  - exists []. split; reflexivity.
  - exists []. split; reflexivity.
  - eexists. split; [reflexivity |].
    rewrite events_bind, forallb_app. apply andb_true_iff.
    split; [apply forEachRun_events |].
    destruct (outcomeOf (forEachRun remote project (run :: rest) _)); reflexivity.
Qed.

Lemma buildBody_rejects (build : AzureBuild.t) (acc : list PipelineResult.t) :
  fetchThrows remote project build = true ->
  exists e, outcomeOf (buildBody remote project build acc) = inl e.
Proof.
  unfold fetchThrows, buildBody, getTestRunsForBuild. intros H.
  destruct (remote (ReqTestRunsForBuild project (AzureBuild.id build)))
    as [e | testRuns] eqn:E.
  - exists e. apply outcome_bind_inl. exact E.
  - rewrite (outcome_bind_inr _ _ testRuns) by exact E.
    destruct testRuns as [| run rest]; [discriminate |].
    destruct (forEachRun_rejects remote project (run :: rest) (mkRunTotals 0 0 0 0 []) H)
      as [e He].
    exists e. apply outcome_bind_inl. exact He.
Qed.

Lemma buildBody_fulfils (build : AzureBuild.t) (acc : list PipelineResult.t) :
  fetchThrows remote project build = false ->
  exists r, outcomeOf (buildBody remote project build acc) = inr r.
Proof.
  unfold fetchThrows, buildBody, getTestRunsForBuild. intros H.
  destruct (remote (ReqTestRunsForBuild project (AzureBuild.id build)))
    as [e | testRuns] eqn:E; [discriminate |].
  rewrite (outcome_bind_inr _ _ testRuns) by exact E.
  destruct testRuns as [| run rest]; [eexists; reflexivity |].
  destruct (forEachRun_fulfils remote project (run :: rest) (mkRunTotals 0 0 0 0 []) H)
    as [acc' Hacc].
  rewrite (outcome_bind_inr _ _ acc' Hacc). eexists; reflexivity.
Qed.

Lemma guardedBody_events (build : AzureBuild.t) (acc : list PipelineResult.t) :
  warnings (events (guardedBody remote project build acc))
  = (if fetchThrows remote project build then [warningFor build] else [])
  /\ runsRequested (events (guardedBody remote project build acc)) = [AzureBuild.id build].
Proof.
  unfold guardedBody. rewrite events_tryCatch.
  destruct (buildBody_events build acc) as [t [Ht Hsilent]].
  destruct (resultsFetches_silent t Hsilent) as [Hw Hr].
  rewrite Ht. unfold warnings, runsRequested in *.
  rewrite !flat_map_app. cbn [flat_map app]. rewrite Hw, Hr.
  destruct (fetchThrows remote project build) eqn:F.
  - destruct (buildBody_rejects build acc F) as [e He]. rewrite He.
    split; reflexivity.
  - destruct (buildBody_fulfils build acc F) as [r Hr']. rewrite Hr'.
    split; reflexivity.
Qed.

Lemma forEachBuild_events (builds : list AzureBuild.t) (acc : list PipelineResult.t) :
  warnings (events (forEachBuild remote project builds acc))
  = map warningFor (filter (fetchThrows remote project) builds)
  /\ runsRequested (events (forEachBuild remote project builds acc))
     = map AzureBuild.id builds.
Proof.
  revert acc; induction builds as [| build rest IH]; intros acc.
  - split; reflexivity.
  - cbn [forEachBuild filter map]. rewrite events_bind.
    rewrite (guardedBody_fulfils build acc).
    destruct (guardedBody_events build acc) as [Hw Hr].
    destruct (IH (if kept remote project build
                  then (acc ++ [summaryOf remote project build])%list else acc))
      as [IHw IHr].
    unfold warnings, runsRequested in *. rewrite !flat_map_app, Hw, Hr, IHw, IHr.
    destruct (fetchThrows remote project build); split; reflexivity.
Qed.

End BuildLoopContents.

(** X4.  Once the builds of the day are listed, [getTestResultsByPipelines]
    resolves to one summary per kept build, in build order; each summary
    carries the build's definition and number, the finish time (the start
    time when the finish time is empty), counters that are the sums of the
    counters of the build's test runs, and the results of those runs
    concatenated in run order. *)
Theorem X4_pipeline_summaries_are_sums_over_runs (remote : Remote) (project : string)
  (date : Js.Date) (builds : list AzureBuild.t) :
  remote (buildsRequest project date) = inr builds ->
  outcomeOf (getTestResultsByPipelines remote project date)
  = inr (map (summaryOf remote project) (filter (kept remote project) builds)).
Proof.
  intros H. unfold getTestResultsByPipelines, getBuildsByDate.
  rewrite (outcome_bind_inr _ _ builds) by exact H.
  apply (forEachBuild_exact remote project builds []).
Qed.

Lemma X4_witness_three_builds :
  remoteOf threeBuilds (buildsRequest "ProjectX" someDay)
  = inr [mkBuild 1 11 "api"; mkBuild 2 12 "web"; mkBuild 3 13 "e2e"]
  /\ exists s1 s3,
       outcomeOf (getTestResultsByPipelines (remoteOf threeBuilds) "ProjectX" someDay)
       = inr [s1; s3]
       /\ (PipelineResult.totalTests s1, PipelineResult.passed s1,
           PipelineResult.failed s1, PipelineResult.skipped s1) = (4, 3, 1, 0)
       /\ (PipelineResult.totalTests s3, PipelineResult.passed s3,
           PipelineResult.failed s3, PipelineResult.skipped s3) = (6, 5, 0, 1).
Proof.
  split; [reflexivity |].
  exists (summaryOf (remoteOf threeBuilds) "ProjectX" (mkBuild 1 11 "api")),
         (summaryOf (remoteOf threeBuilds) "ProjectX" (mkBuild 3 13 "e2e")).
  split; [| split; reflexivity].
  exact (X4_pipeline_summaries_are_sums_over_runs (remoteOf threeBuilds) "ProjectX"
           someDay [mkBuild 1 11 "api"; mkBuild 2 12 "web"; mkBuild 3 13 "e2e"] eq_refl).
Defined.

(** X5.  The build listing is outside every [try]: when it fails,
    [getTestResultsByPipelines] rejects with that error and the listing is
    the only request it has sent. *)
Theorem X5_pipeline_listing_failure_propagates (remote : Remote) (project : string)
  (date : Js.Date) (e : Error) :
  remote (buildsRequest project date) = inl e ->
  outcomeOf (getTestResultsByPipelines remote project date) = inl e
  /\ events (getTestResultsByPipelines remote project date)
     = [Fetch (buildsRequest project date)].
Proof.
  intros H. split.
  - apply getTestResultsByPipelines_rejects. exact H.
  - unfold getTestResultsByPipelines, getBuildsByDate. rewrite events_bind.
    change (outcomeOf (request remote (ReqBuilds project (Js.setHours date 0 0 0 0)
                                         (Some (Js.setHours date 23 59 59 999)) 100)))
      with (remote (buildsRequest project date)).
    rewrite H. reflexivity.
Qed.

Lemma X5_witness_offline :
  offline (buildsRequest "ProjectX" someDay) = inl (NetworkError "Failed to fetch")
  /\ outcomeOf (getTestResultsByPipelines offline "ProjectX" someDay)
     = inl (NetworkError "Failed to fetch")
  /\ events (getTestResultsByPipelines offline "ProjectX" someDay)
     = [Fetch (buildsRequest "ProjectX" someDay)].
Proof.
  split; [reflexivity |].
  exact (X5_pipeline_listing_failure_propagates offline "ProjectX" someDay
           (NetworkError "Failed to fetch") eq_refl).
Defined.

(** X6.  Once the builds are listed, the loop logs exactly one warning per
    build whose fetch throws, in build order, and each warning names the id
    of its build; builds that merely have no test runs are skipped
    silently. *)
Theorem X6_one_warning_per_failing_build (remote : Remote) (project : string)
  (date : Js.Date) (builds : list AzureBuild.t) :
  remote (buildsRequest project date) = inr builds ->
  warnings (events (getTestResultsByPipelines remote project date))
  = map (fun b => "Failed to get test runs for build "
                  ++ Js.toString (AzureBuild.id b) ++ ":")
      (filter (fetchThrows remote project) builds).
Proof.
  intros H. unfold getTestResultsByPipelines, getBuildsByDate. rewrite events_bind.
  change (outcomeOf (request remote (ReqBuilds project (Js.setHours date 0 0 0 0)
                                       (Some (Js.setHours date 23 59 59 999)) 100)))
    with (remote (buildsRequest project date)).
  rewrite H. unfold warnings. rewrite flat_map_app. cbn [flat_map request events fst app].
  exact (proj1 (forEachBuild_events remote project builds [])).
Qed.

Lemma X6_witness_three_builds :
  remoteOf threeBuilds (buildsRequest "ProjectX" someDay)
  = inr [mkBuild 1 11 "api"; mkBuild 2 12 "web"; mkBuild 3 13 "e2e"]
  /\ warnings (events (getTestResultsByPipelines (remoteOf threeBuilds) "ProjectX" someDay))
     = ["Failed to get test runs for build 2:"].
Proof.
  split; [reflexivity |].
  exact (X6_one_warning_per_failing_build (remoteOf threeBuilds) "ProjectX" someDay
           [mkBuild 1 11 "api"; mkBuild 2 12 "web"; mkBuild 3 13 "e2e"] eq_refl).
Defined.

(** X7.  Once the builds are listed, the loop asks for the test runs of
    every build exactly once and in build order: a build that fails or has
    no runs does not stop the builds after it from being queried. *)
Theorem X7_every_build_is_queried_once (remote : Remote) (project : string)
  (date : Js.Date) (builds : list AzureBuild.t) :
  remote (buildsRequest project date) = inr builds ->
  runsRequested (events (getTestResultsByPipelines remote project date))
  = map AzureBuild.id builds.
Proof.
  intros H. unfold getTestResultsByPipelines, getBuildsByDate. rewrite events_bind.
  change (outcomeOf (request remote (ReqBuilds project (Js.setHours date 0 0 0 0)
                                       (Some (Js.setHours date 23 59 59 999)) 100)))
    with (remote (buildsRequest project date)).
  rewrite H. unfold runsRequested. rewrite flat_map_app.
  cbn [flat_map request events fst app].
  exact (proj2 (forEachBuild_events remote project builds [])).
Qed.

Lemma X7_witness_three_builds :
  remoteOf threeBuilds (buildsRequest "ProjectX" someDay)
  = inr [mkBuild 1 11 "api"; mkBuild 2 12 "web"; mkBuild 3 13 "e2e"]
  /\ runsRequested (events (getTestResultsByPipelines (remoteOf threeBuilds)
                              "ProjectX" someDay))
     = [1; 2; 3].
Proof.
  split; [reflexivity |].
  exact (X7_every_build_is_queried_once (remoteOf threeBuilds) "ProjectX" someDay
           [mkBuild 1 11 "api"; mkBuild 2 12 "web"; mkBuild 3 13 "e2e"] eq_refl).
Defined.

(** ** The two strategies never reject *)

Lemma caught_fulfils {A} (m : M (option A)) (h : Error -> Event) :
  exists r, outcomeOf (tryCatch m (fun error => bind (emit (h error)) (fun _ => ret None)))
            = inr r.
Proof.
  destruct m as [t [e | a]]; eexists; reflexivity.
Qed.

(** X8.  [getProjectDataFromPipelines] never rejects: whatever the remote
    answers, and whatever the two undeclared identifiers are bound to, the
    promise fulfils, with a record or with [null]. *)
Theorem X8_getProjectDataFromPipelines_never_rejects (remote : Remote)
  (automated manual : option Z) (projectName : string) (environment : Environment)
  (date : Js.Date) :
  exists r,
    outcomeOf (getProjectDataFromPipelines remote automated manual projectName
                 environment date) = inr r.
Proof.
  unfold getProjectDataFromPipelines.
  match goal with
  | |- exists r, outcomeOf (tryCatch ?m _) = inr r =>
      destruct (outcomeOf m) as [e | a] eqn:E
  end.
  - eexists. rewrite (outcome_tryCatch_inl _ _ e E). reflexivity.
  - exists a. apply outcome_tryCatch_inr. exact E.
Qed.

(** X9.  In this revision, as soon as one build of the day has test runs
    and fetches cleanly, [getProjectDataFromPipelines] resolves to [null]:
    the module callback or the reads of [m.automated] throw, whatever the
    two undeclared identifiers are bound to, and the [catch] returns
    [null]. *)
Theorem X9_pipeline_project_is_null_when_a_build_is_kept (remote : Remote)
  (automated manual : option Z) (projectName : string) (environment : Environment)
  (date : Js.Date) (builds : list AzureBuild.t) (build : AzureBuild.t) :
  remote (buildsRequest projectName date) = inr builds ->
  In build builds ->
  fetchThrows remote projectName build = false ->
  hasTestRuns remote projectName build = true ->
  outcomeOf (getProjectDataFromPipelines remote automated manual projectName
               environment date) = inr None.
Proof.
  intros H Hin Ht Hr.
  rewrite (getProjectDataFromPipelines_outcome remote automated manual projectName
             environment date builds H).
  assert (Hk : In build (filter (kept remote projectName) builds)).
  { apply filter_In. split; [exact Hin |]. unfold kept. rewrite Ht, Hr. reflexivity. }
  destruct (filter (kept remote projectName) builds); [contradiction | reflexivity].
Qed.

Lemma X9_witness_three_builds :
  remoteOf threeBuilds (buildsRequest "ProjectX" someDay)
  = inr [mkBuild 1 11 "api"; mkBuild 2 12 "web"; mkBuild 3 13 "e2e"]
  /\ In (mkBuild 1 11 "api") [mkBuild 1 11 "api"; mkBuild 2 12 "web"; mkBuild 3 13 "e2e"]
  /\ fetchThrows (remoteOf threeBuilds) "ProjectX" (mkBuild 1 11 "api") = false
  /\ hasTestRuns (remoteOf threeBuilds) "ProjectX" (mkBuild 1 11 "api") = true
  /\ outcomeOf (getProjectDataFromPipelines (remoteOf threeBuilds) None None "ProjectX"
                  "QA" someDay) = inr None.
Proof.
  assert (Hin : In (mkBuild 1 11 "api")
                  [mkBuild 1 11 "api"; mkBuild 2 12 "web"; mkBuild 3 13 "e2e"])
    by (left; reflexivity).
  split; [reflexivity |]. split; [exact Hin |].
  split; [reflexivity |]. split; [reflexivity |].
  exact (X9_pipeline_project_is_null_when_a_build_is_kept (remoteOf threeBuilds) None None
           "ProjectX" "QA" someDay
           [mkBuild 1 11 "api"; mkBuild 2 12 "web"; mkBuild 3 13 "e2e"]
           (mkBuild 1 11 "api") eq_refl Hin eq_refl eq_refl).
Defined.

Lemma getProjectData_null_of_rejection (remote : Remote) (projectName : string)
  (environment : Environment) (e : Error) :
  outcomeOf (promiseAll3 (getTestRuns remote projectName None None)
               (getAreaPaths remote projectName) (getDefects remote projectName None))
  = inl e ->
  outcomeOf (getProjectData remote projectName environment) = inr None.
Proof.
  intros H. unfold getProjectData.
  rewrite (outcome_tryCatch_inl _ _ e (outcome_bind_inl _ _ e H)). reflexivity.
Qed.

(** X10.  [getProjectData] never rejects, and it resolves to [null] exactly
    when one of its three fetches (test runs, area paths, defects)
    rejects. *)
Theorem X10_getProjectData_null_iff_a_fetch_fails (remote : Remote)
  (projectName : string) (environment : Environment) :
  (exists r, outcomeOf (getProjectData remote projectName environment) = inr r)
  /\ (outcomeOf (getProjectData remote projectName environment) = inr None
      <-> (exists e, outcomeOf (getTestRuns remote projectName None None) = inl e)
          \/ (exists e, outcomeOf (getAreaPaths remote projectName) = inl e)
          \/ (exists e, outcomeOf (getDefects remote projectName None) = inl e)).
Proof.
  destruct (promiseAll3_outcome (getTestRuns remote projectName None None)
              (getAreaPaths remote projectName) (getDefects remote projectName None))
    as [[x [y [z [Hx [Hy [Hz _]]]]]] | [e He]].
  - rewrite (getProjectData_fulfilled remote projectName environment x y z Hx Hy Hz).
    split; [eexists; reflexivity |].
    split; [discriminate |].
    rewrite Hx, Hy, Hz. intros [[e H] | [[e H] | [e H]]]; discriminate.
  - rewrite (getProjectData_null_of_rejection remote projectName environment e He).
    split; [eexists; reflexivity |].
    split; [intros _ | reflexivity].
    unfold promiseAll3 in He.
    destruct (outcomeOf (getTestRuns remote projectName None None)) as [e1 | x];
      [left; exists e1; reflexivity |].
    destruct (outcomeOf (getAreaPaths remote projectName)) as [e2 | y];
      [right; left; exists e2; reflexivity |].
    destruct (outcomeOf (getDefects remote projectName None)) as [e3 | z];
      [right; right; exists e3; reflexivity | discriminate].
Qed.

(** X11.  [getProjectData] starts its three fetches together: whatever the
    answers, and also when one of them fails, its requests are the test
    runs, the area paths and the WIQL query, followed by the single batch
    fetch of [getDefects] when the query matched ids, and by nothing
    else. *)
Theorem X11_getProjectData_requests (remote : Remote) (projectName : string)
  (environment : Environment) :
  fetches (events (getProjectData remote projectName environment))
  = ReqTestRuns projectName None None
    :: ReqAreaPaths projectName
    :: ReqWiql projectName (defectQuery projectName None)
    :: match remote (ReqWiql projectName (defectQuery projectName None)) with
       | inr (Some (w :: ws)) =>
           [ReqWorkItems projectName (firstn 200 (map WorkItemRef.id (w :: ws)))]
       | _ => []
       end.
Proof.
  assert (Hd : fetches (events (getDefects remote projectName None))
               = ReqWiql projectName (defectQuery projectName None)
                 :: match remote (ReqWiql projectName (defectQuery projectName None)) with
                    | inr (Some (w :: ws)) =>
                        [ReqWorkItems projectName
                           (firstn 200 (map WorkItemRef.id (w :: ws)))]
                    | _ => []
                    end).
  { unfold getDefects, bind, request, events.
    destruct (remote (ReqWiql projectName (defectQuery projectName None)))
      as [e | [[| w ws] |]]; reflexivity. }
  assert (Hall : fetches (events (promiseAll3 (getTestRuns remote projectName None None)
                                     (getAreaPaths remote projectName)
                                     (getDefects remote projectName None)))
                 = ReqTestRuns projectName None None
                   :: ReqAreaPaths projectName
                   :: fetches (events (getDefects remote projectName None))).
  { unfold promiseAll3.
    assert (Ha : events (getAreaPaths remote projectName)
                 = [Fetch (ReqAreaPaths projectName)]).
    { unfold getAreaPaths. rewrite events_bind.
      destruct (outcomeOf (request remote (ReqAreaPaths projectName))); reflexivity. }
    assert (Hshape : forall r : Error + (list AzureTestRun.t * list string
                                          * list AzureWorkItem.t),
              fetches (events ((events (getTestRuns remote projectName None None)
                                ++ events (getAreaPaths remote projectName)
                                ++ events (getDefects remote projectName None))%list, r))
              = ReqTestRuns projectName None None
                :: ReqAreaPaths projectName
                :: fetches (events (getDefects remote projectName None))).
    { intros r. rewrite Ha. reflexivity. }
    destruct (outcomeOf (getTestRuns remote projectName None None));
      destruct (outcomeOf (getAreaPaths remote projectName));
      destruct (outcomeOf (getDefects remote projectName None));
      apply Hshape. }
  unfold getProjectData. rewrite events_tryCatch, events_bind.
  destruct (outcomeOf (promiseAll3 (getTestRuns remote projectName None None)
                         (getAreaPaths remote projectName)
                         (getDefects remote projectName None)))
    as [e | [[x y] z]] eqn:Ep.
  - rewrite (outcome_bind_inl _ _ e Ep).
    unfold fetches in *. rewrite !flat_map_app, Hall, Hd. cbn [flat_map app].
    rewrite !app_nil_r. reflexivity.
  - rewrite (outcome_bind_inr _ _ _ Ep).
    unfold fetches in *. rewrite !flat_map_app, Hall, Hd. cbn [flat_map app].
    rewrite !app_nil_r. reflexivity.
Qed.

(** ** The test-plan record, further invariants *)

Lemma sumBy_filter_split {A} (f : A -> Z) (p : A -> bool) (l : list A) :
  sumBy f (filter p l) + sumBy f (filter (fun x => negb (p x)) l) = sumBy f l.
Proof.
  induction l as [| x l IH]; [reflexivity |].
  cbn [filter]. destruct (p x); cbn [negb]; rewrite !sumBy_cons; lia.
Qed.

Lemma fold_addRun_split (testRuns : list AzureTestRun.t) (acc : PlanTotals) :
  pt_totalAutomated (fold_left addRun testRuns acc)
  = pt_totalAutomated acc
    + sumBy AzureTestRun.totalTests (filter AzureTestRun.isAutomated testRuns)
  /\ pt_totalManual (fold_left addRun testRuns acc)
     = pt_totalManual acc
       + sumBy AzureTestRun.totalTests
           (filter (fun r => negb (AzureTestRun.isAutomated r)) testRuns).
Proof.
  revert acc; induction testRuns as [| run rest IH]; intros acc; cbn [fold_left filter].
  - rewrite !sumBy_nil. lia.
  - destruct (IH (addRun acc run)) as [Ha Hm]. rewrite Ha, Hm.
    unfold addRun; cbn [pt_totalAutomated pt_totalManual].
    destruct (AzureTestRun.isAutomated run); cbn [negb]; rewrite ?sumBy_cons; lia.
Qed.

(** X12.  In the record [getProjectData] returns, the project counters are
    the sums over the fetched test runs, [executed] equals [totalTests],
    [automatedTests] and [manualTests] are the test totals of the runs
    flagged [isAutomated] and of the others, so that they add up to
    [totalTests]; every module has all counters at zero. *)
Theorem X12_test_plan_totals (remote : Remote) (projectName : string)
  (environment : Environment) (p : ProjectData.t) :
  outcomeOf (getProjectData remote projectName environment) = inr (Some p) ->
  exists testRuns,
    outcomeOf (getTestRuns remote projectName None None) = inr testRuns
    /\ ProjectData.totalTests p = sumBy AzureTestRun.totalTests testRuns
    /\ ProjectData.passed p = sumBy AzureTestRun.passedTests testRuns
    /\ ProjectData.failed p = sumBy AzureTestRun.failedTests testRuns
    /\ ProjectData.skipped p = sumBy AzureTestRun.notApplicableTests testRuns
    /\ ProjectData.executed p = ProjectData.totalTests p
    /\ ProjectData.automatedTests p
       = sumBy AzureTestRun.totalTests (filter AzureTestRun.isAutomated testRuns)
    /\ ProjectData.manualTests p
       = sumBy AzureTestRun.totalTests
           (filter (fun r => negb (AzureTestRun.isAutomated r)) testRuns)
    /\ ProjectData.automatedTests p + ProjectData.manualTests p = ProjectData.totalTests p
    /\ forall m, In m (ProjectData.modules p) ->
         ModuleTestResult.totalTests m = 0 /\ ModuleTestResult.executed m = 0
         /\ ModuleTestResult.passed m = 0 /\ ModuleTestResult.failed m = 0
         /\ ModuleTestResult.skipped m = 0.
Proof.
  intros H.
  apply getProjectData_returned in H as [testRuns [areaPaths [defects [Hr [_ [_ ->]]]]]].
  exists testRuns. split; [exact Hr |].
  destruct (planProject_counters projectName testRuns areaPaths defects)
    as [H1 [H2 [H3 [H4 [H5 _]]]]].
  destruct (fold_addRun_split testRuns (mkPlanTotals 0 0 0 0 0 0)) as [Ha Hm].
  cbn in Ha, Hm.
  assert (Hauto : ProjectData.automatedTests
                    (planProject projectName testRuns areaPaths defects)
                  = sumBy AzureTestRun.totalTests
                      (filter AzureTestRun.isAutomated testRuns)) by exact Ha.
  assert (Hman : ProjectData.manualTests
                   (planProject projectName testRuns areaPaths defects)
                 = sumBy AzureTestRun.totalTests
                     (filter (fun r => negb (AzureTestRun.isAutomated r)) testRuns))
    by exact Hm.
  repeat (split; [assumption |]).
  split.
  - rewrite Hauto, Hman, H1. apply sumBy_filter_split.
  - intros m Hin. rewrite planProject_modules in Hin.
    apply in_map_iff in Hin as [k [<- _]]. repeat split; reflexivity.
Qed.

Lemma X12_witness_plan :
  outcomeOf (getProjectData (remoteOf planWorld) "ProjectX" "QA")
  = inr (Some (planProject "ProjectX" [mkRun 1 true 10 5 0 5] ["Payments"; "Checkout"]
                 planDefects))
  /\ exists testRuns,
       outcomeOf (getTestRuns (remoteOf planWorld) "ProjectX" None None) = inr testRuns
       /\ ProjectData.totalTests
            (planProject "ProjectX" [mkRun 1 true 10 5 0 5] ["Payments"; "Checkout"]
               planDefects)
          = sumBy AzureTestRun.totalTests testRuns.
Proof.
  split; [reflexivity |].
  destruct (X12_test_plan_totals (remoteOf planWorld) "ProjectX" "QA"
              (planProject "ProjectX" [mkRun 1 true 10 5 0 5] ["Payments"; "Checkout"]
                 planDefects) eq_refl) as [testRuns [Hr [Ht _]]].
  exists testRuns. split; [exact Hr | exact Ht].
Defined.

Lemma addKey_fresh (k : string) (ks : list string) :
  ~ In k ks -> addKey k ks = (ks ++ [k])%list.
Proof.
  induction ks as [| k' rest IH]; intros H; cbn.
  - reflexivity.
  - destruct (String.eqb k' k) eqn:E.
    + apply String.eqb_eq in E. subst. exfalso. apply H. left; reflexivity.
    + rewrite IH; [reflexivity |]. intros Hin. apply H. right; exact Hin.
Qed.

Lemma distinctKeys_of_distinct (areaPaths : list string) :
  NoDup areaPaths -> distinctKeys areaPaths = areaPaths.
Proof.
  unfold distinctKeys.
  assert (G : forall l ks, NoDup (ks ++ l) ->
              fold_left (fun ks k => addKey k ks) l ks = (ks ++ l)%list).
  { induction l as [| k l IH]; intros ks H; cbn [fold_left].
    - rewrite app_nil_r. reflexivity.
    - rewrite addKey_fresh.
      + rewrite IH; rewrite <- app_assoc; [reflexivity | exact H].
      + apply NoDup_remove_2 in H. intros Hin. apply H. apply in_or_app. left; exact Hin. }
  intros H. apply (G areaPaths []). exact H.
Qed.

(** X13.  In the record [getProjectData] returns, the module ids are
    pairwise distinct and each is "mod-" followed by the module name; there
    are never more modules than area paths, and when the area paths are
    pairwise distinct the modules are in the order of the area paths, one
    per path. *)
Theorem X13_test_plan_modules_follow_area_paths (remote : Remote) (projectName : string)
  (environment : Environment) (p : ProjectData.t) :
  outcomeOf (getProjectData remote projectName environment) = inr (Some p) ->
  exists areaPaths,
    outcomeOf (getAreaPaths remote projectName) = inr areaPaths
    /\ NoDup (map ModuleTestResult.moduleId (ProjectData.modules p))
    /\ (forall m, In m (ProjectData.modules p) ->
        ModuleTestResult.moduleId m = "mod-" ++ ModuleTestResult.moduleName m)
    /\ (List.length (ProjectData.modules p) <= List.length areaPaths)%nat
    /\ (NoDup areaPaths ->
        map ModuleTestResult.moduleName (ProjectData.modules p) = areaPaths).
Proof.
  intros H.
  apply getProjectData_returned in H as [testRuns [areaPaths [defects [_ [Ha [_ ->]]]]]].
  exists areaPaths. split; [exact Ha |].
  rewrite planProject_modules.
  destruct (distinctKeys_spec areaPaths) as [Hnd Hin].
  split; [| split; [| split]].
  - rewrite map_map. cbn [linkedModule ModuleTestResult.moduleId].
    apply Injective_map_NoDup; [| exact Hnd].
    intros a b Hab. inversion Hab. reflexivity.
  - intros m Hm. apply in_map_iff in Hm as [k [<- _]]. reflexivity.
  - rewrite length_map. apply NoDup_incl_length; [exact Hnd |].
    intros x Hx. apply Hin. exact Hx.
  - intros Hdistinct. rewrite map_map. cbn [linkedModule ModuleTestResult.moduleName].
    rewrite map_id. apply distinctKeys_of_distinct. exact Hdistinct.
Qed.

Lemma X13_witness_plan :
  outcomeOf (getProjectData (remoteOf planWorld) "ProjectX" "QA")
  = inr (Some (planProject "ProjectX" [mkRun 1 true 10 5 0 5] ["Payments"; "Checkout"]
                 planDefects))
  /\ map ModuleTestResult.moduleId
       (ProjectData.modules
          (planProject "ProjectX" [mkRun 1 true 10 5 0 5] ["Payments"; "Checkout"]
             planDefects))
     = ["mod-Payments"; "mod-Checkout"]
  /\ exists areaPaths,
       outcomeOf (getAreaPaths (remoteOf planWorld) "ProjectX") = inr areaPaths
       /\ NoDup (map ModuleTestResult.moduleId
                   (ProjectData.modules
                      (planProject "ProjectX" [mkRun 1 true 10 5 0 5]
                         ["Payments"; "Checkout"] planDefects))).
Proof.
  split; [reflexivity |]. split; [reflexivity |].
  destruct (X13_test_plan_modules_follow_area_paths (remoteOf planWorld) "ProjectX" "QA"
              (planProject "ProjectX" [mkRun 1 true 10 5 0 5] ["Payments"; "Checkout"]
                 planDefects) eq_refl) as [areaPaths [Ha [Hnd _]]].
  exists areaPaths. split; [exact Ha | exact Hnd].
Defined.

Lemma list_sum_cons (a : nat) (l : list nat) : list_sum (a :: l) = (a + list_sum l)%nat.
Proof. reflexivity. Qed.

Lemma list_sum_map_add {A} (f g : A -> nat) (l : list A) :
  list_sum (map (fun x => (f x + g x)%nat) l)
  = (list_sum (map f l) + list_sum (map g l))%nat.
Proof.
  induction l as [| x l IH]; [reflexivity |].
  cbn [map]. rewrite !list_sum_cons, IH. lia.
Qed.

Lemma indicator_sum (t : string) (ks : list string) :
  NoDup ks ->
  list_sum (map (fun k => if String.eqb t k then 1%nat else 0%nat) ks)
  = if existsb (String.eqb t) ks then 1%nat else 0%nat.
Proof.
  induction ks as [| k ks IH]; intros H; [reflexivity |].
  cbn [map existsb]. rewrite list_sum_cons.
  inversion H as [| ? ? Hnotin Hrest]; subst. rewrite (IH Hrest).
  destruct (String.eqb t k) eqn:E; cbn [orb]; [| reflexivity].
  apply String.eqb_eq in E; subst.
  destruct (existsb (String.eqb k) ks) eqn:Ex; [| reflexivity].
  apply existsb_exists in Ex as [x [Hx Heq]]. apply String.eqb_eq in Heq; subst.
  contradiction.
Qed.

Lemma existsb_same_members {A} (p : A -> bool) (l l' : list A) :
  (forall x, In x l <-> In x l') -> existsb p l = existsb p l'.
Proof.
  intros H.
  destruct (existsb p l) eqn:E; destruct (existsb p l') eqn:E'; try reflexivity.
  - apply existsb_exists in E as [x [Hx Hp]].
    assert (existsb p l' = true) by (apply existsb_exists; exists x; split; [apply H |]; auto).
    congruence.
  - apply existsb_exists in E' as [x [Hx Hp]].
    assert (existsb p l = true) by (apply existsb_exists; exists x; split; [apply H |]; auto).
    congruence.
Qed.

Lemma linked_total (ks : list string) (ds : list AzureWorkItem.t) :
  NoDup ks ->
  list_sum (map (fun k => List.length (linkedIds k ds)) ks)
  = List.length (filter (fun d => existsb (String.eqb (areaPathTail d)) ks) ds).
Proof.
  intros Hnd. induction ds as [| d ds IH].
  - cbn [filter List.length]. clear Hnd.
    induction ks as [| k ks IHk]; [reflexivity |].
    cbn [map]. rewrite list_sum_cons, IHk. reflexivity.
  - assert (Hstep : forall k,
              List.length (linkedIds k (d :: ds))
              = ((if String.eqb (areaPathTail d) k then 1 else 0)
                 + List.length (linkedIds k ds))%nat).
    { intros k. unfold linkedIds. cbn [filter].
      destruct (String.eqb (areaPathTail d) k); reflexivity. }
    rewrite (map_ext _ _ Hstep), list_sum_map_add, IH, (indicator_sum _ ks Hnd).
    cbn [filter]. destruct (existsb (String.eqb (areaPathTail d)) ks); reflexivity.
Qed.

(** X14.  [getProjectData] links every fetched defect at most once: the
    [linkedDefects] lists of the modules together hold as many ids as there
    are fetched defects whose area-path tail is one of the area paths, and
    so never more than there are fetched defects. *)
Theorem X14_each_defect_linked_at_most_once (remote : Remote) (projectName : string)
  (environment : Environment) (p : ProjectData.t) :
  outcomeOf (getProjectData remote projectName environment) = inr (Some p) ->
  exists areaPaths defects,
    outcomeOf (getAreaPaths remote projectName) = inr areaPaths
    /\ outcomeOf (getDefects remote projectName None) = inr defects
    /\ list_sum (map (fun m => List.length (ModuleTestResult.linkedDefects m))
                   (ProjectData.modules p))
       = List.length (filter (fun d => existsb (String.eqb (areaPathTail d)) areaPaths)
                        defects)
    /\ (list_sum (map (fun m => List.length (ModuleTestResult.linkedDefects m))
                    (ProjectData.modules p))
        <= List.length defects)%nat.
Proof.
  intros H.
  apply getProjectData_returned in H as [testRuns [areaPaths [defects [_ [Ha [Hd ->]]]]]].
  exists areaPaths, defects. split; [exact Ha |]. split; [exact Hd |].
  destruct (distinctKeys_spec areaPaths) as [Hnd Hin].
  assert (Heq : list_sum (map (fun m => List.length (ModuleTestResult.linkedDefects m))
                            (ProjectData.modules
                               (planProject projectName testRuns areaPaths defects)))
                = List.length (filter (fun d => existsb (String.eqb (areaPathTail d))
                                                  areaPaths) defects)).
  { rewrite planProject_modules, map_map.
    cbn [linkedModule ModuleTestResult.linkedDefects].
    rewrite (linked_total _ defects Hnd). f_equal. apply filter_ext.
    intros d. apply existsb_same_members. exact Hin. }
  split; [exact Heq |]. rewrite Heq. apply filter_length_le.
Qed.

Lemma X14_witness_plan :
  outcomeOf (getProjectData (remoteOf planWorld) "ProjectX" "QA")
  = inr (Some (planProject "ProjectX" [mkRun 1 true 10 5 0 5] ["Payments"; "Checkout"]
                 planDefects))
  /\ list_sum (map (fun m => List.length (ModuleTestResult.linkedDefects m))
                 (ProjectData.modules
                    (planProject "ProjectX" [mkRun 1 true 10 5 0 5]
                       ["Payments"; "Checkout"] planDefects))) = 2%nat
  /\ exists areaPaths defects,
       outcomeOf (getAreaPaths (remoteOf planWorld) "ProjectX") = inr areaPaths
       /\ outcomeOf (getDefects (remoteOf planWorld) "ProjectX" None) = inr defects
       /\ (list_sum (map (fun m => List.length (ModuleTestResult.linkedDefects m))
                       (ProjectData.modules
                          (planProject "ProjectX" [mkRun 1 true 10 5 0 5]
                             ["Payments"; "Checkout"] planDefects)))
           <= List.length defects)%nat.
Proof.
  split; [reflexivity |]. split; [reflexivity |].
  destruct (X14_each_defect_linked_at_most_once (remoteOf planWorld) "ProjectX" "QA"
              (planProject "ProjectX" [mkRun 1 true 10 5 0 5] ["Payments"; "Checkout"]
                 planDefects) eq_refl) as [areaPaths [defects [Ha [Hd [_ Hle]]]]].
  exists areaPaths, defects. split; [exact Ha |]. split; [exact Hd | exact Hle].
Defined.

(** ** Ids *)

Lemma to_int_not_nil (z : Z) : Z.to_int z <> Decimal.Pos Decimal.Nil
                               /\ Z.to_int z <> Decimal.Neg Decimal.Nil.
Proof.
  destruct z as [| q | q]; cbn; split; intros H; inversion H as [Hq];
    exact (DecimalPos.Unsigned.to_uint_nonnil q Hq).
Qed.

(** [`${n}`] determines [n]. *)
Lemma toString_injective (a b : Z) : Js.toString a = Js.toString b -> a = b.
Proof.
  unfold Js.toString. intros H.
  apply (f_equal NilZero.int_of_string) in H.
  destruct (to_int_not_nil a) as [Ha1 Ha2]. destruct (to_int_not_nil b) as [Hb1 Hb2].
  rewrite !NilZero.isi in H by assumption.
  inversion H as [Hab].
  rewrite <- (DecimalZ.of_to a), <- (DecimalZ.of_to b), Hab. reflexivity.
Qed.

(** [`${n}`] never starts with the letter D. *)
Lemma toString_not_DEF (z : Z) (s : string) : Js.toString z <> "DEF-" ++ s.
Proof.
  unfold Js.toString. destruct (Z.to_int z) as [d | d]; cbn.
  - destruct d; cbn; discriminate.
  - discriminate.
Qed.

Lemma append_cancel_l (p a b : string) : p ++ a = p ++ b -> a = b.
Proof.
  induction p as [| c p IH]; cbn; intros H; [exact H |].
  inversion H. auto.
Qed.

(** X15.  The ids [getProjectData] stores in [linkedDefects] are the bare
    work-item ids ("101"), while [transformDefects] names the defects
    "DEF-101".  So for every module of a test-plan record, the lookup of the
    project overview, [defects.filter(d => defectIds.includes(d.id))], finds
    none of the transformed defects. *)
Theorem X15_linked_ids_never_match_transformed_defects (remote : Remote)
  (this : AzureDevOpsService.t) (projectName : string) (environment : Environment)
  (p : ProjectData.t) (azureDefects : list AzureWorkItem.t) (m : ModuleTestResult.t) :
  outcomeOf (getProjectData remote projectName environment) = inr (Some p) ->
  In m (ProjectData.modules p) ->
  getLinkedDefects (transformDefects this azureDefects environment)
    (ModuleTestResult.linkedDefects m) = [].
Proof.
  intros H Hm.
  apply getProjectData_returned in H as [testRuns [areaPaths [defects [_ [_ [_ ->]]]]]].
  rewrite planProject_modules in Hm. apply in_map_iff in Hm as [k [<- _]].
  cbn [linkedModule ModuleTestResult.linkedDefects].
  unfold getLinkedDefects, transformDefects.
  induction azureDefects as [| wi rest IH]; [reflexivity |].
  cbn [map filter].
  destruct (existsb (String.eqb (Defect.id (transformDefect this environment wi)))
              (linkedIds k defects)) eqn:E; [| exact IH].
  apply existsb_exists in E as [id [Hid Heq]].
  apply String.eqb_eq in Heq. unfold linkedIds in Hid.
  apply in_map_iff in Hid as [d [Hd _]].
  exfalso. apply (toString_not_DEF (AzureWorkItem.id d)
                    (Js.toString (AzureWorkItem.id wi))).
  rewrite Hd, <- Heq. reflexivity.
Qed.

Lemma X15_witness_payments :
  outcomeOf (getProjectData (remoteOf planWorld) "ProjectX" "QA")
  = inr (Some (planProject "ProjectX" [mkRun 1 true 10 5 0 5] ["Payments"; "Checkout"]
                 planDefects))
  /\ In (linkedModule planDefects "Payments")
       (ProjectData.modules
          (planProject "ProjectX" [mkRun 1 true 10 5 0 5] ["Payments"; "Checkout"]
             planDefects))
  /\ ModuleTestResult.linkedDefects (linkedModule planDefects "Payments") = ["101"]
  /\ getLinkedDefects (transformDefects devAzure planDefects "QA")
       (ModuleTestResult.linkedDefects (linkedModule planDefects "Payments")) = [].
Proof.
  assert (Hin : In (linkedModule planDefects "Payments")
                  (ProjectData.modules
                     (planProject "ProjectX" [mkRun 1 true 10 5 0 5]
                        ["Payments"; "Checkout"] planDefects)))
    by (left; reflexivity).
  split; [reflexivity |]. split; [exact Hin |]. split; [reflexivity |].
  exact (X15_linked_ids_never_match_transformed_defects (remoteOf planWorld) devAzure
           "ProjectX" "QA" _ planDefects (linkedModule planDefects "Payments")
           eq_refl Hin).
Defined.

(** ** The defect transform, further properties *)

(** X16.  For a work item whose severity and state are not names of members
    of [Object.prototype], [transformDefects] yields a defect whose severity
    and status are labels of their unions: the entry of the table when the
    table has the key, "minor" and "open" otherwise (also when the severity
    field is absent), and the assignee is "Unassigned" when the field is
    absent. *)
Theorem X16_transformDefects_labels_and_defaults (this : AzureDevOpsService.t)
  (azureDefects : list AzureWorkItem.t) (environment : Environment)
  (wi : AzureWorkItem.t) :
  In wi azureDefects ->
  Js.isInherited (match AzureWorkItem.Severity (AzureWorkItem.fields wi) with
                  | Some s => s | None => "" end) = false ->
  Js.isInherited (AzureWorkItem.State (AzureWorkItem.fields wi)) = false ->
  exists d,
    In d (transformDefects this azureDefects environment)
    /\ Defect.id d = "DEF-" ++ Js.toString (AzureWorkItem.id wi)
    /\ Defect.severity d
       = Label (match AzureWorkItem.Severity (AzureWorkItem.fields wi) with
                | Some s => match Js.ownProperty severityMap s with
                            | Some v => v
                            | None => minor
                            end
                | None => minor
                end)
    /\ Defect.status d
       = Label (match Js.ownProperty statusMap
                        (AzureWorkItem.State (AzureWorkItem.fields wi)) with
                | Some v => v
                | None => open
                end)
    /\ (AzureWorkItem.AssignedTo (AzureWorkItem.fields wi) = None ->
        Defect.assignee d = "Unassigned").
Proof.
  intros Hin Hsev Hst.
  exists (transformDefect this environment wi).
  split; [unfold transformDefects; apply in_map; exact Hin |].
  split; [reflexivity |].
  unfold transformDefect; cbn [Defect.severity Defect.status Defect.assignee].
  split; [| split].
  - unfold lookupOr, Js.get.
    destruct (AzureWorkItem.Severity (AzureWorkItem.fields wi)) as [s |]; [| reflexivity].
    destruct s as [| c s]; [reflexivity |]. cbn [Js.orElse Js.truthy].
    destruct (Js.ownProperty severityMap (String c s)); [reflexivity |].
    rewrite Hsev. reflexivity.
  - unfold lookupOr, Js.get.
    destruct (Js.ownProperty statusMap (AzureWorkItem.State (AzureWorkItem.fields wi)));
      [reflexivity |].
    rewrite Hst. reflexivity.
  - intros Hn. rewrite Hn. reflexivity.
Qed.

Lemma X16_witness_plan_defects :
  In (mkWorkItem 102 "New" None None "ProjectX\Search") planDefects
  /\ Js.isInherited "" = false
  /\ Js.isInherited "New" = false
  /\ exists d,
       In d (transformDefects devAzure planDefects "QA")
       /\ Defect.id d = "DEF-102"
       /\ Defect.severity d = Label minor
       /\ Defect.status d = Label open.
Proof.
  assert (Hin : In (mkWorkItem 102 "New" None None "ProjectX\Search") planDefects)
    by (right; left; reflexivity).
  split; [exact Hin |]. split; [reflexivity |]. split; [reflexivity |].
  destruct (X16_transformDefects_labels_and_defaults devAzure planDefects "QA"
              (mkWorkItem 102 "New" None None "ProjectX\Search") Hin eq_refl eq_refl)
    as [d [Hd [Hid [Hsev [Hst _]]]]].
  exists d. split; [exact Hd |]. split; [exact Hid |]. split; [exact Hsev | exact Hst].
Defined.

(** X17.  [transformDefects] keeps the order and the number of the work
    items, and when the work-item ids are pairwise distinct so are the ids
    and the deep links of the defects. *)
Theorem X17_transformDefects_keeps_ids_distinct (this : AzureDevOpsService.t)
  (azureDefects : list AzureWorkItem.t) (environment : Environment) :
  NoDup (map AzureWorkItem.id azureDefects) ->
  map Defect.id (transformDefects this azureDefects environment)
  = map (fun wi => "DEF-" ++ Js.toString (AzureWorkItem.id wi)) azureDefects
  /\ NoDup (map Defect.id (transformDefects this azureDefects environment))
  /\ NoDup (map Defect.workItemUrl (transformDefects this azureDefects environment)).
Proof.
  intros H. unfold transformDefects. rewrite !map_map.
  cbn [transformDefect Defect.id Defect.workItemUrl].
  split; [reflexivity |]. split.
  - rewrite <- (map_map AzureWorkItem.id (fun z => "DEF-" ++ Js.toString z)).
    apply Injective_map_NoDup; [| exact H].
    intros a b Hab. apply toString_injective. inversion Hab. reflexivity.
  - rewrite <- (map_map AzureWorkItem.id
                  (fun z => AzureDevOpsService.baseUrl this ++ "/"
                            ++ AzureDevOpsService.organization this
                            ++ "/_workitems/edit/" ++ Js.toString z)).
    apply Injective_map_NoDup; [| exact H].
    intros a b Hab. apply toString_injective.
    repeat apply append_cancel_l in Hab. exact Hab.
Qed.

Lemma X17_witness_plan_defects :
  NoDup (map AzureWorkItem.id planDefects)
  /\ map Defect.id (transformDefects devAzure planDefects "QA")
     = ["DEF-101"; "DEF-102"; "DEF-103"]
  /\ NoDup (map Defect.id (transformDefects devAzure planDefects "QA")).
Proof.
  assert (H : NoDup (map AzureWorkItem.id planDefects)).
  { cbn. repeat constructor; cbn; intuition discriminate. }
  split; [exact H |].
  destruct (X17_transformDefects_keeps_ids_distinct devAzure planDefects "QA" H)
    as [Hids [Hnd _]].
  split; [rewrite Hids; reflexivity | exact Hnd].
Defined.

(** X18.  [createAzureDevOpsService] returns [null] exactly when the
    organization or the token is empty.  Otherwise the service keeps both,
    and its base URL is the configured one, or "https://dev.azure.com" when
    none is configured, so that the deep link of every defect it transforms
    is [base/organization/_workitems/edit/id]. *)
Theorem X18_createAzureDevOpsService_cases (config : AzureDevOpsConfig.t) :
  (createAzureDevOpsService config = None
   <-> AzureDevOpsConfig.organization config = ""
       \/ AzureDevOpsConfig.personalAccessToken config = "")
  /\ forall service,
       createAzureDevOpsService config = Some service ->
       AzureDevOpsService.organization service = AzureDevOpsConfig.organization config
       /\ AzureDevOpsService.token service = AzureDevOpsConfig.personalAccessToken config
       /\ AzureDevOpsService.baseUrl service
          = (if Js.truthy (AzureDevOpsConfig.baseUrl config)
             then AzureDevOpsConfig.baseUrl config else "https://dev.azure.com")
       /\ AzureDevOpsService.baseUrl service <> ""
       /\ forall environment wi,
            Defect.workItemUrl (transformDefect service environment wi)
            = (if Js.truthy (AzureDevOpsConfig.baseUrl config)
               then AzureDevOpsConfig.baseUrl config else "https://dev.azure.com")
              ++ "/" ++ AzureDevOpsConfig.organization config
              ++ "/_workitems/edit/" ++ Js.toString (AzureWorkItem.id wi).
Proof.
  unfold createAzureDevOpsService, isAzureDevOpsConfigured.
  destruct config as [org token base]; cbn.
  split.
  - destruct org as [| c org]; cbn; [split; auto |].
    destruct token as [| c' token]; cbn; [split; auto |].
    split; [discriminate | intros [H | H]; discriminate].
  - intros service H.
    destruct org as [| c org]; [discriminate |].
    destruct token as [| c' token]; [discriminate |].
    cbn in H. inversion H; subst; clear H. cbn. unfold Js.orElse.
    repeat split; try reflexivity.
    destruct base; cbn; discriminate.
Qed.

Lemma X18_witness_contoso :
  createAzureDevOpsService (AzureDevOpsConfig.mk "contoso" "pat" "") = Some devAzure
  /\ AzureDevOpsService.baseUrl devAzure = "https://dev.azure.com"
  /\ Defect.workItemUrl (transformDefect devAzure "QA"
                           (mkWorkItem 101 "Active" None None "ProjectX"))
     = "https://dev.azure.com/contoso/_workitems/edit/101".
Proof.
  split; [reflexivity |].
  destruct (proj2 (X18_createAzureDevOpsService_cases
                     (AzureDevOpsConfig.mk "contoso" "pat" "")) devAzure eq_refl)
    as [_ [_ [Hbase [_ Hurl]]]].
  split; [exact Hbase |].
  exact (Hurl "QA" (mkWorkItem 101 "Active" None None "ProjectX")).
Defined.

(** ** The orchestration in remote mode *)

Section AppProperties.

Variables TestTrend ComparisonData TestFailureDefect : Type.
Variable getTrendData : Environment -> list TestTrend.
Variable getProjectsData : Environment -> Js.Date -> list ProjectData.t.
Variable getComparisonData : Environment -> list ComparisonData.
Variable getMockDefects : Environment -> list Defect.t.
Variable getTestFailureDefects : Environment -> Js.Date -> list TestFailureDefect.
Variable remote : Remote.
Variables automated manual : option Z.
Variable settings : Settings.t.
Variable selectedEnvironment : Environment.
Variable selectedDate : Js.Date.

Lemma collectProjects_outcome (fetchOne : string -> M (option ProjectData.t))
  (projectNames : list string) (acc : list ProjectData.t) :
  (forall projName, exists r, outcomeOf (fetchOne projName) = inr r) ->
  outcomeOf (collectProjects fetchOne projectNames acc)
  = inr (acc ++ collectedProjects fetchOne projectNames)%list.
Proof.
  intros Hf. revert acc; induction projectNames as [| n rest IH]; intros acc.
  - cbn. rewrite app_nil_r. reflexivity.
  - cbn [collectProjects]. unfold collectedProjects; cbn [flat_map].
    fold (collectedProjects fetchOne rest).
    destruct (Hf n) as [r Hr]. rewrite (outcome_bind_inr _ _ r Hr), IH, Hr.
    destruct r; [rewrite <- app_assoc |]; reflexivity.
Qed.

Lemma collectDefects_outcome (service : AzureDevOpsService.t)
  (projectNames : list string) (acc : list Defect.t) :
  outcomeOf (collectDefects remote selectedEnvironment service projectNames acc)
  = inr (acc ++ collectedDefects remote service selectedEnvironment projectNames)%list.
Proof.
  revert acc; induction projectNames as [| n rest IH]; intros acc.
  - cbn. rewrite app_nil_r. reflexivity.
  - cbn [collectDefects]. unfold collectedDefects; cbn [flat_map].
    fold (collectedDefects remote service selectedEnvironment rest).
    destruct (outcomeOf (getDefects remote n None)) as [e | azDefects] eqn:E.
    + rewrite (outcome_bind_inr _ _ acc).
      * rewrite IH. reflexivity.
      * rewrite (outcome_tryCatch_inl _ _ e); [reflexivity |].
        apply outcome_bind_inl. exact E.
    + rewrite (outcome_bind_inr _ _
                 (acc ++ transformDefects service azDefects selectedEnvironment)%list).
      * rewrite IH, <- app_assoc. reflexivity.
      * apply outcome_tryCatch_inr.
        rewrite (outcome_bind_inr _ _ azDefects E). reflexivity.
Qed.

(** What a remote refresh leaves in the state when the service exists. *)
Lemma fetchFromAzure_configured (fetchOne : string -> M (option ProjectData.t))
  (label failure : string) (service : AzureDevOpsService.t) (st : AppState TestTrend ComparisonData TestFailureDefect) :
  createAzureDevOpsService (Settings.azureDevOps settings) = Some service ->
  (forall projName, exists r, outcomeOf (fetchOne projName) = inr r) ->
  let st0 := setDataSourceError _ _ _ None st in
  snd (fetchFromAzure _ _ _ getTrendData getComparisonData getTestFailureDefects remote
         settings selectedEnvironment selectedDate fetchOne label failure st)
  = match outcomeOf (projectNamesOf remote settings) with
    | inr projectNames =>
        filledState getTrendData getComparisonData getTestFailureDefects
          selectedEnvironment selectedDate (collectedProjects fetchOne projectNames)
          (collectedDefects remote service selectedEnvironment projectNames) st0
    | inl err => setDataSourceError _ _ _ (Some (failure ++ message err)) st0
    end.
Proof.
  intros Hs Hf st0. unfold fetchFromAzure. rewrite Hs. cbn [snd].
  destruct (outcomeOf (projectNamesOf remote settings)) as [err | names] eqn:En.
  - rewrite (outcome_tryCatch_inl _ _ err (outcome_bind_inl _ _ err En)). reflexivity.
  - rewrite (outcome_tryCatch_inr _ _
               (filledState getTrendData getComparisonData getTestFailureDefects
          selectedEnvironment selectedDate (collectedProjects fetchOne names)
                  (collectedDefects remote service selectedEnvironment names) st0));
      [reflexivity |].
    rewrite (outcome_bind_inr _ _ names En).
    rewrite (outcome_bind_inr _ _ _ (collectProjects_outcome fetchOne names [] Hf)).
    rewrite (outcome_bind_inr _ _ _ (collectDefects_outcome service names [])).
    reflexivity.
Qed.

Lemma projectNamesOf_enabled :
  enabledNames settings <> [] ->
  projectNamesOf remote settings = ret (enabledNames settings).
Proof.
  unfold projectNamesOf, enabledNames.
  destruct (filter Settings.enabled (Settings.projects settings));
    [intros H; contradiction H; reflexivity | reflexivity].
Qed.

Lemma projectNamesOf_none_enabled :
  enabledNames settings = [] ->
  projectNamesOf remote settings
  = bind (getProjects remote) (fun ps => ret (map snd ps)).
Proof.
  unfold projectNamesOf, enabledNames.
  destruct (filter Settings.enabled (Settings.projects settings));
    [reflexivity | discriminate].
Qed.

Lemma configured_service :
  isConfigured settings = true ->
  createAzureDevOpsService (Settings.azureDevOps settings)
  = Some (newService (Settings.azureDevOps settings)).
Proof.
  unfold isConfigured, createAzureDevOpsService, isAzureDevOpsConfigured.
  intros H. rewrite H. reflexivity.
Qed.

Lemma fetchOne_pipelines_fulfils (projName : string) :
  exists r, outcomeOf (getProjectDataFromPipelines remote automated manual projName
                         selectedEnvironment selectedDate) = inr r.
Proof.
  destruct (outcome_cases (getProjectDataFromPipelines remote automated manual projName
                             selectedEnvironment selectedDate)) as [[e He] | Hr];
    [| exact Hr].
  exfalso. unfold getProjectDataFromPipelines in He.
  match type of He with
  | outcomeOf (tryCatch ?m ?h) = _ => destruct (outcome_cases m) as [[e' Hm] | [a Hm]]
  end.
  - rewrite (outcome_tryCatch_inl _ _ e' Hm) in He. discriminate.
  - rewrite (outcome_tryCatch_inr _ _ a Hm) in He. discriminate.
Qed.

Lemma fetchOne_plans_fulfils (projName : string) :
  exists r, outcomeOf (getProjectData remote projName selectedEnvironment) = inr r.
Proof.
  destruct (promiseAll3_outcome (getTestRuns remote projName None None)
              (getAreaPaths remote projName) (getDefects remote projName None))
    as [[x [y [z [Hx [Hy [Hz _]]]]]] | [e He]].
  - eexists. apply (getProjectData_fulfilled remote projName selectedEnvironment x y z);
      assumption.
  - exists None. apply (getProjectData_null_of_rejection _ _ _ e He).
Qed.

(** X19.  With a configured connection and at least one enabled project, a
    refresh in pipelines or test-plans mode never reports an error, whatever
    the remote answers: the projects shown are the non-null results for the
    enabled projects, in their order (none when every project fails), the
    defects are those of the projects whose defect query succeeded, and the
    error message is [null]. *)
Theorem X19_remote_refresh_with_enabled_projects (st : AppState TestTrend ComparisonData TestFailureDefect) :
  isConfigured settings = true ->
  enabledNames settings <> [] ->
  (dataSourceOf settings = pipelines ->
   snd (refreshData getTrendData getProjectsData getComparisonData getMockDefects
          getTestFailureDefects remote automated manual settings selectedEnvironment
          selectedDate st)
   = {| loading := false;
        dataSourceError := None;
        trends := getTrendData selectedEnvironment;
        projects :=
          collectedProjects
            (fun projName => getProjectDataFromPipelines remote automated manual projName
                               selectedEnvironment selectedDate)
            (enabledNames settings);
        comparison := getComparisonData selectedEnvironment;
        defects :=
          collectedDefects remote (newService (Settings.azureDevOps settings))
            selectedEnvironment (enabledNames settings);
        testFailures := getTestFailureDefects selectedEnvironment selectedDate |})
  /\ (dataSourceOf settings = testplans ->
      snd (refreshData getTrendData getProjectsData getComparisonData getMockDefects
          getTestFailureDefects remote automated manual settings selectedEnvironment
          selectedDate st)
      = {| loading := false;
           dataSourceError := None;
           trends := getTrendData selectedEnvironment;
           projects :=
             collectedProjects
               (fun projName => getProjectData remote projName selectedEnvironment)
               (enabledNames settings);
           comparison := getComparisonData selectedEnvironment;
           defects :=
             collectedDefects remote (newService (Settings.azureDevOps settings))
               selectedEnvironment (enabledNames settings);
           testFailures := getTestFailureDefects selectedEnvironment selectedDate |}).
Proof.
  intros Hc Hen. unfold refreshData. rewrite Hc.
  split; intros Hd; rewrite Hd.
  - unfold fetchFromPipelines.
    pose proof (fetchFromAzure_configured
                  (fun projName => getProjectDataFromPipelines remote automated manual
                                     projName selectedEnvironment selectedDate)
                  "Pipeline fetch error:" "Failed to fetch pipeline data: "
                  _ (setLoading _ _ _ true st) (configured_service Hc)
                  fetchOne_pipelines_fulfils) as H.
    cbn zeta in H. rewrite (projectNamesOf_enabled Hen) in H. cbn [outcomeOf ret snd] in H.
    destruct (fetchFromAzure _ _ _ _ _ _ _ _ _ _ _ _ _ _) as [t st2].
    cbn [snd] in H |- *. rewrite H. reflexivity.
  - unfold fetchFromTestPlans.
    pose proof (fetchFromAzure_configured
                  (fun projName => getProjectData remote projName selectedEnvironment)
                  "Test Plans fetch error:" "Failed to fetch Test Plans data: "
                  _ (setLoading _ _ _ true st) (configured_service Hc)
                  fetchOne_plans_fulfils) as H.
    cbn zeta in H. rewrite (projectNamesOf_enabled Hen) in H. cbn [outcomeOf ret snd] in H.
    destruct (fetchFromAzure _ _ _ _ _ _ _ _ _ _ _ _ _ _) as [t st2].
    cbn [snd] in H |- *. rewrite H. reflexivity.
Qed.

End AppProperties.

(** A configured refresh in pipelines mode against an unreachable remote:
    no project, no defect, and no error message. *)
Lemma X19_witness_offline :
  isConfigured configuredPipelines = true
  /\ enabledNames configuredPipelines <> []
  /\ dataSourceOf configuredPipelines = pipelines
  /\ projects (snd (refreshWith offline configuredPipelines)) = []
  /\ defects (snd (refreshWith offline configuredPipelines)) = []
  /\ dataSourceError (snd (refreshWith offline configuredPipelines)) = None.
Proof.
  assert (Hen : enabledNames configuredPipelines <> []) by discriminate.
  split; [reflexivity |]. split; [exact Hen |]. split; [reflexivity |].
  pose proof (proj1 (X19_remote_refresh_with_enabled_projects unit unit unit
                       (fun _ => [tt]) (fun _ _ => [demoProject]) (fun _ => [tt])
                       (fun environment => [demoDefect environment]) (fun _ _ => [tt])
                       offline None None configuredPipelines "QA" someDay blankState
                       eq_refl Hen) eq_refl) as H.
  unfold refreshWith. rewrite H. repeat split; reflexivity.
Defined.

(** ** Defect linkage and the flat defect list *)

(** C6.  In test-plans mode with a configured connection, take a project
    the refresh fetches and whose three fetches of [getProjectData] fulfil.
    The record [getProjectData] returns is among the projects shown; it
    has one module per distinct area path, and the [linkedDefects] of each
    module are exactly the ids of the fetched defects whose area-path tail
    equals the module's name, in fetch order.  Module names are pairwise
    distinct, so a defect is linked to the module named by its tail and to
    no other, and a defect whose tail names no area path is linked to no
    module.  Linked or not, every fetched defect is in the flat defect
    list the refresh stores in the state. *)
Theorem C6_defect_linked_to_module_named_by_area_path_tail
  (TestTrend ComparisonData TestFailureDefect : Type)
  (getTrendData : Environment -> list TestTrend)
  (getProjectsData : Environment -> Js.Date -> list ProjectData.t)
  (getComparisonData : Environment -> list ComparisonData)
  (getMockDefects : Environment -> list Defect.t)
  (getTestFailureDefects : Environment -> Js.Date -> list TestFailureDefect)
  (remote : Remote) (automated manual : option Z) (settings : Settings.t)
  (selectedEnvironment : Environment) (selectedDate : Js.Date)
  (st : AppState TestTrend ComparisonData TestFailureDefect)
  (projectNames : list string) (projectName : string)
  (testRuns : list AzureTestRun.t) (areaPaths : list string)
  (azDefects : list AzureWorkItem.t) :
  isConfigured settings = true ->
  dataSourceOf settings = testplans ->
  outcomeOf (projectNamesOf remote settings) = inr projectNames ->
  In projectName projectNames ->
  outcomeOf (getTestRuns remote projectName None None) = inr testRuns ->
  outcomeOf (getAreaPaths remote projectName) = inr areaPaths ->
  outcomeOf (getDefects remote projectName None) = inr azDefects ->
  let shown :=
    snd (refreshData getTrendData getProjectsData getComparisonData getMockDefects
           getTestFailureDefects remote automated manual settings selectedEnvironment
           selectedDate st) in
  exists p,
    outcomeOf (getProjectData remote projectName selectedEnvironment) = inr (Some p)
    /\ In p (projects shown)
    /\ NoDup (map ModuleTestResult.moduleName (ProjectData.modules p))
    /\ (forall name, In name (map ModuleTestResult.moduleName (ProjectData.modules p))
                     <-> In name areaPaths)
    /\ (forall m, In m (ProjectData.modules p) ->
        ModuleTestResult.linkedDefects m
        = map (fun d => Js.toString (AzureWorkItem.id d))
            (filter (fun d => String.eqb (areaPathTail d) (ModuleTestResult.moduleName m))
               azDefects))
    /\ (forall d m, In d azDefects -> In m (ProjectData.modules p) ->
        areaPathTail d = ModuleTestResult.moduleName m ->
        In (Js.toString (AzureWorkItem.id d)) (ModuleTestResult.linkedDefects m))
    /\ (forall d m m', In m (ProjectData.modules p) -> In m' (ProjectData.modules p) ->
        areaPathTail d = ModuleTestResult.moduleName m ->
        areaPathTail d = ModuleTestResult.moduleName m' -> m = m')
    /\ (forall d, ~ In (areaPathTail d) areaPaths ->
        forall m, In m (ProjectData.modules p) ->
        areaPathTail d <> ModuleTestResult.moduleName m)
    /\ (forall d, In d azDefects ->
        In (transformDefect (newService (Settings.azureDevOps settings))
              selectedEnvironment d)
           (defects shown)).
Proof.
  intros Hc Hsrc Hnames Hproj Hr Ha Hd shown.
  assert (Hshown :
            projects shown
            = collectedProjects
                (fun projName => getProjectData remote projName selectedEnvironment)
                projectNames
            /\ defects shown
               = collectedDefects remote (newService (Settings.azureDevOps settings))
                   selectedEnvironment projectNames).
  { subst shown. unfold refreshData. rewrite Hc, Hsrc. unfold fetchFromTestPlans.
    pose proof (fetchFromAzure_configured _ _ _ getTrendData getComparisonData
                  getTestFailureDefects remote settings selectedEnvironment selectedDate
                  (fun projName => getProjectData remote projName selectedEnvironment)
                  "Test Plans fetch error:" "Failed to fetch Test Plans data: "
                  _ (setLoading _ _ _ true st) (configured_service settings Hc)
                  (fetchOne_plans_fulfils remote selectedEnvironment)) as H.
    cbn zeta in H. rewrite Hnames in H.
    destruct (fetchFromAzure _ _ _ _ _ _ _ _ _ _ _ _ _ _) as [t st2].
    cbn [snd] in H |- *. rewrite H. split; reflexivity. }
  destruct Hshown as [Hprojects Hdefects].
  pose proof (getProjectData_fulfilled remote projectName selectedEnvironment
                testRuns areaPaths azDefects Hr Ha Hd) as Hp.
  exists (planProject projectName testRuns areaPaths azDefects).
  destruct (distinctKeys_spec areaPaths) as [Hnd Hin].
  assert (Hmods : map ModuleTestResult.moduleName
                    (ProjectData.modules
                       (planProject projectName testRuns areaPaths azDefects))
                  = distinctKeys areaPaths).
  { rewrite planProject_modules, map_map. cbn. apply map_id. }
  split; [exact Hp |].
  split.
  { rewrite Hprojects. unfold collectedProjects. apply in_flat_map.
    exists projectName. split; [exact Hproj |]. rewrite Hp. left. reflexivity. }
  split; [rewrite Hmods; exact Hnd |].
  split; [intros name; rewrite Hmods; apply Hin |].
  assert (Hlinked : forall m,
            In m (ProjectData.modules
                    (planProject projectName testRuns areaPaths azDefects)) ->
            m = linkedModule azDefects (ModuleTestResult.moduleName m)).
  { intros m Hm. rewrite planProject_modules in Hm.
    apply in_map_iff in Hm as [k [<- _]]. reflexivity. }
  split; [| split; [| split; [| split]]].
  - intros m Hm. rewrite (Hlinked m Hm) at 1. reflexivity.
  - intros d m Hdin Hm Htail. rewrite (Hlinked m Hm). cbn. unfold linkedIds.
    apply in_map_iff. exists d. split; [reflexivity |].
    apply filter_In. split; [exact Hdin |]. apply String.eqb_eq. exact Htail.
  - intros d m m' Hm Hm' Ht Ht'.
    rewrite (Hlinked m Hm), (Hlinked m' Hm'), <- Ht, <- Ht'. reflexivity.
  - intros d Hnotin m Hm Heq. apply Hnotin. apply Hin. rewrite <- Hmods.
    rewrite Heq. apply in_map. exact Hm.
  - intros d Hdin. rewrite Hdefects. unfold collectedDefects. apply in_flat_map.
    exists projectName. split; [exact Hproj |]. rewrite Hd.
    unfold transformDefects. apply in_map. exact Hdin.
Qed.

(** The spec's example: the bug filed under ["ProjectX\Payments"] is linked
    to the module "Payments" only; the bug under ["ProjectX\Search"] is
    linked to no module and is in the flat list of the refreshed state. *)
Lemma C6_witness_payments :
  isConfigured configuredPlans = true
  /\ dataSourceOf configuredPlans = testplans
  /\ outcomeOf (projectNamesOf (remoteOf planWorld) configuredPlans) = inr ["ProjectX"]
  /\ In "ProjectX" ["ProjectX"]
  /\ outcomeOf (getTestRuns (remoteOf planWorld) "ProjectX" None None)
     = inr [mkRun 1 true 10 5 0 5]
  /\ outcomeOf (getAreaPaths (remoteOf planWorld) "ProjectX")
     = inr ["Payments"; "Checkout"]
  /\ outcomeOf (getDefects (remoteOf planWorld) "ProjectX" None) = inr planDefects
  /\ exists p,
       outcomeOf (getProjectData (remoteOf planWorld) "ProjectX" "QA") = inr (Some p)
       /\ In p (projects (snd (refreshWith (remoteOf planWorld) configuredPlans)))
       /\ map (fun m => (ModuleTestResult.moduleName m, ModuleTestResult.linkedDefects m))
            (ProjectData.modules p)
          = [("Payments", ["101"]); ("Checkout", ["103"])]
       /\ In "DEF-102"
            (map Defect.id (defects (snd (refreshWith (remoteOf planWorld)
                                            configuredPlans)))).
Proof.
  assert (Hin : In "ProjectX" ["ProjectX"]) by (left; reflexivity).
  split; [reflexivity |]. split; [reflexivity |]. split; [reflexivity |].
  split; [exact Hin |].
  split; [reflexivity |]. split; [reflexivity |]. split; [reflexivity |].
  destruct (C6_defect_linked_to_module_named_by_area_path_tail unit unit unit
              (fun _ => [tt]) (fun _ _ => [demoProject]) (fun _ => [tt])
              (fun environment => [demoDefect environment]) (fun _ _ => [tt])
              (remoteOf planWorld) None None configuredPlans "QA" someDay blankState
              ["ProjectX"] "ProjectX" [mkRun 1 true 10 5 0 5]
              ["Payments"; "Checkout"] planDefects
              eq_refl eq_refl eq_refl Hin eq_refl eq_refl eq_refl)
    as [p [Ho [Hshown [_ [_ [_ [_ [_ [_ Hflat]]]]]]]]].
  exists p. split; [exact Ho |]. split; [exact Hshown |].
  split.
  - assert (Hp : Some p = Some (planProject "ProjectX" [mkRun 1 true 10 5 0 5]
                                  ["Payments"; "Checkout"] planDefects)).
    { assert (Hi : forall (x y : option ProjectData.t),
                @inr Error _ x = inr y -> x = y) by (intros x y H; inversion H; reflexivity).
      apply Hi. rewrite <- Ho. reflexivity. }
    inversion Hp. reflexivity.
  - apply in_map_iff.
    exists (transformDefect (newService (Settings.azureDevOps configuredPlans)) "QA"
              (mkWorkItem 102 "New" None None "ProjectX\Search")).
    split; [reflexivity |].
    apply (Hflat (mkWorkItem 102 "New" None None "ProjectX\Search")).
    right. left. reflexivity.
Defined.

Section AppEdgeCases.

Variables TestTrend ComparisonData TestFailureDefect : Type.
Variable getTrendData : Environment -> list TestTrend.
Variable getProjectsData : Environment -> Js.Date -> list ProjectData.t.
Variable getComparisonData : Environment -> list ComparisonData.
Variable getMockDefects : Environment -> list Defect.t.
Variable getTestFailureDefects : Environment -> Js.Date -> list TestFailureDefect.
Variable remote : Remote.
Variables automated manual : option Z.
Variable settings : Settings.t.
Variable selectedEnvironment : Environment.
Variable selectedDate : Js.Date.

(** X20.  [refreshData] never shows the "Azure DevOps not configured"
    message of [fetchFromPipelines] and [fetchFromTestPlans]: it calls them
    only when the connection is configured, and then the service exists.
    Whatever the settings, the remote and the previous state, the error
    message after a refresh is a different one or [null]. *)
Theorem X20_refresh_never_reports_not_configured
  (st : AppState TestTrend ComparisonData TestFailureDefect) :
  dataSourceError
    (snd (refreshData getTrendData getProjectsData getComparisonData getMockDefects
            getTestFailureDefects remote automated manual settings selectedEnvironment
            selectedDate st))
  <> Some "Azure DevOps not configured. Go to Settings → Azure DevOps to set up connection.".
Proof.
  unfold refreshData.
  destruct (dataSourceOf settings) eqn:D; destruct (isConfigured settings) eqn:C;
    try (cbn; discriminate).
  - pose proof (fetchFromAzure_configured _ _ _ getTrendData getComparisonData
                  getTestFailureDefects remote settings selectedEnvironment selectedDate
                  (fun projName => getProjectDataFromPipelines remote automated manual
                                     projName selectedEnvironment selectedDate)
                  "Pipeline fetch error:" "Failed to fetch pipeline data: "
                  _ (setLoading _ _ _ true st) (configured_service settings C)
                  (fetchOne_pipelines_fulfils remote automated manual
                     selectedEnvironment selectedDate)) as H.
    cbn zeta in H. unfold fetchFromPipelines.
    destruct (fetchFromAzure _ _ _ _ _ _ _ _ _ _ _ _ _ _) as [t st2].
    cbn [snd] in H |- *. rewrite H.
    destruct (outcomeOf (projectNamesOf remote settings)); cbn; discriminate.
  - pose proof (fetchFromAzure_configured _ _ _ getTrendData getComparisonData
                  getTestFailureDefects remote settings selectedEnvironment selectedDate
                  (fun projName => getProjectData remote projName selectedEnvironment)
                  "Test Plans fetch error:" "Failed to fetch Test Plans data: "
                  _ (setLoading _ _ _ true st) (configured_service settings C)
                  (fetchOne_plans_fulfils remote selectedEnvironment)) as H.
    cbn zeta in H. unfold fetchFromTestPlans.
    destruct (fetchFromAzure _ _ _ _ _ _ _ _ _ _ _ _ _ _) as [t st2].
    cbn [snd] in H |- *. rewrite H.
    destruct (outcomeOf (projectNamesOf remote settings)); cbn; discriminate.
Qed.

(** X21.  With a configured connection and no enabled project, a refresh in
    pipelines or test-plans mode first lists the remote projects; when that
    listing fails, the refresh sends no other request, logs the error, sets
    the error message to "Failed to fetch ... data: " followed by the
    error's message, and leaves the projects, defects, trends, comparison
    and test failures of the previous state untouched. *)
Theorem X21_project_listing_failure_is_reported
  (st : AppState TestTrend ComparisonData TestFailureDefect) (e : Error) :
  isConfigured settings = true ->
  enabledNames settings = [] ->
  remote ReqProjects = inl e ->
  (dataSourceOf settings = pipelines ->
   refreshData getTrendData getProjectsData getComparisonData getMockDefects
     getTestFailureDefects remote automated manual settings selectedEnvironment
     selectedDate st
   = ([Fetch ReqProjects; ConsoleError "Pipeline fetch error:" e],
      {| loading := false;
         dataSourceError := Some ("Failed to fetch pipeline data: " ++ message e);
         trends := trends st; projects := projects st; comparison := comparison st;
         defects := defects st; testFailures := testFailures st |}))
  /\ (dataSourceOf settings = testplans ->
      refreshData getTrendData getProjectsData getComparisonData getMockDefects
        getTestFailureDefects remote automated manual settings selectedEnvironment
        selectedDate st
      = ([Fetch ReqProjects; ConsoleError "Test Plans fetch error:" e],
         {| loading := false;
            dataSourceError := Some ("Failed to fetch Test Plans data: " ++ message e);
            trends := trends st; projects := projects st; comparison := comparison st;
            defects := defects st; testFailures := testFailures st |})).
Proof.
  intros Hc Hen Hr.
  split; intros Hd; unfold refreshData; rewrite Hc, Hd;
    unfold fetchFromPipelines, fetchFromTestPlans, fetchFromAzure;
    rewrite (configured_service settings Hc), (projectNamesOf_none_enabled remote settings Hen);
    unfold getProjects, request, bind, tryCatch, emit, ret, events, outcomeOf;
    rewrite Hr; reflexivity.
Qed.

(** X22.  When the data source of the settings is unset or is "demo",
    [refreshData] shows the generator's data whether or not a connection is
    configured: it sends no request and clears the error message. *)
Theorem X22_demo_mode_ignores_the_connection
  (st : AppState TestTrend ComparisonData TestFailureDefect) :
  Settings.dataSource settings = None \/ Settings.dataSource settings = Some demo ->
  refreshData getTrendData getProjectsData getComparisonData getMockDefects
    getTestFailureDefects remote automated manual settings selectedEnvironment
    selectedDate st
  = ([], {| loading := false;
            dataSourceError := None;
            trends := getTrendData selectedEnvironment;
            projects := getProjectsData selectedEnvironment selectedDate;
            comparison := getComparisonData selectedEnvironment;
            defects := getMockDefects selectedEnvironment;
            testFailures := getTestFailureDefects selectedEnvironment selectedDate |}).
Proof.
  intros H. unfold refreshData, dataSourceOf.
  destruct H as [H | H]; rewrite H; destruct (isConfigured settings); reflexivity.
Qed.

End AppEdgeCases.

Lemma X21_witness_offline :
  isConfigured configuredPlansNoProject = true
  /\ enabledNames configuredPlansNoProject = []
  /\ offline ReqProjects = inl (NetworkError "Failed to fetch")
  /\ dataSourceOf configuredPlansNoProject = testplans
  /\ refreshWith offline configuredPlansNoProject
     = ([Fetch ReqProjects;
         ConsoleError "Test Plans fetch error:" (NetworkError "Failed to fetch")],
        {| loading := false;
           dataSourceError := Some "Failed to fetch Test Plans data: Failed to fetch";
           trends := []; projects := []; comparison := [];
           defects := []; testFailures := [] |}).
Proof.
  split; [reflexivity |]. split; [reflexivity |]. split; [reflexivity |].
  split; [reflexivity |].
  exact (proj2 (X21_project_listing_failure_is_reported unit unit unit
                  (fun _ => [tt]) (fun _ _ => [demoProject]) (fun _ => [tt])
                  (fun environment => [demoDefect environment]) (fun _ _ => [tt])
                  offline None None configuredPlansNoProject "QA" someDay blankState
                  (NetworkError "Failed to fetch") eq_refl eq_refl eq_refl) eq_refl).
Defined.

Lemma X22_witness_configured_without_source :
  (Settings.dataSource configuredNoSource = None
   \/ Settings.dataSource configuredNoSource = Some demo)
  /\ isConfigured configuredNoSource = true
  /\ refreshWith offline configuredNoSource
     = ([], {| loading := false;
               dataSourceError := None;
               trends := [tt];
               projects := [demoProject];
               comparison := [tt];
               defects := [demoDefect "QA"];
               testFailures := [tt] |}).
Proof.
  assert (H : Settings.dataSource configuredNoSource = None
              \/ Settings.dataSource configuredNoSource = Some demo)
    by (left; reflexivity).
  split; [exact H |]. split; [reflexivity |].
  exact (X22_demo_mode_ignores_the_connection unit unit unit
           (fun _ => [tt]) (fun _ _ => [demoProject]) (fun _ => [tt])
           (fun environment => [demoDefect environment]) (fun _ _ => [tt])
           offline None None configuredNoSource "QA" someDay blankState H).
Defined.

(** ** The tail of an area path *)

Lemma split_nonempty (sep : ascii) (s : string) : Js.split sep s <> [].
Proof.
  destruct s as [| c s]; cbn; [discriminate |].
  destruct (Ascii.eqb c sep); [discriminate |].
  destruct (Js.split sep s); discriminate.
Qed.

Lemma split_app_sep (sep : ascii) (p s : string) :
  Js.split sep (p ++ String sep s) = (Js.split sep p ++ Js.split sep s)%list.
Proof.
  induction p as [| c p IH]; cbn.
  - rewrite Ascii.eqb_refl. reflexivity.
  - rewrite IH. destruct (Ascii.eqb c sep); [reflexivity |].
    pose proof (split_nonempty sep p) as Hne.
    destruct (Js.split sep p); [contradiction | reflexivity].
Qed.

Lemma split_lacks (sep : ascii) (s : string) :
  lacks sep s = true -> Js.split sep s = [s].
Proof.
  induction s as [| c s IH]; cbn; intros H; [reflexivity |].
  apply andb_true_iff in H as [Hc Hs]. apply negb_true_iff in Hc.
  rewrite Hc, (IH Hs). reflexivity.
Qed.

Lemma split_segments_lack (sep : ascii) (s : string) :
  Forall (fun seg => lacks sep seg = true) (Js.split sep s).
Proof.
  induction s as [| c s IH]; cbn.
  - constructor; [reflexivity | constructor].
  - destruct (Ascii.eqb c sep) eqn:E.
    + constructor; [reflexivity | exact IH].
    + destruct (Js.split sep s) as [| seg segs]; [repeat constructor; cbn; rewrite E; reflexivity |].
      inversion IH; subst. constructor; [cbn; rewrite E; assumption | assumption].
Qed.

Lemma pop_app (l1 l2 : list string) : l2 <> [] -> Js.pop (l1 ++ l2) = Js.pop l2.
Proof.
  intros H. unfold Js.pop. rewrite rev_app_distr.
  destruct (rev l2) as [| x r] eqn:E; [| reflexivity].
  apply (f_equal (@rev string)) in E. rewrite rev_involutive in E. contradiction.
Qed.

Lemma pop_In (l : list string) (x : string) : Js.pop l = Some x -> In x l.
Proof.
  unfold Js.pop. destruct (rev l) as [| y r] eqn:E; intros H; inversion H; subst.
  apply in_rev. rewrite E. left; reflexivity.
Qed.

(** X23.  The module key [getProjectData] derives from a defect's area path
    is the text after the last backslash: for a path [prefix\seg] where
    [seg] has no backslash it is [seg] (the empty string when the path ends
    in a backslash), for a path without backslash it is the whole path, and
    it never contains a backslash. *)
Theorem X23_areaPathTail_is_last_segment (defect : AzureWorkItem.t) :
  (forall prefix seg,
     AzureWorkItem.AreaPath (AzureWorkItem.fields defect) = prefix ++ String "\" seg ->
     lacks "\" seg = true ->
     areaPathTail defect = seg)
  /\ (lacks "\" (AzureWorkItem.AreaPath (AzureWorkItem.fields defect)) = true ->
      areaPathTail defect = AzureWorkItem.AreaPath (AzureWorkItem.fields defect))
  /\ lacks "\" (areaPathTail defect) = true.
Proof.
  unfold areaPathTail. split; [| split].
  - intros prefix seg Hp Hs.
    rewrite Hp, split_app_sep, pop_app by apply split_nonempty.
    rewrite (split_lacks _ _ Hs). cbn. destruct seg; reflexivity.
  - intros Hs. rewrite (split_lacks _ _ Hs). cbn.
    destruct (AzureWorkItem.AreaPath (AzureWorkItem.fields defect)); reflexivity.
  - destruct (Js.pop (Js.split "\" (AzureWorkItem.AreaPath (AzureWorkItem.fields defect))))
      as [seg |] eqn:E; [| reflexivity].
    apply pop_In in E.
    pose proof (split_segments_lack "\"
                  (AzureWorkItem.AreaPath (AzureWorkItem.fields defect))) as Hall.
    rewrite Forall_forall in Hall. specialize (Hall seg E).
    destruct seg; [reflexivity | exact Hall].
Qed.

Lemma X23_witness_nested_path :
  AzureWorkItem.AreaPath
    (AzureWorkItem.fields (mkWorkItem 9 "New" None None "ProjectX\Web\Payments"))
  = "ProjectX\Web" ++ String "\" "Payments"
  /\ lacks "\" "Payments" = true
  /\ areaPathTail (mkWorkItem 9 "New" None None "ProjectX\Web\Payments") = "Payments"
  /\ lacks "\" (AzureWorkItem.AreaPath
                  (AzureWorkItem.fields (mkWorkItem 8 "New" None None "ProjectX"))) = true
  /\ areaPathTail (mkWorkItem 8 "New" None None "ProjectX") = "ProjectX".
Proof.
  split; [reflexivity |]. split; [reflexivity |].
  split.
  - exact (proj1 (X23_areaPathTail_is_last_segment
                    (mkWorkItem 9 "New" None None "ProjectX\Web\Payments"))
             "ProjectX\Web" "Payments" eq_refl eq_refl).
  - split; [reflexivity |].
    exact (proj1 (proj2 (X23_areaPathTail_is_last_segment
                           (mkWorkItem 8 "New" None None "ProjectX"))) eq_refl).
Defined.

(** ** Bounds of the pass rates *)

(** X24.  With non-negative counters the pass rate of every breakdown
    [buildBreakdown] builds lies between 0 and 100: neither the rounding of
    the quotient and of the product to doubles nor [toFixed(1)] takes it out
    of that range. *)
Theorem X24_pass_rates_between_0_and_100 (total passed failed skipped : Z) :
  0 <= passed -> 0 <= failed ->
  (0 <= TestTypeBreakdown.passRate (buildBreakdown total passed failed skipped)
   <= 100)%Q.
Proof.
  intros Hp Hf.
  unfold buildBreakdown; cbn [TestTypeBreakdown.passRate].
  destruct (0 <? passed + failed) eqn:E; [| split; lra].
  apply Z.ltb_lt in E. apply toFixed1_bounds. apply percent_bounds; lia.
Qed.

Lemma X24_witness_rates :
  0 <= 1 /\ 0 <= 2
  /\ (0 <= TestTypeBreakdown.passRate (buildBreakdown 3 1 2 0) <= 100)%Q.
Proof.
  assert (H1 : 0 <= 1) by lia. assert (H2 : 0 <= 2) by lia.
  split; [exact H1 |]. split; [exact H2 |].
  exact (X24_pass_rates_between_0_and_100 3 1 2 0 H1 H2).
Defined.

(** X25.  In this revision a refresh in pipelines mode can only show empty
    projects: with a configured connection and at least one enabled
    project, every project record in the state after the refresh belongs to
    an enabled project and has no modules and zero counters, whatever the
    remote answers. *)
Theorem X25_pipelines_refresh_shows_only_empty_projects
  (TestTrend ComparisonData TestFailureDefect : Type)
  (getTrendData : Environment -> list TestTrend)
  (getProjectsData : Environment -> Js.Date -> list ProjectData.t)
  (getComparisonData : Environment -> list ComparisonData)
  (getMockDefects : Environment -> list Defect.t)
  (getTestFailureDefects : Environment -> Js.Date -> list TestFailureDefect)
  (remote : Remote) (automated manual : option Z) (settings : Settings.t)
  (selectedEnvironment : Environment) (selectedDate : Js.Date)
  (st : AppState TestTrend ComparisonData TestFailureDefect) (p : ProjectData.t) :
  isConfigured settings = true ->
  enabledNames settings <> [] ->
  dataSourceOf settings = pipelines ->
  In p (projects (snd (refreshData getTrendData getProjectsData getComparisonData
                         getMockDefects getTestFailureDefects remote automated manual
                         settings selectedEnvironment selectedDate st))) ->
  In (ProjectData.projectName p) (enabledNames settings)
  /\ ProjectData.modules p = []
  /\ ProjectData.totalTests p = 0
  /\ ProjectData.passed p = 0
  /\ ProjectData.failed p = 0
  /\ ProjectData.skipped p = 0.
Proof.
  intros Hc Hen Hd. unfold refreshData. rewrite Hc, Hd. unfold fetchFromPipelines.
  pose proof (fetchFromAzure_configured _ _ _ getTrendData getComparisonData
                getTestFailureDefects remote settings selectedEnvironment selectedDate
                (fun projName => getProjectDataFromPipelines remote automated manual
                                   projName selectedEnvironment selectedDate)
                "Pipeline fetch error:" "Failed to fetch pipeline data: "
                _ (setLoading _ _ _ true st) (configured_service settings Hc)
                (fetchOne_pipelines_fulfils remote automated manual
                   selectedEnvironment selectedDate)) as H.
  cbn zeta in H. rewrite (projectNamesOf_enabled remote settings Hen) in H.
  cbn [outcomeOf ret snd] in H.
  destruct (fetchFromAzure _ _ _ _ _ _ _ _ _ _ _ _ _ _) as [t st2].
  cbn [snd] in H |- *. rewrite H. cbn [projects setLoading filledState setTestFailures
    setComparison setTrends setDefects setProjects].
  unfold collectedProjects. intros Hin.
  apply in_flat_map in Hin as [name [Hname Hp]].
  destruct (outcomeOf (getProjectDataFromPipelines remote automated manual name
                         selectedEnvironment selectedDate)) as [e | [d |]] eqn:E;
    try contradiction.
  destruct Hp as [<- | []].
  apply getProjectDataFromPipelines_returned in E. subst d.
  repeat split; try reflexivity. exact Hname.
Qed.

Lemma X25_witness_builds_without_tests :
  isConfigured configuredPipelines = true
  /\ enabledNames configuredPipelines <> []
  /\ dataSourceOf configuredPipelines = pipelines
  /\ In (emptyProject "ProjectX")
       (projects (snd (refreshWith (remoteOf buildsWithoutTests) configuredPipelines)))
  /\ ProjectData.modules (emptyProject "ProjectX") = [].
Proof.
  assert (Hen : enabledNames configuredPipelines <> []) by discriminate.
  assert (Hin : In (emptyProject "ProjectX")
                  (projects (snd (refreshWith (remoteOf buildsWithoutTests)
                                    configuredPipelines))))
    by (left; reflexivity).
  split; [reflexivity |]. split; [exact Hen |]. split; [reflexivity |].
  split; [exact Hin |].
  exact (proj1 (proj2 (X25_pipelines_refresh_shows_only_empty_projects unit unit unit
                         (fun _ => [tt]) (fun _ _ => [demoProject]) (fun _ => [tt])
                         (fun environment => [demoDefect environment]) (fun _ _ => [tt])
                         (remoteOf buildsWithoutTests) None None configuredPipelines
                         "QA" someDay blankState (emptyProject "ProjectX")
                         eq_refl Hen eq_refl Hin))).
Defined.

(** ** The deep-link builder *)

Lemma append_slash_not_hash (a b : string) : a ++ String "/" b <> "#".
Proof.
  destruct a as [| c a]; cbn; [discriminate |].
  intros H. inversion H as [[Hc Ha]]. destruct a; discriminate.
Qed.

Lemma append_assoc_slash (a b c : string) : (a ++ b) ++ c = a ++ (b ++ c).
Proof. induction a as [| x a IH]; cbn; [reflexivity | rewrite IH; reflexivity]. Qed.

(** X26.  Each link builder returns the placeholder "#" exactly when no
    configuration has been installed ([_config] is [null]); with any
    configuration installed, also one whose organization is empty, it
    returns a link. *)
Theorem X26_links_are_placeholders_iff_no_config
  (encodeURIComponent : string -> string) (_config : option AzDoUrls.AzDoUrlConfig)
  (project : string) :
  (forall id, AzDoUrls.workItemUrl encodeURIComponent _config project id = "#"
              <-> _config = None)
  /\ (AzDoUrls.testRunsUrl encodeURIComponent _config project = "#" <-> _config = None)
  /\ (forall id, AzDoUrls.testRunUrl encodeURIComponent _config project id = "#"
                 <-> _config = None)
  /\ (forall id, AzDoUrls.pipelineRunsUrl encodeURIComponent _config project id = "#"
                 <-> _config = None)
  /\ (forall workItemType state,
        AzDoUrls.workItemsQueryUrl encodeURIComponent _config project workItemType state
        = "#" <-> _config = None)
  /\ (AzDoUrls.boardsUrl encodeURIComponent _config project = "#" <-> _config = None).
Proof.
  unfold AzDoUrls.workItemUrl, AzDoUrls.testRunsUrl, AzDoUrls.testRunUrl,
    AzDoUrls.pipelineRunsUrl, AzDoUrls.workItemsQueryUrl, AzDoUrls.boardsUrl,
    AzDoUrls.base.
  destruct _config as [c |].
  - repeat split; try (intros H; discriminate H); intros H; exfalso.
    + exact (append_slash_not_hash _ _ H).
    + exact (append_slash_not_hash _ _ H).
    + exact (append_slash_not_hash _ _ H).
    + destruct id as [id |]; [destruct (AzDoUrls.truthyId id) |].
      * rewrite append_assoc_slash in H. exact (append_slash_not_hash _ _ H).
      * exact (append_slash_not_hash _ _ H).
      * exact (append_slash_not_hash _ _ H).
    + exact (append_slash_not_hash _ _ H).
    + exact (append_slash_not_hash _ _ H).
  - repeat split; intros; reflexivity.
Qed.

(** X27.  [isAzDoConfigured] is stricter than the builders: it is true
    exactly when a configuration with a non-empty organization is installed.
    With a configuration whose organization is empty it answers false while
    the builders still return links, whose organization segment is empty
    ([base//project/...]). *)
Theorem X27_isAzDoConfigured_and_empty_organization
  (encodeURIComponent : string -> string) (_config : option AzDoUrls.AzDoUrlConfig) :
  (AzDoUrls.isAzDoConfigured _config = true
   <-> exists c, _config = Some c /\ AzDoUrls.organization c <> "")
  /\ (forall c, _config = Some c -> AzDoUrls.organization c = "" ->
      AzDoUrls.isAzDoConfigured _config = false
      /\ AzDoUrls.getOrgName _config = ""
      /\ forall project id,
           AzDoUrls.workItemUrl encodeURIComponent _config project id
           = AzDoUrls.baseUrl c ++ "//" ++ encodeURIComponent project
             ++ "/_workitems/edit/" ++ AzDoUrls.show id).
Proof.
  split.
  - unfold AzDoUrls.isAzDoConfigured. destruct _config as [c |].
    + split.
      * intros H. exists c. split; [reflexivity |].
        apply negb_true_iff in H. apply String.eqb_neq in H. exact H.
      * intros [c' [Hc Hne]]. inversion Hc; subst.
        apply negb_true_iff. apply String.eqb_neq. exact Hne.
    + split; [discriminate | intros [c [H _]]; discriminate].
  - intros c Hc Horg. subst _config.
    unfold AzDoUrls.isAzDoConfigured, AzDoUrls.getOrgName, AzDoUrls.workItemUrl,
      AzDoUrls.base.
    rewrite Horg. split; [reflexivity |]. split; [reflexivity |].
    intros project id. rewrite !append_assoc_slash. reflexivity.
Qed.

Lemma X27_witness_empty_organization :
  Some (AzDoUrls.mkConfig "https://dev.azure.com" "")
  = Some (AzDoUrls.mkConfig "https://dev.azure.com" "")
  /\ AzDoUrls.organization (AzDoUrls.mkConfig "https://dev.azure.com" "") = ""
  /\ AzDoUrls.isAzDoConfigured (Some (AzDoUrls.mkConfig "https://dev.azure.com" ""))
     = false
  /\ AzDoUrls.workItemUrl (fun s => s)
       (Some (AzDoUrls.mkConfig "https://dev.azure.com" "")) "ProjectX"
       (AzDoUrls.NumberId 101)
     = "https://dev.azure.com//ProjectX/_workitems/edit/101".
Proof.
  split; [reflexivity |]. split; [reflexivity |].
  destruct (proj2 (X27_isAzDoConfigured_and_empty_organization (fun s => s)
                     (Some (AzDoUrls.mkConfig "https://dev.azure.com" "")))
              (AzDoUrls.mkConfig "https://dev.azure.com" "") eq_refl eq_refl)
    as [Hc [_ Hurl]].
  split; [exact Hc |].
  exact (Hurl "ProjectX" (AzDoUrls.NumberId 101)).
Defined.
